(** * Death2Data gateway: the credential store of [gateway.py]

    A shallow embedding of the token and login-audit code of [gateway.py]
    (hashing, issuance, verification, login logging, retention pruning and
    the request handler that calls them), followed by the properties the
    specification states about it.

    Conventions.
    - A Python [str] is a Rocq [string] whose characters are the code points
      U+0000..U+00FF; [encode] is [str.encode()] (UTF-8) on that range.
    - [hashlib.sha256] is the FIPS 180-4 function, written out on 32-bit
      words held in [Z] with the wrap-around explicit.
    - A [datetime] is the record of calendar fields the Python class keeps;
      ordering, [isoformat], [fromisoformat] and the [timedelta] arithmetic
      follow the [datetime] module.
    - The SQLite file is a record of its two tables; [tokens] has a primary
      key and is a finite map from the key, [logins] is the list of rows in
      rowid order together with the AUTOINCREMENT counter.
    - Every function that touches the database runs in a state-and-exception
      monad over the database and the trace of calls made to [sqlite3]. *)

From Stdlib Require Import ZArith NArith Lia Bool List Ascii String.
From Stdlib.Strings Require Import Byte.
From stdpp Require Import base option list gmap strings.

Local Open Scope string_scope.
Local Open Scope Z_scope.

(* ===================================================================== *)
(** * Python strings and their UTF-8 encoding                             *)
(* ===================================================================== *)

Module PyStr.

(** Code point of a character. *)
Definition ord (c : ascii) : Z := Z.of_N (N_of_ascii c).

Definition byte_of_Z (z : Z) : byte := byte_of_ascii (ascii_of_N (Z.to_N z)).
Definition Z_of_byte (b : byte) : Z := Z.of_N (Byte.to_N b).

(** UTF-8 of one code point below U+0100: one byte below U+0080, otherwise
    the two bytes [110xxxxx 10xxxxxx]. *)
Definition encode_char (c : ascii) : list byte :=
  let n := ord c in
  if n <? 128 then [byte_of_Z n]
  else [byte_of_Z (Z.lor 192 (Z.shiftr n 6)); byte_of_Z (Z.lor 128 (Z.land n 63))].

(** [s.encode()] *)
Fixpoint encode (s : string) : list byte :=
  match s with
  | EmptyString => []
  | String c s' => encode_char c ++ encode s'
  end.

(** [s.startswith(p)] *)
Fixpoint startswith (p s : string) : bool :=
  match p, s with
  | EmptyString, _ => true
  | String a p', String b s' => if Ascii.eqb a b then startswith p' s' else false
  | String _ _, EmptyString => false
  end.

(** [s[:n]] for [n >= 0] *)
Fixpoint take (n : nat) (s : string) : string :=
  match n, s with
  | O, _ => EmptyString
  | S _, EmptyString => EmptyString
  | S n', String c s' => String c (take n' s')
  end.

(** [s[n:]] for [n >= 0] *)
Fixpoint drop (n : nat) (s : string) : string :=
  match n, s with
  | O, _ => s
  | S _, EmptyString => EmptyString
  | S n', String _ s' => drop n' s'
  end.

(** Truthiness of a [str]: the empty string is false. *)
Definition truthy (s : string) : bool :=
  match s with EmptyString => false | String _ _ => true end.

(** Truthiness of an optional [str]: [None] and [""] are false. *)
Definition truthy_opt (o : option string) : bool :=
  match o with None => false | Some s => truthy s end.

(** [o or ""] for an optional [str]. *)
Definition or_empty (o : option string) : string :=
  match o with
  | None => EmptyString
  | Some s => if truthy s then s else EmptyString
  end.

Definition is_ascii_char (c : ascii) : bool := ord c <? 128.

Fixpoint is_ascii (s : string) : bool :=
  match s with
  | EmptyString => true
  | String c s' => is_ascii_char c && is_ascii s'
  end.

(** Characters removed by [str.strip()] in the range modelled. *)
Definition isspace (c : ascii) : bool :=
  let n := ord c in
  ((9 <=? n) && (n <=? 13)) || ((28 <=? n) && (n <=? 32))
  || (n =? 133) || (n =? 160).

Fixpoint lstrip (s : string) : string :=
  match s with
  | EmptyString => EmptyString
  | String c s' => if isspace c then lstrip s' else s
  end.

Fixpoint rstrip (s : string) : string :=
  match s with
  | EmptyString => EmptyString
  | String c s' =>
      match rstrip s' with
      | EmptyString => if isspace c then EmptyString else String c EmptyString
      | r => String c r
      end
  end.

(** [s.strip()] *)
Definition strip (s : string) : string := rstrip (lstrip s).

(** [s.split(sep)[0]] for a one-character separator. *)
Fixpoint split_first (sep : ascii) (s : string) : string :=
  match s with
  | EmptyString => EmptyString
  | String c s' => if Ascii.eqb c sep then EmptyString else String c (split_first sep s')
  end.

End PyStr.

(* ===================================================================== *)
(** * hashlib.sha256                                                      *)
(* ===================================================================== *)

Module Sha256.

Definition wrap32 (x : Z) : Z := x mod 4294967296.
Definition add32 (x y : Z) : Z := wrap32 (x + y).
Definition rotr (n x : Z) : Z :=
  Z.lor (Z.shiftr x n) (wrap32 (Z.shiftl x (32 - n))).
Definition not32 (x : Z) : Z := 4294967295 - x.

Definition ch (x y z : Z) : Z := Z.lxor (Z.land x y) (Z.land (not32 x) z).
Definition maj (x y z : Z) : Z :=
  Z.lxor (Z.lxor (Z.land x y) (Z.land x z)) (Z.land y z).
Definition bsig0 (x : Z) : Z := Z.lxor (Z.lxor (rotr 2 x) (rotr 13 x)) (rotr 22 x).
Definition bsig1 (x : Z) : Z := Z.lxor (Z.lxor (rotr 6 x) (rotr 11 x)) (rotr 25 x).
Definition ssig0 (x : Z) : Z := Z.lxor (Z.lxor (rotr 7 x) (rotr 18 x)) (Z.shiftr x 3).
Definition ssig1 (x : Z) : Z := Z.lxor (Z.lxor (rotr 17 x) (rotr 19 x)) (Z.shiftr x 10).

(** Round constants (fractional parts of the cube roots of the first 64
    primes), in decimal. *)
Definition round_constants : list Z :=
  [ 1116352408; 1899447441; 3049323471; 3921009573; 961987163; 1508970993;
    2453635748; 2870763221; 3624381080; 310598401; 607225278; 1426881987;
    1925078388; 2162078206; 2614888103; 3248222580; 3835390401; 4022224774;
    264347078; 604807628; 770255983; 1249150122; 1555081692; 1996064986;
    2554220882; 2821834349; 2952996808; 3210313671; 3336571891; 3584528711;
    113926993; 338241895; 666307205; 773529912; 1294757372; 1396182291;
    1695183700; 1986661051; 2177026350; 2456956037; 2730485921; 2820302411;
    3259730800; 3345764771; 3516065817; 3600352804; 4094571909; 275423344;
    430227734; 506948616; 659060556; 883997877; 958139571; 1322822218;
    1537002063; 1747873779; 1955562222; 2024104815; 2227730452; 2361852424;
    2428436474; 2756734187; 3204031479; 3329325298 ].

Definition initial_state : list Z :=
  [ 1779033703; 3144134277; 1013904242; 2773480762;
    1359893119; 2600822924; 528734635; 1541459225 ].

(** Big-endian bytes of [x], [n] of them. *)
Fixpoint be_bytes (n : nat) (x : Z) : list Z :=
  match n with
  | O => []
  | S n' => be_bytes n' (x / 256) ++ [x mod 256]
  end.

(** The message followed by the bit 1, zeros up to 56 modulo 64, and the
    bit length on 64 bits. *)
Definition pad (msg : list Z) : list Z :=
  let len := Z.of_nat (List.length msg) in
  msg ++ [128] ++ repeat 0 (Z.to_nat ((55 - len) mod 64)) ++ be_bytes 8 (8 * len).

Fixpoint words_of_bytes (bs : list Z) : list Z :=
  match bs with
  | a :: b :: c :: d :: rest =>
      (Z.lor (Z.lor (Z.lor (Z.shiftl a 24) (Z.shiftl b 16)) (Z.shiftl c 8)) d)
        :: words_of_bytes rest
  | _ => []
  end.

(** Message schedule: the 16 words of the block extended to 64; the list
    is kept newest first while it grows. *)
Fixpoint extend (n : nat) (rev_w : list Z) : list Z :=
  match n with
  | O => rev_w
  | S n' =>
      let w2 := nth 1 rev_w 0 in
      let w7 := nth 6 rev_w 0 in
      let w15 := nth 14 rev_w 0 in
      let w16 := nth 15 rev_w 0 in
      extend n' (add32 (add32 (add32 (ssig1 w2) w7) (ssig0 w15)) w16 :: rev_w)
  end.

Definition schedule (block : list Z) : list Z := rev (extend 48 (rev block)).

Record regs := Regs { ra : Z; rb : Z; rc : Z; rd : Z; re : Z; rf : Z; rg : Z; rh : Z }.

Definition round (s : regs) (kw : Z * Z) : regs :=
  let t1 := add32 (add32 (add32 (add32 (rh s) (bsig1 (re s))) (ch (re s) (rf s) (rg s)))
                    (fst kw)) (snd kw) in
  let t2 := add32 (bsig0 (ra s)) (maj (ra s) (rb s) (rc s)) in
  Regs (add32 t1 t2) (ra s) (rb s) (rc s) (add32 (rd s) t1) (re s) (rf s) (rg s).

Definition regs_of_list (l : list Z) : regs :=
  Regs (nth 0 l 0) (nth 1 l 0) (nth 2 l 0) (nth 3 l 0)
       (nth 4 l 0) (nth 5 l 0) (nth 6 l 0) (nth 7 l 0).

Definition list_of_regs (s : regs) : list Z :=
  [ra s; rb s; rc s; rd s; re s; rf s; rg s; rh s].

Definition compress (h : list Z) (block : list Z) : list Z :=
  let s := fold_left round (combine round_constants (schedule block)) (regs_of_list h) in
  map (fun p => add32 (fst p) (snd p)) (combine h (list_of_regs s)).

(** The 16-word blocks of a word list; [fuel] bounds the number of blocks. *)
Fixpoint blocks (fuel : nat) (ws : list Z) : list (list Z) :=
  match fuel, ws with
  | _, [] => []
  | O, _ => []
  | S fuel', _ => firstn 16 ws :: blocks fuel' (skipn 16 ws)
  end.

(** The eight words of the digest. *)
Definition digest_words (msg : list byte) : list Z :=
  let ws := words_of_bytes (pad (map PyStr.Z_of_byte msg)) in
  fold_left compress (blocks (List.length ws) ws) initial_state.

Definition hex_digit (d : Z) : ascii :=
  if d <? 10 then ascii_of_N (Z.to_N (48 + d)) else ascii_of_N (Z.to_N (87 + d)).

(** [n] lower-case hexadecimal digits of [x], most significant first. *)
Fixpoint hex (n : nat) (x : Z) : string :=
  match n with
  | O => EmptyString
  | S n' => hex n' (x / 16) +:+ String (hex_digit (x mod 16)) EmptyString
  end.

(** [hashlib.sha256(msg).hexdigest()] *)
Definition hexdigest (msg : list byte) : string :=
  fold_right (fun w acc => hex 8 w +:+ acc) EmptyString (digest_words msg).

End Sha256.

(** [hash_token]: SHA-256 of the token, as lower-case hex. *)
Definition hash_token (token : string) : string :=
  Sha256.hexdigest (PyStr.encode token).


(* ===================================================================== *)
(** * The datetime module                                                 *)
(* ===================================================================== *)

Module Datetime.

Definition MINYEAR : Z := 1.
Definition MAXYEAR : Z := 9999.
Definition MAXORDINAL : Z := 3652059.

Definition DAYS_IN_MONTH : list Z :=
  [-1; 31; 28; 31; 30; 31; 30; 31; 31; 30; 31; 30; 31].
Definition DAYS_BEFORE_MONTH : list Z :=
  [-1; 0; 31; 59; 90; 120; 151; 181; 212; 243; 273; 304; 334].

Definition tbl (t : list Z) (i : Z) : Z := nth (Z.to_nat i) t 0.

Definition is_leap (year : Z) : bool :=
  (year mod 4 =? 0) && (negb (year mod 100 =? 0) || (year mod 400 =? 0)).

Definition days_before_year (year : Z) : Z :=
  let y := year - 1 in y * 365 + y / 4 - y / 100 + y / 400.

Definition days_in_month (year month : Z) : Z :=
  if (month =? 2) && is_leap year then 29 else tbl DAYS_IN_MONTH month.

Definition days_before_month (year month : Z) : Z :=
  tbl DAYS_BEFORE_MONTH month + (if (2 <? month) && is_leap year then 1 else 0).

Definition ymd2ord (year month day : Z) : Z :=
  days_before_year year + days_before_month year month + day.

Definition DI400Y : Z := 146097.
Definition DI100Y : Z := 36524.
Definition DI4Y : Z := 1461.

(** Month and day of the [n]-th day (from 0) of a year. *)
Definition month_day (leapyear : bool) (n : Z) : Z * Z :=
  let month := Z.shiftr (n + 50) 5 in
  let preceding :=
    tbl DAYS_BEFORE_MONTH month + (if (2 <? month) && leapyear then 1 else 0) in
  if n <? preceding then
    let month' := month - 1 in
    let preceding' :=
      preceding - (tbl DAYS_IN_MONTH month' + (if (month' =? 2) && leapyear then 1 else 0)) in
    (month', n - preceding' + 1)
  else (month, n - preceding + 1).

Definition ord2ymd (n : Z) : Z * Z * Z :=
  let n := n - 1 in
  let n400 := n / DI400Y in
  let n := n mod DI400Y in
  let year := n400 * 400 + 1 in
  let n100 := n / DI100Y in
  let n := n mod DI100Y in
  let n4 := n / DI4Y in
  let n := n mod DI4Y in
  let n1 := n / 365 in
  let n := n mod 365 in
  let year := year + n100 * 100 + n4 * 4 + n1 in
  if (n1 =? 4) || (n100 =? 4) then (year - 1, 12, 31)
  else
    let leapyear := (n1 =? 3) && (negb (n4 =? 24) || (n100 =? 3)) in
    let '(month, day) := month_day leapyear n in
    (year, month, day).

(** The fields of a naive [datetime]. *)
Record datetime := mkDatetime {
  year : Z; month : Z; day : Z;
  hour : Z; minute : Z; second : Z; microsecond : Z
}.

Definition check_date_fields (y m d : Z) : bool :=
  (MINYEAR <=? y) && (y <=? MAXYEAR) && (1 <=? m) && (m <=? 12)
  && (1 <=? d) && (d <=? days_in_month y m).

Definition check_time_fields (h mi s us : Z) : bool :=
  (0 <=? h) && (h <=? 23) && (0 <=? mi) && (mi <=? 59)
  && (0 <=? s) && (s <=? 59) && (0 <=? us) && (us <=? 999999).

(** What the constructor of [datetime] accepts. *)
Definition valid (t : datetime) : bool :=
  check_date_fields (year t) (month t) (day t)
  && check_time_fields (hour t) (minute t) (second t) (microsecond t).

(** Lexicographic composition of comparisons. *)
Definition lex (c1 c2 : comparison) : comparison :=
  match c1 with Eq => c2 | _ => c1 end.

(** [datetime._cmp]: the field tuples compared. *)
Definition cmp (a b : datetime) : comparison :=
  lex (year a ?= year b)
 (lex (month a ?= month b)
 (lex (day a ?= day b)
 (lex (hour a ?= hour b)
 (lex (minute a ?= minute b)
 (lex (second a ?= second b)
      (microsecond a ?= microsecond b)))))).

(** [a < b] *)
Definition lt (a b : datetime) : bool :=
  match cmp a b with Lt => true | _ => false end.

(** [a <= b] *)
Definition le (a b : datetime) : bool :=
  match cmp a b with Gt => false | _ => true end.

Definition toordinal (t : datetime) : Z := ymd2ord (year t) (month t) (day t).

(** A normalised [timedelta]: [0 <= seconds < 86400],
    [0 <= microseconds < 1000000]. *)
Record timedelta := mkDelta { days : Z; seconds : Z; microseconds : Z }.

(** [timedelta(days=d, seconds=s, microseconds=us)] for integer
    arguments, carried into normal form. *)
Definition timedelta_of (d s us : Z) : timedelta :=
  let s := s + us / 1000000 in
  let us := us mod 1000000 in
  let d := d + s / 86400 in
  let s := s mod 86400 in
  mkDelta d s us.

Definition delta_add (a b : timedelta) : timedelta :=
  timedelta_of (days a + days b) (seconds a + seconds b)
               (microseconds a + microseconds b).

Definition delta_neg (a : timedelta) : timedelta :=
  timedelta_of (- days a) (- seconds a) (- microseconds a).

(** [t + delta]; [None] is [OverflowError]. *)
Definition add (t : datetime) (delta : timedelta) : option datetime :=
  let delta :=
    delta_add
      (timedelta_of (toordinal t)
                    (hour t * 3600 + minute t * 60 + second t)
                    (microsecond t))
      delta in
  let hour := seconds delta / 3600 in
  let rem := seconds delta mod 3600 in
  let minute := rem / 60 in
  let second := rem mod 60 in
  if (0 <? days delta) && (days delta <=? MAXORDINAL) then
    let '(y, m, d) := ord2ymd (days delta) in
    Some (mkDatetime y m d hour minute second (microseconds delta))
  else None.

(** [t - delta] *)
Definition sub (t : datetime) (delta : timedelta) : option datetime :=
  add t (delta_neg delta).

Definition digit (d : Z) : ascii := ascii_of_N (Z.to_N (48 + d)).

(** ["%0nd" % x] for [0 <= x < 10^n]. *)
Fixpoint zfill (n : nat) (x : Z) : string :=
  match n with
  | O => EmptyString
  | S n' => zfill n' (x / 10) +:+ String (digit (x mod 10)) EmptyString
  end.

(** The fraction that [isoformat] appends: nothing when the microsecond
    is zero. *)
Definition fraction (us : Z) : string :=
  if us =? 0 then EmptyString else "." +:+ zfill 6 us.

(** [t.isoformat()] *)
Definition isoformat (t : datetime) : string :=
  zfill 4 (year t) +:+ "-" +:+ zfill 2 (month t) +:+ "-" +:+ zfill 2 (day t)
  +:+ "T" +:+ zfill 2 (hour t) +:+ ":" +:+ zfill 2 (minute t) +:+ ":"
  +:+ zfill 2 (second t) +:+ fraction (microsecond t).

Definition digit_value (c : ascii) : option Z :=
  let n := PyStr.ord c in
  if (48 <=? n) && (n <=? 57) then Some (n - 48) else None.

(** Reads exactly [n] decimal digits after the accumulated value. *)
Fixpoint read_digits (n : nat) (acc : Z) (s : string) : option (Z * string) :=
  match n with
  | O => Some (acc, s)
  | S n' =>
      match s with
      | EmptyString => None
      | String c s' =>
          match digit_value c with
          | Some d => read_digits n' (10 * acc + d) s'
          | None => None
          end
      end
  end.

Definition expect (c : ascii) (s : string) : option string :=
  match s with
  | String c' s' => if Ascii.eqb c c' then Some s' else None
  | EmptyString => None
  end.

Definition read_fraction (s : string) : option Z :=
  match s with
  | EmptyString => Some 0
  | String c s' =>
      if Ascii.eqb c "." then
        match read_digits 6 0 s' with
        | Some (us, EmptyString) => Some us
        | _ => None
        end
      else None
  end.

(** [datetime.fromisoformat(s)] on the two shapes [isoformat] writes for a
    naive datetime, [YYYY-MM-DDTHH:MM:SS] and [YYYY-MM-DDTHH:MM:SS.ffffff];
    [None] is [ValueError].  Other spellings, which differ between Python
    versions, are not modelled and are never stored by this program. *)
Definition fromisoformat (s : string) : option datetime :=
  '(y, s) ← read_digits 4 0 s;
  s ← expect "-" s;
  '(m, s) ← read_digits 2 0 s;
  s ← expect "-" s;
  '(d, s) ← read_digits 2 0 s;
  s ← expect "T" s;
  '(h, s) ← read_digits 2 0 s;
  s ← expect ":" s;
  '(mi, s) ← read_digits 2 0 s;
  s ← expect ":" s;
  '(sec, s) ← read_digits 2 0 s;
  us ← read_fraction s;
  let t := mkDatetime y m d h mi sec us in
  if valid t then Some t else None.

(** Microseconds since the start of day 0 of the proleptic calendar. *)
Definition to_microseconds (t : datetime) : Z :=
  (((toordinal t * 24 + hour t) * 60 + minute t) * 60 + second t) * 1000000
  + microsecond t.

Definition delta_microseconds (a : timedelta) : Z :=
  (days a * 86400 + seconds a) * 1000000 + microseconds a.

End Datetime.

Import Datetime.


(* ===================================================================== *)
(** * The SQLite database behind [sqlite3]                                *)
(* ===================================================================== *)

Module Sqlite.

Inductive sql_type := TEXT | INTEGER.

Record column := mkColumn {
  col_name : string;
  col_type : sql_type;
  col_not_null : bool;
  col_primary_key : bool;
  col_autoincrement : bool
}.

(** [CREATE TABLE IF NOT EXISTS tokens (...)] *)
Definition tokens_schema : list column :=
  [ mkColumn "hash" TEXT false true false;
    mkColumn "created_at" TEXT true false false;
    mkColumn "expires_at" TEXT true false false ].

(** [CREATE TABLE IF NOT EXISTS logins (...)] *)
Definition logins_schema : list column :=
  [ mkColumn "id" INTEGER false true true;
    mkColumn "token_hash" TEXT true false false;
    mkColumn "ip_address" TEXT true false false;
    mkColumn "user_agent" TEXT false false false;
    mkColumn "timestamp" TEXT true false false ].

(** A row of [tokens] without its key [hash]. *)
Record token_row := mkToken { created_at : string; expires_at : string }.

(** A row of [logins]; [user_agent] is the only nullable column. *)
Record login_row := mkLogin {
  id : Z;
  token_hash : string;
  ip_address : string;
  user_agent : option string;
  timestamp : string
}.

(** The database file: [tokens] keyed by its primary key, [logins] in
    rowid order, and the AUTOINCREMENT counter that SQLite keeps for
    [logins] in [sqlite_sequence]. *)
Record database := mkDatabase {
  tokens : gmap string token_row;
  logins : list login_row;
  logins_seq : Z
}.

Definition empty_database : database := mkDatabase ∅ [] 0.

(** [memcmp] followed by the length comparison: the BINARY collation. *)
Fixpoint memcmp (a b : list byte) : comparison :=
  match a, b with
  | [], [] => Eq
  | [], _ :: _ => Lt
  | _ :: _, [] => Gt
  | x :: a', y :: b' =>
      match PyStr.Z_of_byte x ?= PyStr.Z_of_byte y with
      | Eq => memcmp a' b'
      | c => c
      end
  end.

(** [a < b] on TEXT values, which SQLite holds in UTF-8. *)
Definition text_lt (a b : string) : bool :=
  match memcmp (PyStr.encode a) (PyStr.encode b) with Lt => true | _ => false end.

Definition max_rowid (rows : list login_row) : Z :=
  fold_right (fun r m => Z.max (id r) m) 0 rows.

(** The rowid AUTOINCREMENT gives to the next row: one more than the
    largest rowid the table has ever held. *)
Definition next_rowid (d : database) : Z :=
  Z.max (logins_seq d) (max_rowid (logins d)) + 1.

(** What the program asks of [sqlite3], in order. *)
Inductive call :=
| Connect
| CreateTable (name : string) (schema : list column)
| InsertToken (hash created expires : string)
| SelectExpiresAt (hash : string)
| InsertLogin (hash ip : string) (ua : option string) (ts : string)
| DeleteLoginsBefore (cutoff : string)
| Commit
| Close.

End Sqlite.

Import Sqlite.

(* ===================================================================== *)
(** * The process: database file, clock, calls made, exceptions          *)
(* ===================================================================== *)

Inductive exn :=
| OverflowError      (* datetime arithmetic out of range *)
| IntegrityError     (* UNIQUE constraint failed: tokens.hash *)
| ValueError         (* fromisoformat on a malformed text *)
| IndexError         (* [0] on an empty list *)
| AttributeError.    (* a method of [str] called on [None] *)

Inductive outcome (A : Type) :=
| Return (a : A)
| Raise (e : exn).
Arguments Return {A} a.
Arguments Raise {A} e.

(** What a function of [gateway.py] runs against: the committed content of
    [DATABASE_PATH], the value [datetime.utcnow()] reads, the calls made to
    [sqlite3] so far (oldest first), the answer of the SearXNG instance to
    a query ([None]: [urlopen] raises) and the queries sent to it. *)
Record world := mkWorld {
  db : database;
  clock : datetime;
  calls : list call;
  upstream : string -> option string;
  sent_upstream : list string
}.

Definition M (A : Type) : Type := world -> outcome A * world.

#[global] Instance M_ret : MRet M := fun A a w => (Return a, w).
#[global] Instance M_bind : MBind M := fun A B f m w =>
  match m w with
  | (Return a, w') => f a w'
  | (Raise e, w') => (Raise e, w')
  end.

Definition raise {A} (e : exn) : M A := fun w => (Raise e, w).

Definition called (c : call) : M unit := fun w =>
  (Return tt, mkWorld (db w) (clock w) (calls w ++ [c]) (upstream w) (sent_upstream w)).

(** [datetime.utcnow()] *)
Definition utcnow : M datetime := fun w => (Return (clock w), w).

(** A value or the exception that stands for its absence. *)
Definition or_raise {A} (e : exn) (o : option A) : M A :=
  match o with Some a => mret a | None => raise e end.

(** An open connection: the tables as this connection sees them, with its
    uncommitted changes. *)
Record connection := mkConn { pending : database }.

(** [sqlite3.connect(DATABASE_PATH)] *)
Definition connect : M connection := fun w =>
  (Return (mkConn (db w)),
   mkWorld (db w) (clock w) (calls w ++ [Connect]) (upstream w) (sent_upstream w)).

(** [conn.commit()] *)
Definition commit (conn : connection) : M unit := fun w =>
  (Return tt,
   mkWorld (pending conn) (clock w) (calls w ++ [Commit]) (upstream w) (sent_upstream w)).

(** [conn.close()]: what was not committed is dropped with the connection. *)
Definition close (conn : connection) : M unit := called Close.

(** [CREATE TABLE IF NOT EXISTS ...]: an existing table keeps its rows. *)
Definition execute_create_table (conn : connection) (name : string)
    (schema : list column) : M connection :=
  called (CreateTable name schema);; mret conn.

(** [INSERT INTO tokens (hash, created_at, expires_at) VALUES (?, ?, ?)] *)
Definition execute_insert_token (conn : connection) (hash created expires : string)
    : M connection :=
  called (InsertToken hash created expires);;
  let d := pending conn in
  match tokens d !! hash with
  | Some _ => raise IntegrityError
  | None =>
      mret (mkConn (mkDatabase (<[hash := mkToken created expires]> (tokens d))
                               (logins d) (logins_seq d)))
  end.

(** [SELECT expires_at FROM tokens WHERE hash = ?] followed by
    [fetchone()] *)
Definition execute_select_expires_at (conn : connection) (hash : string)
    : M (option string) :=
  called (SelectExpiresAt hash);;
  mret (expires_at <$> tokens (pending conn) !! hash).

(** [INSERT INTO logins (token_hash, ip_address, user_agent, timestamp)
    VALUES (?, ?, ?, ?)], for a table whose AUTOINCREMENT counter is below
    the largest rowid, 2^63 - 1, and a database file that can be written. *)
Definition execute_insert_login (conn : connection) (hash ip : string)
    (ua : option string) (ts : string) : M connection :=
  called (InsertLogin hash ip ua ts);;
  let d := pending conn in
  let rowid := next_rowid d in
  mret (mkConn (mkDatabase (tokens d)
                           (logins d ++ [mkLogin rowid hash ip ua ts])
                           rowid)).

(** [DELETE FROM logins WHERE timestamp < ?] *)
Definition execute_delete_logins_before (conn : connection) (cutoff : string)
    : M connection :=
  called (DeleteLoginsBefore cutoff);;
  let d := pending conn in
  mret (mkConn (mkDatabase (tokens d)
                           (List.filter (fun r => negb (text_lt (timestamp r) cutoff)) (logins d))
                           (logins_seq d))).

(* ===================================================================== *)
(** * gateway.py: the credential store                                    *)
(* ===================================================================== *)

Definition LOGIN_RETENTION_DAYS : Z := 90.

(** [init_database] *)
Definition init_database : M unit :=
  conn ← connect;
  conn ← execute_create_table conn "tokens" tokens_schema;
  conn ← execute_create_table conn "logins" logins_schema;
  commit conn;;
  close conn.

(** [generate_token]; [random_bytes] is what [secrets.token_urlsafe(24)]
    returned. *)
Definition generate_token (random_bytes : string) : M (string * string) :=
  let token := "d2d_" +:+ random_bytes in
  let token_hash := hash_token token in
  conn ← connect;
  now ← utcnow;
  expires ← or_raise OverflowError (add now (timedelta_of 28 0 0));
  conn ← execute_insert_token conn token_hash (isoformat now) (isoformat expires);
  commit conn;;
  close conn;;
  mret (token, token_hash).

(** [verify_token]; the argument is [None] when the caller has no token. *)
Definition verify_token (token : option string) : M bool :=
  match token with
  | None => mret false
  | Some token =>
      if negb (PyStr.truthy token) || negb (PyStr.startswith "d2d_" token)
      then mret false
      else
        let token_hash := hash_token token in
        conn ← connect;
        row ← execute_select_expires_at conn token_hash;
        close conn;;
        match row with
        | None => mret false
        | Some row0 =>
            expires ← or_raise ValueError (fromisoformat row0);
            now ← utcnow;
            mret (Datetime.lt now expires)
        end
  end.

(** [log_login] *)
Definition log_login (token ip : string) (user_agent : option string) : M unit :=
  let token_hash := hash_token token in
  conn ← connect;
  now ← utcnow;
  conn ← execute_insert_login conn token_hash ip
           (Some (PyStr.take 200 (PyStr.or_empty user_agent))) (isoformat now);
  commit conn;;
  close conn.

(** [cleanup_old_logins] *)
Definition cleanup_old_logins : M unit :=
  conn ← connect;
  now ← utcnow;
  cutoff ← or_raise OverflowError (sub now (timedelta_of LOGIN_RETENTION_DAYS 0 0));
  conn ← execute_delete_logins_before conn (isoformat cutoff);
  commit conn;;
  close conn.


(* ===================================================================== *)
(** * gateway.py: the request handler                                     *)
(* ===================================================================== *)

(** What [do_GET] reads of a request: [urlparse(self.path).path],
    [parse_qs(parsed.query)], [self.headers] (under the names the code
    asks for) and [self.client_address[0]]. *)
Record request := mkRequest {
  path : string;
  params : gmap string (list string);
  headers : gmap string string;
  client_address : string
}.

(** The pages of the handler, by template and arguments. *)
Inductive page :=
| landing_page
| search_page (token : string)
| results_page (token query results : string)
| unauthorized_page
| plain (text : string).

Inductive response :=
| send_html (status : Z) (body : page)
| send_json (status : Z) (data : list (string * string)).

(** [params.get(key, [default])[0]] *)
Definition first_param (r : request) (key : string) (default : option string)
    : M (option string) :=
  match params r !! key with
  | None => mret default
  | Some [] => raise IndexError
  | Some (v :: _) => mret (Some v)
  end.

(** [get_client_ip] *)
Definition get_client_ip (r : request) : string :=
  match headers r !! "X-Forwarded-For" with
  | Some forwarded =>
      if PyStr.truthy forwarded
      then PyStr.strip (PyStr.split_first "," forwarded)
      else client_address r
  | None => client_address r
  end.

(** [urllib.request.urlopen] on the search URL of [query], and
    [json.loads] of what it answers; [None] is any exception of the two. *)
Definition urlopen_search (query : string) : M (option string) := fun w =>
  (Return (upstream w query),
   mkWorld (db w) (clock w) (calls w) (upstream w) (sent_upstream w ++ [query])).

(** [log_login(token, ...)] where [token] may be [None]. *)
Definition log_login_opt (token : option string) (ip : string)
    (user_agent : option string) : M unit :=
  match token with
  | Some t => log_login t ip user_agent
  | None => raise AttributeError
  end.

(** The page argument [token] of a template; [None] prints as ["None"]. *)
Definition token_text (token : option string) : string :=
  match token with Some t => t | None => "None" end.

(** [Handler.do_GET] *)
Definition do_GET (r : request) : M response :=
  token ← first_param r "token" None;
  let token :=
    if PyStr.truthy_opt token then token
    else
      let auth := default EmptyString (headers r !! "Authorization") in
      if PyStr.startswith "Bearer " auth then Some (PyStr.drop 7 auth) else token in
  if String.eqb (path r) "/" then
    ok ← ((if PyStr.truthy_opt token then verify_token token else mret false) : M bool);
    if (ok : bool) then
      log_login_opt token (get_client_ip r) (headers r !! "User-Agent");;
      mret (send_html 200 (search_page (token_text token)))
    else mret (send_html 200 landing_page)
  else if String.eqb (path r) "/search" then
    query ← first_param r "q" (Some EmptyString);
    ok ← verify_token token;
    if negb ok then mret (send_html 401 unauthorized_page)
    else
      log_login_opt token (get_client_ip r) (headers r !! "User-Agent");;
      if negb (PyStr.truthy_opt query) then
        mret (send_html 200 (search_page (token_text token)))
      else
        results ← urlopen_search (PyStr.or_empty query);
        match results with
        | Some res =>
            mret (send_html 200 (results_page (token_text token) (PyStr.or_empty query) res))
        | None => mret (send_html 500 (plain "Search error"))
        end
  else if String.eqb (path r) "/health" then mret (send_json 200 [("status", "ok")])
  else mret (send_html 404 (plain "Not found")).

(* ===================================================================== *)
(** * Definitions used to state and prove the properties                  *)
(* ===================================================================== *)

Definition month_day_check (leap : bool) (n : Z) : bool :=
  let '(m, d) := month_day leap n in
  (1 <=? m) && (m <=? 12) && (1 <=? d)
  && (d <=? (if (m =? 2) && leap then 29 else tbl DAYS_IN_MONTH m))
  && (tbl DAYS_BEFORE_MONTH m + (if (2 <? m) && leap then 1 else 0) + d =? n + 1).

Definition day_of_year (y m d : Z) : Z := days_before_month y m + d.

Definition DAY_US : Z := 86400000000.

(** Comparison of strings by code point. *)
Fixpoint str_cmp (a b : string) : comparison :=
  match a, b with
  | EmptyString, EmptyString => Eq
  | EmptyString, String _ _ => Lt
  | String _ _, EmptyString => Gt
  | String x a', String y b' => lex (PyStr.ord x ?= PyStr.ord y) (str_cmp a' b')
  end.

Fixpoint all_chars (p : ascii -> bool) (s : string) : bool :=
  match s with
  | EmptyString => true
  | String c s' => p c && all_chars p s'
  end.

Definition is_hex_char (c : ascii) : bool :=
  let n := PyStr.ord c in
  ((48 <=? n) && (n <=? 57)) || ((97 <=? n) && (n <=? 102)).

(** The world with the clock reading [t]. *)
Definition with_clock (t : datetime) (w : world) : world :=
  mkWorld (db w) t (calls w) (upstream w) (sent_upstream w).

(** The world after more calls to [sqlite3]. *)
Definition with_calls (cs : list call) (w : world) : world :=
  mkWorld (db w) (clock w) (calls w ++ cs) (upstream w) (sent_upstream w).

(** The world with the database file replaced. *)
Definition with_db (d : database) (w : world) : world :=
  mkWorld d (clock w) (calls w) (upstream w) (sent_upstream w).

(** The world with another answering search backend. *)
Definition with_upstream (f : string -> option string) (w : world) : world :=
  mkWorld (db w) (clock w) (calls w) f (sent_upstream w).

(** What [verify_token] answers, as a function of the tables and the clock. *)
Definition verify_answer (token : option string) (d : database) (now : datetime)
    : outcome bool :=
  match token with
  | None => Return false
  | Some t =>
      if negb (PyStr.truthy t) || negb (PyStr.startswith "d2d_" t) then Return false
      else
        match tokens d !! hash_token t with
        | None => Return false
        | Some row =>
            match fromisoformat (expires_at row) with
            | None => Raise ValueError
            | Some expires => Return (Datetime.lt now expires)
            end
        end
  end.

(** The calls [verify_token] makes to [sqlite3]. *)
Definition verify_calls (token : option string) : list call :=
  match token with
  | None => []
  | Some t =>
      if negb (PyStr.truthy t) || negb (PyStr.startswith "d2d_" t) then []
      else [Connect; SelectExpiresAt (hash_token t); Close]
  end.

(** The row [log_login] writes. *)
Definition login_row_of (token ip : string) (ua : option string) (d : database)
    (now : datetime) : login_row :=
  mkLogin (next_rowid d) (hash_token token) ip
          (Some (PyStr.take 200 (PyStr.or_empty ua))) (isoformat now).

(** The tables after [log_login]. *)
Definition login_db (token ip : string) (ua : option string) (d : database)
    (now : datetime) : database :=
  mkDatabase (tokens d) (logins d ++ [login_row_of token ip ua d now]) (next_rowid d).

(** The token [do_GET] works with: the query parameter, else the bearer
    token of the [Authorization] header; the outer [None] is the
    [IndexError] of an empty parameter list. *)
Definition request_token (r : request) : option (option string) :=
  match params r !! "token" with
  | Some [] => None
  | found =>
      let token := match found with Some (v :: _) => Some v | _ => None end in
      Some (if PyStr.truthy_opt token then token
            else
              let auth := default EmptyString (headers r !! "Authorization") in
              if PyStr.startswith "Bearer " auth then Some (PyStr.drop 7 auth) else token)
  end.

(** The tables after [do_GET], for a request whose parameter lists are not
    empty: a function of the token, the path, the headers and the peer
    address, of the tables and of the clock. *)
Definition persisted_by (r : request) (d : database) (now : datetime) : database :=
  match request_token r with
  | None => d
  | Some token =>
      let logged :=
        match token with
        | Some t => login_db t (get_client_ip r) (headers r !! "User-Agent") d now
        | None => d
        end in
      if String.eqb (path r) "/" then
        if PyStr.truthy_opt token then
          match verify_answer token d now with Return true => logged | _ => d end
        else d
      else if String.eqb (path r) "/search" then
        match verify_answer token d now with Return true => logged | _ => d end
      else d
  end.

(** What can happen to the world: a function of the credential store or the
    request handler runs, the clock moves, the search backend changes. *)
Inductive operation :=
| OpInit
| OpIssue (random_bytes : string)
| OpVerify (token : option string)
| OpLogin (token ip : string) (user_agent : option string)
| OpPrune
| OpGet (r : request)
| OpClock (now : datetime)
| OpUpstream (answers : string -> option string).

Definition step (op : operation) (w : world) : world :=
  match op with
  | OpInit => snd (init_database w)
  | OpIssue random_bytes => snd (generate_token random_bytes w)
  | OpVerify token => snd (verify_token token w)
  | OpLogin token ip ua => snd (log_login token ip ua w)
  | OpPrune => snd (cleanup_old_logins w)
  | OpGet r => snd (do_GET r w)
  | OpClock now => with_clock now w
  | OpUpstream answers => with_upstream answers w
  end.

Definition run (ops : list operation) (w : world) : world :=
  fold_left (fun w op => step op w) ops w.

(** Worlds the statements are tried on: an empty database at noon of
    2026-11-04; the same after one issuance; a database holding one login
    of 2026-01-01 and one of 2026-03-15, read on 2026-04-01. *)
Definition fresh_world : world :=
  mkWorld empty_database (mkDatetime 2026 11 4 12 0 0 0) [] (fun _ => None) [].

Definition issued_world : world := snd (generate_token "abc123" fresh_world).

Definition old_login : login_row :=
  mkLogin 1 "a0cdc18bd52cc8426836e7f2fe3b0f1c36afbce99791bee37803e932562d2fc0"
          "1.2.3.4" (Some "curl/8.0") "2026-01-01T00:00:00".

Definition recent_login : login_row :=
  mkLogin 2 "a0cdc18bd52cc8426836e7f2fe3b0f1c36afbce99791bee37803e932562d2fc0"
          "1.2.3.4" (Some "curl/8.0") "2026-03-15T08:30:00.250000".

Definition logged_world : world :=
  mkWorld (mkDatabase ∅ [old_login; recent_login] 2)
          (mkDatetime 2026 4 1 0 0 0 1) [] (fun _ => None) [].

(** A search request carrying the token issued in [issued_world]. *)
Definition search_request (query : string) : request :=
  mkRequest "/search" (<["q" := [query]]> (<["token" := ["d2d_abc123"]]> ∅)) ∅ "10.0.0.1".

(** [Handler.do_GET] from the routing on (source lines 184-235), with the
    token of lines 175-179 in hand. *)
Definition route (r : request) (token : option string) : M response :=
  if String.eqb (path r) "/" then
    ok ← ((if PyStr.truthy_opt token then verify_token token else mret false) : M bool);
    if (ok : bool) then
      log_login_opt token (get_client_ip r) (headers r !! "User-Agent");;
      mret (send_html 200 (search_page (token_text token)))
    else mret (send_html 200 landing_page)
  else if String.eqb (path r) "/search" then
    query ← first_param r "q" (Some EmptyString);
    ok ← verify_token token;
    if negb ok then mret (send_html 401 unauthorized_page)
    else
      log_login_opt token (get_client_ip r) (headers r !! "User-Agent");;
      if negb (PyStr.truthy_opt query) then
        mret (send_html 200 (search_page (token_text token)))
      else
        results ← urlopen_search (PyStr.or_empty query);
        match results with
        | Some res =>
            mret (send_html 200 (results_page (token_text token) (PyStr.or_empty query) res))
        | None => mret (send_html 500 (plain "Search error"))
        end
  else if String.eqb (path r) "/health" then mret (send_json 200 [("status", "ok")])
  else mret (send_html 404 (plain "Not found")).

(** The status line of a response. *)
Definition status (resp : response) : Z :=
  match resp with send_html s _ => s | send_json s _ => s end.

(** [parse_qs] gives no parameter an empty list of values. *)
Definition has_values (r : request) (key : string) : bool :=
  match params r !! key with Some [] => false | _ => true end.

(** The request with another [Authorization] header, or none. *)
Definition with_authorization (auth : option string) (r : request) : request :=
  mkRequest (path r) (params r)
            (match auth with
             | Some a => <["Authorization" := a]> (headers r)
             | None => delete "Authorization" (headers r)
             end)
            (client_address r).

(** The request with the query parameter [token] set to one value. *)
Definition with_token_param (t : string) (r : request) : request :=
  mkRequest (path r) (<["token" := [t]]> (params r)) (headers r) (client_address r).

Definition first_char (s : string) : option ascii :=
  match s with EmptyString => None | String c _ => Some c end.

Fixpoint last_char (s : string) : option ascii :=
  match s with
  | EmptyString => None
  | String c EmptyString => Some c
  | String _ s' => last_char s'
  end.

(** No white space at either end. *)
Definition trimmed (s : string) : bool :=
  match first_char s, last_char s with
  | Some a, Some b => negb (PyStr.isspace a) && negb (PyStr.isspace b)
  | _, _ => true
  end.

Definition not_comma (c : ascii) : bool := negb (Ascii.eqb c ",").

(** A row of [tokens] as [generate_token] writes it: the [isoformat] texts
    of a valid datetime and of the datetime 28 days later. *)
Definition written (row : token_row) : Prop :=
  exists created expires,
    valid created = true
    /\ add created (timedelta_of 28 0 0) = Some expires
    /\ row = mkToken (isoformat created) (isoformat expires).

Definition tokens_written (d : database) : Prop :=
  forall h row, tokens d !! h = Some row -> written row.

(** The largest rowid SQLite gives: 2^63 - 1.  An INSERT that would need a
    larger one fails; [next_rowid] is faithful below it. *)
Definition MAX_ROWID : Z := 9223372036854775807.

(** An operation that keeps the clock a date and time of the calendar. *)
Definition valid_operation (op : operation) : bool :=
  match op with OpClock now => valid now | _ => true end.

(** Rowids of [logins]: positive, increasing down the table, and none above
    the AUTOINCREMENT counter. *)
Fixpoint ids_increasing (above : Z) (rows : list login_row) : bool :=
  match rows with
  | [] => true
  | r :: rows' => (above <? id r) && ids_increasing (id r) rows'
  end.

Definition rowids_ok (d : database) : bool :=
  ids_increasing 0 (logins d) && (max_rowid (logins d) <=? logins_seq d).

(** A row as [log_login] writes it: a hash of 64 characters and a user
    agent that is a text of at most 200 characters, never NULL. *)
Definition login_row_ok (r : login_row) : bool :=
  (String.length (token_hash r) =? 64)%nat
  && match user_agent r with
     | Some ua => (String.length ua <=? 200)%nat
     | None => false
     end.

(** A world at the end of the calendar, and requests to try statements on. *)
Definition late_world : world :=
  mkWorld empty_database (mkDatetime 9999 12 10 0 0 0 0) [] (fun _ => None) [].

Definition health_request : request :=
  mkRequest "/health" ∅ (<["Authorization" := "Bearer nonsense"]> ∅) "10.0.0.1".

Definition forwarded_request : request :=
  mkRequest "/search" (<["q" := ["cats"]]> (<["token" := ["d2d_abc123"]]> ∅))
            (<["X-Forwarded-For" := " 203.0.113.7 , 10.0.0.2"]>
               (<["User-Agent" := "curl/8.0"]> ∅))
            "10.0.0.1".

Definition anonymous_request : request :=
  mkRequest "/search" (<["q" := ["cats"]]> ∅) ∅ "10.0.0.1".

Definition bearer_request : request :=
  mkRequest "/" ∅ (<["Authorization" := "Bearer d2d_abc123"]> ∅) "10.0.0.1".

Definition early_world : world :=
  mkWorld (mkDatabase ∅ [old_login] 1) (mkDatetime 1 2 1 0 0 0 0) [] (fun _ => None) [].

(** [ORDER BY id DESC]: the rows by decreasing rowid. *)
Fixpoint insert_by_id_desc (r : login_row) (rows : list login_row) : list login_row :=
  match rows with
  | [] => [r]
  | r' :: rows' =>
      if id r' <? id r then r :: rows else r' :: insert_by_id_desc r rows'
  end.

Definition order_by_id_desc (rows : list login_row) : list login_row :=
  fold_right insert_by_id_desc [] rows.

(** What [--show-logins] reads: [SELECT token_hash, ip_address, user_agent,
    timestamp FROM logins ORDER BY id DESC LIMIT 50]. *)
Definition recent_logins (d : database) : list login_row :=
  firstn 50 (order_by_id_desc (logins d)).

(** The line [--show-logins] prints for a row; [None] is the [TypeError] of
    slicing a NULL user agent. *)
Definition show_login (r : login_row) : option string :=
  match user_agent r with
  | None => None
  | Some ua =>
      Some ("  " +:+ timestamp r +:+ " | " +:+ ip_address r +:+ " | "
            +:+ PyStr.take 16 (token_hash r) +:+ "... | " +:+ PyStr.take 40 ua)
  end.

(** The lines printed for the rows; [None] when one of them raises. *)
Fixpoint show_logins (rows : list login_row) : option (list string) :=
  match rows with
  | [] => Some []
  | r :: rows' =>
      match show_login r with
      | None => None
      | Some line =>
          match show_logins rows' with
          | None => None
          | Some lines => Some (line :: lines)
          end
      end
  end.

(* ===================================================================== *)
(** * The calendar: ordinals, ordering, arithmetic                        *)
(* ===================================================================== *)

Lemma year_of_cycles a b c e :
  0 <= a -> 0 <= b <= 3 -> 0 <= c <= 24 -> 0 <= e <= 3 ->
  let y := a * 400 + 1 + b * 100 + c * 4 + e in
  days_before_year y = a * 146097 + b * 36524 + c * 1461 + e * 365
  /\ is_leap y = (e =? 3) && (negb (c =? 24) || (b =? 3)).
Proof.
  intros Ha Hb Hc He y. subst y. split.
  - unfold days_before_year. Z.div_mod_to_equations. lia.
  - unfold is_leap.
    destruct (Z.eqb_spec e 3), (Z.eqb_spec c 24), (Z.eqb_spec b 3); simpl;
    repeat match goal with
    | |- context [Z.eqb ?x ?y] => destruct (Z.eqb_spec x y)
    end; simpl; try reflexivity; exfalso; Z.div_mod_to_equations; lia.
Qed.

Lemma year_end_of_cycle a b c e :
  0 <= a -> 0 <= b <= 4 -> 0 <= c <= 24 -> 0 <= e <= 4 ->
  (e = 4 /\ b <= 3 /\ c <= 23) \/ (b = 4 /\ c = 0 /\ e = 0) ->
  let y := a * 400 + 1 + b * 100 + c * 4 + e - 1 in
  days_before_year y + 365 = a * 146097 + b * 36524 + c * 1461 + e * 365
  /\ is_leap y = true.
Proof.
  intros Ha Hb Hc He Hcase y. subst y. split.
  - unfold days_before_year. Z.div_mod_to_equations. lia.
  - unfold is_leap.
    repeat match goal with
    | |- context [Z.eqb ?x ?y] => destruct (Z.eqb_spec x y)
    end; simpl; try reflexivity; exfalso; Z.div_mod_to_equations; lia.
Qed.

Lemma month_day_check_all leap n :
  0 <= n < 365 -> month_day_check leap n = true.
Proof.
  intros Hn.
  assert (H : forallb (fun k => month_day_check leap (Z.of_nat k)) (seq 0 365) = true)
    by (destruct leap; vm_compute; reflexivity).
  rewrite forallb_forall in H.
  specialize (H (Z.to_nat n)). rewrite Z2Nat.id in H by lia.
  apply H. apply in_seq. lia.
Qed.


Lemma check_date_fields_iff y m d :
  check_date_fields y m d = true <->
  1 <= y <= 9999 /\ 1 <= m <= 12 /\ 1 <= d <= days_in_month y m.
Proof.
  unfold check_date_fields, MINYEAR, MAXYEAR.
  rewrite !andb_true_iff, !Z.leb_le. lia.
Qed.

Lemma ord2ymd_spec n :
  1 <= n <= MAXORDINAL ->
  let '(y, m, d) := ord2ymd n in
  check_date_fields y m d = true /\ ymd2ord y m d = n.
Proof.
  unfold MAXORDINAL. intros Hn. unfold ord2ymd, DI400Y, DI100Y, DI4Y.
  set (n0 := n - 1).
  set (a := n0 / 146097). set (r1 := n0 mod 146097).
  set (b := r1 / 36524). set (r2 := r1 mod 36524).
  set (c := r2 / 1461). set (r3 := r2 mod 1461).
  set (e := r3 / 365). set (r4 := r3 mod 365).
  assert (Hn0 : n0 = a * 146097 + r1 /\ 0 <= r1 < 146097 /\ 0 <= a <= 24)
    by (subst a r1 n0; Z.div_mod_to_equations; lia).
  assert (Hr1 : r1 = b * 36524 + r2 /\ 0 <= r2 < 36524 /\ 0 <= b <= 4)
    by (subst b r2; Z.div_mod_to_equations; lia).
  assert (Hr2 : r2 = c * 1461 + r3 /\ 0 <= r3 < 1461 /\ 0 <= c <= 24)
    by (subst c r3; Z.div_mod_to_equations; lia).
  assert (Hr3 : r3 = e * 365 + r4 /\ 0 <= r4 < 365 /\ 0 <= e <= 4)
    by (subst e r4; Z.div_mod_to_equations; lia).
  assert (Hn0' : n0 = n - 1) by reflexivity.
  clearbody a r1 b r2 c r3 e r4 n0.
  destruct ((e =? 4) || (b =? 4)) eqn:Hend.
  - assert (Hcase : (e = 4 /\ b <= 3 /\ c <= 23) \/ (b = 4 /\ c = 0 /\ e = 0)).
    { apply orb_true_iff in Hend. destruct Hend as [H|H]; apply Z.eqb_eq in H; lia. }
    destruct (year_end_of_cycle a b c e) as [Hd Hl]; try lia.
    rewrite check_date_fields_iff.
    unfold ymd2ord, days_before_month, days_in_month.
    rewrite Hl. change (tbl DAYS_BEFORE_MONTH 12) with 334.
    change (tbl DAYS_IN_MONTH 12) with 31. cbn [Z.eqb Z.ltb Z.compare Pos.compare Pos.compare_cont andb Pos.eqb].
    lia.
  - apply orb_false_iff in Hend. destruct Hend as [He Hb].
    apply Z.eqb_neq in He, Hb.
    destruct (year_of_cycles a b c e) as [Hd Hl]; try lia.
    rewrite <- Hl.
    set (y := a * 400 + 1 + b * 100 + c * 4 + e) in *.
    pose proof (month_day_check_all (is_leap y) r4 ltac:(lia)) as Hmd.
    unfold month_day_check in Hmd.
    destruct (month_day (is_leap y) r4) as [m d].
    rewrite !andb_true_iff, !Z.leb_le, Z.eqb_eq in Hmd.
    rewrite check_date_fields_iff.
    unfold ymd2ord, days_before_month, days_in_month.
    subst y. lia.
Qed.

Ltac month_cases m :=
  let H := fresh in
  assert (H : m = 1 \/ m = 2 \/ m = 3 \/ m = 4 \/ m = 5 \/ m = 6 \/ m = 7
              \/ m = 8 \/ m = 9 \/ m = 10 \/ m = 11 \/ m = 12) by lia;
  repeat (destruct H as [H | H]); subst m.

Ltac month_tables :=
  cbv [tbl DAYS_IN_MONTH DAYS_BEFORE_MONTH nth Z.to_nat Pos.to_nat Pos.iter_op
       Nat.add Z.eqb Z.ltb Z.compare Pos.compare Pos.compare_cont Pos.eqb andb] in *.

Lemma day_of_year_range y m d :
  1 <= m <= 12 -> 1 <= d <= days_in_month y m ->
  1 <= day_of_year y m d <= 365 + (if is_leap y then 1 else 0).
Proof.
  unfold day_of_year, days_before_month, days_in_month. intros Hm.
  destruct (is_leap y); month_cases m; month_tables; lia.
Qed.

Lemma day_of_year_compare y m1 d1 m2 d2 :
  1 <= m1 <= 12 -> 1 <= d1 <= days_in_month y m1 ->
  1 <= m2 <= 12 -> 1 <= d2 <= days_in_month y m2 ->
  lex (m1 ?= m2) (d1 ?= d2) = (day_of_year y m1 d1 ?= day_of_year y m2 d2).
Proof.
  unfold day_of_year, days_before_month, days_in_month. intros Hm1 Hd1 Hm2 Hd2.
  destruct (Z.compare_spec m1 m2) as [-> | Hlt | Hgt]; simpl.
  - destruct (Z.compare_spec d1 d2); symmetry;
      [apply Z.compare_eq_iff | apply Z.compare_lt_iff | apply Z.compare_gt_iff]; lia.
  - symmetry. apply Z.compare_lt_iff.
    destruct (is_leap y); month_cases m1; month_cases m2; month_tables; lia.
  - symmetry. apply Z.compare_gt_iff.
    destruct (is_leap y); month_cases m1; month_cases m2; month_tables; lia.
Qed.

Lemma ymd2ord_split y m d : ymd2ord y m d = days_before_year y + day_of_year y m d.
Proof. unfold ymd2ord, day_of_year. lia. Qed.

Lemma days_before_year_succ y :
  days_before_year (y + 1) = days_before_year y + 365 + (if is_leap y then 1 else 0).
Proof.
  unfold days_before_year, is_leap.
  replace (y + 1 - 1) with y by lia.
  destruct (Z.eqb_spec (y mod 4) 0), (Z.eqb_spec (y mod 100) 0), (Z.eqb_spec (y mod 400) 0);
    simpl; Z.div_mod_to_equations; lia.
Qed.

Lemma days_before_year_mono y1 y2 : y1 <= y2 -> days_before_year y1 <= days_before_year y2.
Proof.
  unfold days_before_year. intros. Z.div_mod_to_equations. lia.
Qed.

Lemma ymd2ord_compare y1 m1 d1 y2 m2 d2 :
  check_date_fields y1 m1 d1 = true -> check_date_fields y2 m2 d2 = true ->
  lex (y1 ?= y2) (lex (m1 ?= m2) (d1 ?= d2)) = (ymd2ord y1 m1 d1 ?= ymd2ord y2 m2 d2).
Proof.
  rewrite !check_date_fields_iff. intros (Hy1 & Hm1 & Hd1) (Hy2 & Hm2 & Hd2).
  rewrite !ymd2ord_split.
  pose proof (day_of_year_range y1 m1 d1 Hm1 Hd1).
  pose proof (day_of_year_range y2 m2 d2 Hm2 Hd2).
  destruct (Z.compare_spec y1 y2) as [-> | Hlt | Hgt]; simpl.
  - rewrite (day_of_year_compare y2) by assumption.
    symmetry. apply Z.add_compare_mono_l.
  - symmetry. apply Z.compare_lt_iff.
    pose proof (days_before_year_succ y1).
    pose proof (days_before_year_mono (y1 + 1) y2 ltac:(lia)). lia.
  - symmetry. apply Z.compare_gt_iff.
    pose proof (days_before_year_succ y2).
    pose proof (days_before_year_mono (y2 + 1) y1 ltac:(lia)). lia.
Qed.

Lemma ymd2ord_range y m d :
  check_date_fields y m d = true -> 1 <= ymd2ord y m d <= MAXORDINAL.
Proof.
  rewrite check_date_fields_iff. intros (Hy & Hm & Hd).
  rewrite ymd2ord_split.
  pose proof (day_of_year_range y m d Hm Hd).
  pose proof (days_before_year_succ y).
  pose proof (days_before_year_mono 1 y ltac:(lia)).
  pose proof (days_before_year_mono (y + 1) 10000 ltac:(lia)).
  change (days_before_year 1) with 0 in *.
  change (days_before_year 10000) with 3652059 in *.
  unfold MAXORDINAL. lia.
Qed.

Lemma check_time_fields_iff h mi s us :
  check_time_fields h mi s us = true <->
  0 <= h <= 23 /\ 0 <= mi <= 59 /\ 0 <= s <= 59 /\ 0 <= us <= 999999.
Proof.
  unfold check_time_fields. rewrite !andb_true_iff, !Z.leb_le. lia.
Qed.

Lemma valid_iff t :
  valid t = true <->
  check_date_fields (year t) (month t) (day t) = true
  /\ 0 <= hour t <= 23 /\ 0 <= minute t <= 59 /\ 0 <= second t <= 59
  /\ 0 <= microsecond t <= 999999.
Proof.
  unfold valid. rewrite andb_true_iff, check_time_fields_iff. tauto.
Qed.

Lemma lex_scaled k x1 x2 r1 r2 :
  0 <= r1 < k -> 0 <= r2 < k ->
  lex (x1 ?= x2) (r1 ?= r2) = (x1 * k + r1 ?= x2 * k + r2).
Proof.
  intros H1 H2.
  destruct (Z.compare_spec x1 x2) as [-> | Hlt | Hgt]; simpl; symmetry.
  - destruct (Z.compare_spec r1 r2);
      [apply Z.compare_eq_iff | apply Z.compare_lt_iff | apply Z.compare_gt_iff]; lia.
  - apply Z.compare_lt_iff. nia.
  - apply Z.compare_gt_iff. nia.
Qed.

Lemma lex_assoc a b c : lex (lex a b) c = lex a (lex b c).
Proof. destruct a; reflexivity. Qed.

(** Ordering of datetimes is ordering of their microsecond counts. *)
Lemma cmp_to_microseconds a b :
  valid a = true -> valid b = true ->
  cmp a b = (to_microseconds a ?= to_microseconds b).
Proof.
  rewrite !valid_iff. intros (Hda & Hha & Hma & Hsa & Hua) (Hdb & Hhb & Hmb & Hsb & Hub).
  unfold cmp, to_microseconds, toordinal.
  rewrite <- !lex_assoc.
  rewrite (lex_assoc (year a ?= year b)), (ymd2ord_compare _ _ _ _ _ _ Hda Hdb).
  rewrite (lex_scaled 24) by lia.
  rewrite (lex_scaled 60) by lia.
  rewrite (lex_scaled 60) by lia.
  rewrite (lex_scaled 1000000) by lia.
  reflexivity.
Qed.

Lemma timedelta_of_microseconds d s us :
  delta_microseconds (timedelta_of d s us) = (d * 86400 + s) * 1000000 + us.
Proof.
  unfold delta_microseconds, timedelta_of. simpl. Z.div_mod_to_equations. lia.
Qed.

Lemma timedelta_of_normal d s us :
  0 <= seconds (timedelta_of d s us) < 86400
  /\ 0 <= microseconds (timedelta_of d s us) < 1000000.
Proof.
  unfold timedelta_of. simpl. Z.div_mod_to_equations. lia.
Qed.

Lemma delta_add_microseconds a b :
  delta_microseconds (delta_add a b) = delta_microseconds a + delta_microseconds b.
Proof.
  unfold delta_add. rewrite timedelta_of_microseconds. unfold delta_microseconds. lia.
Qed.

Lemma delta_neg_microseconds a :
  delta_microseconds (delta_neg a) = - delta_microseconds a.
Proof.
  unfold delta_neg. rewrite timedelta_of_microseconds. unfold delta_microseconds. lia.
Qed.

(** What [t + delta] is when it is defined. *)
Lemma add_spec t delta t' :
  valid t = true -> add t delta = Some t' ->
  valid t' = true
  /\ to_microseconds t' = to_microseconds t + delta_microseconds delta.
Proof.
  intros Hv. unfold add.
  set (base := timedelta_of (toordinal t) (hour t * 3600 + minute t * 60 + second t)
                            (microsecond t)).
  set (sum := delta_add base delta).
  assert (Hsum : delta_microseconds sum = to_microseconds t + delta_microseconds delta).
  { subst sum. rewrite delta_add_microseconds. f_equal. subst base.
    rewrite timedelta_of_microseconds. unfold to_microseconds. lia. }
  assert (Hnorm : 0 <= seconds sum < 86400 /\ 0 <= microseconds sum < 1000000)
    by apply timedelta_of_normal.
  clearbody sum.
  destruct ((0 <? days sum) && (days sum <=? MAXORDINAL)) eqn:Hrange; [|discriminate].
  apply andb_true_iff in Hrange. destruct Hrange as [Hlo Hhi].
  apply Z.ltb_lt in Hlo. apply Z.leb_le in Hhi.
  pose proof (ord2ymd_spec (days sum) ltac:(lia)) as Hord.
  destruct (ord2ymd (days sum)) as [[y m] d]. destruct Hord as [Hchk Hinv].
  intros [= <-]. split.
  - apply valid_iff. simpl. split; [assumption|].
    Z.div_mod_to_equations. lia.
  - rewrite <- Hsum. unfold to_microseconds, toordinal, delta_microseconds. simpl.
    rewrite Hinv. Z.div_mod_to_equations. lia.
Qed.

(** When [t + delta] is defined. *)
Lemma add_defined t delta :
  valid t = true ->
  DAY_US <= to_microseconds t + delta_microseconds delta < (MAXORDINAL + 1) * DAY_US ->
  exists t', add t delta = Some t'.
Proof.
  intros Hv. unfold add.
  set (base := timedelta_of (toordinal t) (hour t * 3600 + minute t * 60 + second t)
                            (microsecond t)).
  set (sum := delta_add base delta).
  assert (Hsum : delta_microseconds sum = to_microseconds t + delta_microseconds delta).
  { subst sum. rewrite delta_add_microseconds. f_equal. subst base.
    rewrite timedelta_of_microseconds. unfold to_microseconds. lia. }
  assert (Hnorm : 0 <= seconds sum < 86400 /\ 0 <= microseconds sum < 1000000)
    by apply timedelta_of_normal.
  clearbody sum. rewrite <- Hsum. unfold delta_microseconds, DAY_US, MAXORDINAL.
  intros Hr.
  assert (Hd : 0 < days sum <= 3652059) by lia.
  destruct Hd as [Hlo Hhi]. apply Z.ltb_lt in Hlo. apply Z.leb_le in Hhi.
  unfold MAXORDINAL. rewrite Hlo, Hhi. simpl.
  destruct (ord2ymd (days sum)) as [[y m] d]. eauto.
Qed.

Lemma add_overflow t delta :
  valid t = true ->
  ~ (DAY_US <= to_microseconds t + delta_microseconds delta < (MAXORDINAL + 1) * DAY_US) ->
  add t delta = None.
Proof.
  intros Hv Hr. destruct (add t delta) as [t'|] eqn:Hadd; [|reflexivity].
  destruct (add_spec _ _ _ Hv Hadd) as [Hv' Heq].
  exfalso. apply Hr. rewrite <- Heq.
  apply valid_iff in Hv'. destruct Hv' as (Hd & Hh & Hm & Hs & Hu).
  pose proof (ymd2ord_range _ _ _ Hd).
  unfold to_microseconds, toordinal, DAY_US, MAXORDINAL in *. lia.
Qed.

Lemma to_microseconds_range t :
  valid t = true -> DAY_US <= to_microseconds t < (MAXORDINAL + 1) * DAY_US.
Proof.
  intros Hv. apply valid_iff in Hv. destruct Hv as (Hd & Hh & Hm & Hs & Hu).
  pose proof (ymd2ord_range _ _ _ Hd).
  unfold to_microseconds, toordinal, DAY_US, MAXORDINAL in *. lia.
Qed.

Lemma lt_to_microseconds a b :
  valid a = true -> valid b = true ->
  lt a b = (to_microseconds a <? to_microseconds b).
Proof.
  intros Ha Hb. unfold lt, Z.ltb. rewrite (cmp_to_microseconds a b Ha Hb). reflexivity.
Qed.

Lemma le_to_microseconds a b :
  valid a = true -> valid b = true ->
  le a b = (to_microseconds a <=? to_microseconds b).
Proof.
  intros Ha Hb. unfold le, Z.leb. rewrite (cmp_to_microseconds a b Ha Hb). reflexivity.
Qed.

Lemma to_microseconds_inj a b :
  valid a = true -> valid b = true ->
  to_microseconds a = to_microseconds b -> a = b.
Proof.
  intros Ha Hb Heq.
  pose proof (cmp_to_microseconds a b Ha Hb) as Hc.
  rewrite Heq, Z.compare_refl in Hc.
  unfold cmp in Hc.
  destruct a, b; simpl in *.
  repeat match type of Hc with
  | lex (?x ?= ?y) _ = Eq =>
      destruct (Z.compare_spec x y); simpl in Hc; try discriminate; subst
  | (?x ?= ?y) = Eq => apply Z.compare_eq in Hc; subst
  end.
  reflexivity.
Qed.

(* ===================================================================== *)
(** * Strings: collation, isoformat, digests                              *)
(* ===================================================================== *)

Lemma Z_of_byte_of_ascii c : PyStr.Z_of_byte (byte_of_ascii c) = PyStr.ord c.
Proof. destruct c as [[] [] [] [] [] [] [] []]; reflexivity. Qed.

Lemma byte_of_Z_ord c : PyStr.byte_of_Z (PyStr.ord c) = byte_of_ascii c.
Proof.
  unfold PyStr.byte_of_Z, PyStr.ord. rewrite N2Z.id, ascii_N_embedding. reflexivity.
Qed.

Lemma ord_range c : 0 <= PyStr.ord c < 256.
Proof.
  unfold PyStr.ord. pose proof (N_ascii_bounded c). lia.
Qed.

Lemma ord_inj a b : PyStr.ord a = PyStr.ord b -> a = b.
Proof.
  unfold PyStr.ord. intros H. apply N2Z.inj in H.
  rewrite <- (ascii_N_embedding a), <- (ascii_N_embedding b). congruence.
Qed.

Lemma ord_ascii_of_N n : 0 <= n < 256 -> PyStr.ord (ascii_of_N (Z.to_N n)) = n.
Proof.
  intros H. unfold PyStr.ord. rewrite N_ascii_embedding by lia. lia.
Qed.

Lemma encode_ascii_char c :
  PyStr.is_ascii_char c = true -> PyStr.encode_char c = [byte_of_ascii c].
Proof.
  unfold PyStr.is_ascii_char, PyStr.encode_char. intros ->.
  rewrite byte_of_Z_ord. reflexivity.
Qed.

(** On ASCII text the BINARY collation compares code points. *)
Lemma memcmp_encode_ascii a b :
  PyStr.is_ascii a = true -> PyStr.is_ascii b = true ->
  memcmp (PyStr.encode a) (PyStr.encode b) = str_cmp a b.
Proof.
  revert b. induction a as [|x a IH]; intros [|y b]; simpl; intros Ha Hb;
    try apply andb_true_iff in Ha as [Hx Ha]; try apply andb_true_iff in Hb as [Hy Hb];
    rewrite ?encode_ascii_char by assumption; simpl; try reflexivity.
  rewrite !Z_of_byte_of_ascii, IH by assumption.
  destruct (PyStr.ord x ?= PyStr.ord y); reflexivity.
Qed.

Lemma str_cmp_app p1 p2 s1 s2 :
  String.length p1 = String.length p2 ->
  str_cmp (p1 +:+ s1) (p2 +:+ s2) = lex (str_cmp p1 p2) (str_cmp s1 s2).
Proof.
  revert p2. induction p1 as [|x p1 IH]; intros [|y p2]; simpl; intros Hlen;
    try discriminate; [reflexivity|].
  rewrite IH by congruence. symmetry. apply lex_assoc.
Qed.

Lemma str_cmp_cons c s1 s2 : str_cmp (String c s1) (String c s2) = str_cmp s1 s2.
Proof. simpl. rewrite Z.compare_refl. reflexivity. Qed.

Lemma append_one c s : String c EmptyString +:+ s = String c s.
Proof. reflexivity. Qed.

Lemma ord_digit d : 0 <= d <= 9 -> PyStr.ord (digit d) = 48 + d.
Proof. intros H. unfold digit. apply ord_ascii_of_N. lia. Qed.

Lemma length_append (a b : string) :
  String.length (a +:+ b) = (String.length a + String.length b)%nat.
Proof. induction a as [|c a IH]; simpl; [reflexivity | rewrite IH; reflexivity]. Qed.

Lemma length_zfill n x : String.length (zfill n x) = n.
Proof.
  revert x. induction n as [|n IH]; intros x; simpl; [reflexivity|].
  rewrite length_append, IH. simpl. lia.
Qed.

Lemma str_cmp_zfill n x y :
  0 <= x < 10 ^ Z.of_nat n -> 0 <= y < 10 ^ Z.of_nat n ->
  str_cmp (zfill n x) (zfill n y) = (x ?= y).
Proof.
  revert x y. induction n as [|n IH]; intros x y Hx Hy.
  - simpl in *. symmetry. apply Z.compare_eq_iff. lia.
  - rewrite Nat2Z.inj_succ, Z.pow_succ_r in Hx, Hy by lia.
    cbn [zfill]. rewrite str_cmp_app by (rewrite !length_zfill; reflexivity).
    rewrite IH by (Z.div_mod_to_equations; lia).
    cbn [str_cmp]. rewrite !ord_digit by (Z.div_mod_to_equations; lia).
    assert (Hd : lex (48 + x mod 10 ?= 48 + y mod 10) Eq = (x mod 10 ?= y mod 10)).
    { rewrite Z.add_compare_mono_l. destruct (x mod 10 ?= y mod 10); reflexivity. }
    rewrite Hd, (lex_scaled 10) by (Z.div_mod_to_equations; lia).
    f_equal; Z.div_mod_to_equations; lia.
Qed.

Lemma str_cmp_fraction x y :
  0 <= x <= 999999 -> 0 <= y <= 999999 ->
  str_cmp (fraction x) (fraction y) = (x ?= y).
Proof.
  intros Hx Hy. unfold fraction.
  destruct (Z.eqb_spec x 0) as [-> | Hx0], (Z.eqb_spec y 0) as [-> | Hy0].
  - reflexivity.
  - change (Lt = (0 ?= y)). symmetry. apply Z.compare_lt_iff. lia.
  - change (Gt = (x ?= 0)). symmetry. apply Z.compare_gt_iff. lia.
  - change ("." +:+ zfill 6 x) with (String "." (zfill 6 x)).
    change ("." +:+ zfill 6 y) with (String "." (zfill 6 y)).
    rewrite str_cmp_cons. apply str_cmp_zfill; simpl; lia.
Qed.

Lemma days_in_month_le_31 y m : 1 <= m <= 12 -> days_in_month y m <= 31.
Proof.
  intros Hm. unfold days_in_month. destruct (is_leap y); month_cases m; month_tables; lia.
Qed.

(** [isoformat] keeps the order of datetimes, code point by code point. *)
Lemma str_cmp_isoformat a b :
  valid a = true -> valid b = true ->
  str_cmp (isoformat a) (isoformat b) = cmp a b.
Proof.
  rewrite !valid_iff, !check_date_fields_iff.
  intros ((Hya & Hma & Hda) & Hha & Hmia & Hsa & Hua)
         ((Hyb & Hmb & Hdb) & Hhb & Hmib & Hsb & Hub).
  pose proof (days_in_month_le_31 (year a) (month a) Hma).
  pose proof (days_in_month_le_31 (year b) (month b) Hmb).
  unfold isoformat, cmp.
  rewrite !(append_one _ (zfill _ _ +:+ _)).
  repeat (rewrite str_cmp_app by (rewrite !length_zfill; reflexivity);
          rewrite str_cmp_zfill by (simpl; lia);
          f_equal;
          rewrite ?str_cmp_cons).
  apply str_cmp_fraction; assumption.
Qed.

Lemma is_ascii_append a b :
  PyStr.is_ascii (a +:+ b) = PyStr.is_ascii a && PyStr.is_ascii b.
Proof.
  induction a as [|c a IH]; simpl; [reflexivity|]. rewrite IH. apply andb_assoc.
Qed.

Lemma is_ascii_zfill n x : PyStr.is_ascii (zfill n x) = true.
Proof.
  revert x. induction n as [|n IH]; intros x; simpl; [reflexivity|].
  rewrite is_ascii_append, IH. simpl.
  unfold PyStr.is_ascii_char. rewrite ord_digit by (Z.div_mod_to_equations; lia).
  rewrite andb_true_r. apply Z.ltb_lt. Z.div_mod_to_equations. lia.
Qed.

Lemma is_ascii_isoformat t : PyStr.is_ascii (isoformat t) = true.
Proof.
  unfold isoformat, fraction.
  rewrite !is_ascii_append, !is_ascii_zfill.
  destruct (microsecond t =? 0); [reflexivity|].
  rewrite is_ascii_append, is_ascii_zfill. reflexivity.
Qed.

(** The comparison SQLite makes of two stored timestamps is the comparison
    of the datetimes they were written from. *)
Lemma text_lt_isoformat a b :
  valid a = true -> valid b = true ->
  text_lt (isoformat a) (isoformat b) = Datetime.lt a b.
Proof.
  intros Ha Hb. unfold text_lt, Datetime.lt.
  rewrite memcmp_encode_ascii by apply is_ascii_isoformat.
  rewrite str_cmp_isoformat by assumption. reflexivity.
Qed.

Lemma digit_value_digit d : 0 <= d <= 9 -> digit_value (digit d) = Some d.
Proof.
  intros H. unfold digit_value. rewrite ord_digit by assumption.
  replace ((48 <=? 48 + d) && (48 + d <=? 57)) with true
    by (symmetry; apply andb_true_iff; rewrite !Z.leb_le; lia).
  f_equal. lia.
Qed.

Lemma read_digits_snoc n acc s :
  read_digits (S n) acc s =
  match read_digits n acc s with
  | Some (v, String c r) =>
      match digit_value c with Some d => Some (10 * v + d, r) | None => None end
  | _ => None
  end.
Proof.
  revert acc s. induction n as [|n IH]; intros acc s.
  - simpl. destruct s as [|c r]; [reflexivity|]. destruct (digit_value c); reflexivity.
  - change (read_digits (S (S n)) acc s) with
      (match s with
       | EmptyString => None
       | String c s' =>
           match digit_value c with
           | Some d => read_digits (S n) (10 * acc + d) s'
           | None => None
           end
       end).
    destruct s as [|c s']; [reflexivity|]. simpl (read_digits (S n) acc (String c s')).
    destruct (digit_value c); [apply IH | reflexivity].
Qed.

Lemma append_cons x (a b : string) : String x a +:+ b = String x (a +:+ b).
Proof. reflexivity. Qed.

Lemma append_assoc (a b c : string) : (a +:+ b) +:+ c = a +:+ (b +:+ c).
Proof.
  induction a as [|x a IH]; [reflexivity|]. rewrite !append_cons, IH. reflexivity.
Qed.

Lemma append_empty (a : string) : a +:+ EmptyString = a.
Proof.
  induction a as [|x a IH]; [reflexivity|]. rewrite append_cons, IH. reflexivity.
Qed.

Lemma read_digits_zfill n x acc rest :
  0 <= x < 10 ^ Z.of_nat n ->
  read_digits n acc (zfill n x +:+ rest) = Some (acc * 10 ^ Z.of_nat n + x, rest).
Proof.
  revert x acc rest. induction n as [|n IH]; intros x acc rest Hx.
  - simpl in *. f_equal. f_equal. lia.
  - rewrite Nat2Z.inj_succ, Z.pow_succ_r in * by lia.
    rewrite read_digits_snoc. cbn [zfill]. rewrite append_assoc, append_one.
    rewrite IH by (Z.div_mod_to_equations; lia).
    rewrite digit_value_digit by (Z.div_mod_to_equations; lia).
    f_equal. f_equal. Z.div_mod_to_equations. lia.
Qed.

Lemma read_fraction_fraction us :
  0 <= us <= 999999 -> read_fraction (fraction us) = Some us.
Proof.
  intros H. unfold fraction. destruct (Z.eqb_spec us 0) as [-> | Hne]; [reflexivity|].
  rewrite append_one. unfold read_fraction. rewrite Ascii.eqb_refl.
  rewrite <- (append_empty (zfill 6 us)), read_digits_zfill by (simpl; lia).
  reflexivity.
Qed.

(** [fromisoformat] reads back what [isoformat] wrote. *)
Lemma fromisoformat_isoformat t :
  valid t = true -> fromisoformat (isoformat t) = Some t.
Proof.
  intros Hv. pose proof Hv as Hv'. revert Hv'.
  rewrite valid_iff, check_date_fields_iff.
  intros ((Hy & Hm & Hd) & Hh & Hmi & Hs & Hus).
  pose proof (days_in_month_le_31 (year t) (month t) Hm).
  unfold isoformat, fromisoformat.
  rewrite !(append_one _ (zfill _ _ +:+ _)).
  repeat (rewrite read_digits_zfill by (simpl; lia); cbn [mbind option_bind expect];
          rewrite ?Ascii.eqb_refl; cbn [mbind option_bind]).
  rewrite read_fraction_fraction by assumption. cbn [mbind option_bind].
  replace (mkDatetime _ _ _ _ _ _ _) with t by (destruct t; simpl; f_equal; lia).
  rewrite Hv. reflexivity.
Qed.

Lemma isoformat_inj a b :
  valid a = true -> valid b = true -> isoformat a = isoformat b -> a = b.
Proof.
  intros Ha Hb Heq.
  assert (H : Some a = Some b)
    by (rewrite <- (fromisoformat_isoformat a Ha), <- (fromisoformat_isoformat b Hb), Heq;
        reflexivity).
  congruence.
Qed.

Lemma memcmp_refl a : memcmp a a = Eq.
Proof. induction a as [|x a IH]; simpl; [reflexivity|]. rewrite Z.compare_refl. exact IH. Qed.

Lemma memcmp_lt_trans a b c :
  memcmp a b = Lt -> memcmp b c = Lt -> memcmp a c = Lt.
Proof.
  revert b c. induction a as [|x a IH]; intros [|y b] [|z c]; simpl; try discriminate;
    try reflexivity.
  destruct (Z.compare_spec (PyStr.Z_of_byte x) (PyStr.Z_of_byte y)) as [Hxy | Hxy | Hxy];
    destruct (Z.compare_spec (PyStr.Z_of_byte y) (PyStr.Z_of_byte z)) as [Hyz | Hyz | Hyz];
    try discriminate; intros H1 H2.
  - rewrite Hxy, Hyz, Z.compare_refl. eapply IH; eassumption.
  - rewrite Hxy. apply Z.compare_lt_iff in Hyz. rewrite Hyz. reflexivity.
  - rewrite <- Hyz. apply Z.compare_lt_iff in Hxy. rewrite Hxy. reflexivity.
  - assert (Hxz : PyStr.Z_of_byte x < PyStr.Z_of_byte z) by lia.
    apply Z.compare_lt_iff in Hxz. rewrite Hxz. reflexivity.
Qed.

(** A text below a cutoff is below every later cutoff. *)
Lemma text_lt_le_trans s a b :
  valid a = true -> valid b = true -> Datetime.le a b = true ->
  text_lt s (isoformat a) = true -> text_lt s (isoformat b) = true.
Proof.
  intros Ha Hb Hle. unfold text_lt.
  destruct (memcmp (PyStr.encode s) (PyStr.encode (isoformat a))) eqn:H1; try discriminate.
  intros _.
  assert (H2 : memcmp (PyStr.encode (isoformat a)) (PyStr.encode (isoformat b)) = cmp a b).
  { rewrite memcmp_encode_ascii by apply is_ascii_isoformat.
    apply str_cmp_isoformat; assumption. }
  unfold Datetime.le in Hle. destruct (cmp a b) eqn:Hc; try discriminate.
  - replace b with a; [rewrite H1; reflexivity|].
    apply to_microseconds_inj; try assumption.
    rewrite cmp_to_microseconds in Hc by assumption. apply Z.compare_eq. exact Hc.
  - rewrite (memcmp_lt_trans _ _ _ H1 H2). reflexivity.
Qed.

Lemma all_chars_append p a b : all_chars p (a +:+ b) = all_chars p a && all_chars p b.
Proof.
  induction a as [|c a IH]; simpl; [reflexivity|]. rewrite IH. apply andb_assoc.
Qed.

Lemma hex_digit_is_hex d : 0 <= d < 16 -> is_hex_char (Sha256.hex_digit d) = true.
Proof.
  intros H. unfold is_hex_char, Sha256.hex_digit.
  destruct (Z.ltb_spec d 10); rewrite ord_ascii_of_N by lia;
    apply orb_true_iff; rewrite !andb_true_iff, !Z.leb_le; lia.
Qed.

Lemma hex_all_hex n x : all_chars is_hex_char (Sha256.hex n x) = true.
Proof.
  revert x. induction n as [|n IH]; intros x; simpl; [reflexivity|].
  rewrite all_chars_append, IH. simpl.
  rewrite hex_digit_is_hex by (Z.div_mod_to_equations; lia). reflexivity.
Qed.

(** A digest is written with the characters [0-9a-f] only. *)
Lemma hexdigest_all_hex msg : all_chars is_hex_char (Sha256.hexdigest msg) = true.
Proof.
  unfold Sha256.hexdigest. induction (Sha256.digest_words msg) as [|w ws IH].
  - reflexivity.
  - cbn [fold_right]. rewrite all_chars_append, hex_all_hex, IH. reflexivity.
Qed.

Lemma hash_token_not_prefixed token rest : hash_token token <> "d2d_" +:+ rest.
Proof.
  intros H. pose proof (hexdigest_all_hex (PyStr.encode token)) as Hh.
  unfold hash_token in H. rewrite H in Hh. discriminate Hh.
Qed.

Lemma zfill_head n x :
  exists d r, 0 <= d <= 9 /\ zfill (S n) x = String (digit d) r.
Proof.
  revert x. induction n as [|n IH]; intros x.
  - exists (x mod 10), EmptyString. split; [Z.div_mod_to_equations; lia | reflexivity].
  - destruct (IH (x / 10)) as (d & r & Hd & Hz).
    exists d, (r +:+ String (digit (x mod 10)) EmptyString). split; [assumption|].
    change (zfill (S (S n)) x) with (zfill (S n) (x / 10) +:+ String (digit (x mod 10)) EmptyString).
    rewrite Hz. reflexivity.
Qed.

Lemma isoformat_not_prefixed t rest : isoformat t <> "d2d_" +:+ rest.
Proof.
  unfold isoformat. destruct (zfill_head 3 (year t)) as (d & r & Hd & ->).
  rewrite append_cons. change ("d2d_" +:+ rest) with (String "d" ("2d_" +:+ rest)).
  intros H. injection H as H _.
  apply (f_equal PyStr.ord) in H.
  rewrite ord_digit in H by assumption.
  change (PyStr.ord "d") with 100 in H. lia.
Qed.

(* ===================================================================== *)
(** * What each function of the credential store does to the world *)
(* ===================================================================== *)

Ltac run_M :=
  cbv beta iota zeta delta
    [mbind M_bind mret M_ret connect commit close called utcnow or_raise raise
     execute_create_table execute_insert_token execute_select_expires_at
     execute_insert_login execute_delete_logins_before
     with_calls with_db with_clock
     fst snd db clock calls upstream sent_upstream pending].

Lemma verify_token_malformed token w :
  PyStr.truthy_opt token = false
  \/ (exists s, token = Some s /\ PyStr.startswith "d2d_" s = false) ->
  verify_token token w = (Return false, w).
Proof.
  intros [H | (s & -> & H)]; unfold verify_token.
  - destruct token as [s|]; [|reflexivity]. simpl in H. rewrite H. reflexivity.
  - rewrite H, orb_true_r. reflexivity.
Qed.

Lemma verify_token_run token w :
  PyStr.truthy token = true -> PyStr.startswith "d2d_" token = true ->
  verify_token (Some token) w =
  let w' := with_calls [Connect; SelectExpiresAt (hash_token token); Close] w in
  match tokens (db w) !! hash_token token with
  | None => (Return false, w')
  | Some row =>
      match fromisoformat (expires_at row) with
      | None => (Raise ValueError, w')
      | Some expires => (Return (Datetime.lt (clock w) expires), w')
      end
  end.
Proof.
  intros Ht Hp. unfold verify_token. rewrite Ht, Hp. cbn [negb orb].
  destruct w as [d t cs up sent]. run_M. rewrite <- !app_assoc. cbn [app].
  destruct (tokens d !! hash_token token) as [row|]; cbn [fmap option_fmap option_map];
    [|reflexivity].
  destruct (fromisoformat (expires_at row)); reflexivity.
Qed.

Lemma log_login_run token ip ua w :
  log_login token ip ua w =
  let ua' := Some (PyStr.take 200 (PyStr.or_empty ua)) in
  let ts := isoformat (clock w) in
  let rowid := next_rowid (db w) in
  (Return tt,
   mkWorld (mkDatabase (tokens (db w))
                       (logins (db w) ++ [mkLogin rowid (hash_token token) ip ua' ts])
                       rowid)
           (clock w)
           (calls w ++ [Connect; InsertLogin (hash_token token) ip ua' ts; Commit; Close])
           (upstream w) (sent_upstream w)).
Proof.
  destruct w as [d t cs up sent]. unfold log_login. run_M.
  rewrite <- !app_assoc. reflexivity.
Qed.

Lemma generate_token_run random_bytes w :
  generate_token random_bytes w =
  let token := "d2d_" +:+ random_bytes in
  let h := hash_token token in
  match add (clock w) (timedelta_of 28 0 0) with
  | None => (Raise OverflowError, with_calls [Connect] w)
  | Some expires =>
      let ins := InsertToken h (isoformat (clock w)) (isoformat expires) in
      match tokens (db w) !! h with
      | Some _ => (Raise IntegrityError, with_calls [Connect; ins] w)
      | None =>
          (Return (token, h),
           mkWorld (mkDatabase (<[h := mkToken (isoformat (clock w)) (isoformat expires)]>
                                  (tokens (db w)))
                               (logins (db w)) (logins_seq (db w)))
                   (clock w) (calls w ++ [Connect; ins; Commit; Close])
                   (upstream w) (sent_upstream w))
      end
  end.
Proof.
  destruct w as [d t cs up sent]. unfold generate_token. run_M.
  destruct (add t (timedelta_of 28 0 0)) as [expires|]; [|reflexivity].
  destruct (tokens d !! hash_token ("d2d_" +:+ random_bytes));
    rewrite <- ?app_assoc; reflexivity.
Qed.

Lemma cleanup_old_logins_run w :
  cleanup_old_logins w =
  match sub (clock w) (timedelta_of LOGIN_RETENTION_DAYS 0 0) with
  | None => (Raise OverflowError, with_calls [Connect] w)
  | Some cutoff =>
      (Return tt,
       mkWorld (mkDatabase (tokens (db w))
                  (List.filter (fun r => negb (text_lt (timestamp r) (isoformat cutoff)))
                               (logins (db w)))
                  (logins_seq (db w)))
               (clock w)
               (calls w ++ [Connect; DeleteLoginsBefore (isoformat cutoff); Commit; Close])
               (upstream w) (sent_upstream w))
  end.
Proof.
  destruct w as [d t cs up sent]. unfold cleanup_old_logins. run_M.
  destruct (sub t (timedelta_of LOGIN_RETENTION_DAYS 0 0)) as [cutoff|];
    [|reflexivity].
  rewrite <- !app_assoc. reflexivity.
Qed.

Lemma init_database_run w :
  init_database w =
  (Return tt,
   with_calls [Connect; CreateTable "tokens" tokens_schema;
               CreateTable "logins" logins_schema; Commit; Close] w).
Proof.
  destruct w as [d t cs up sent]. unfold init_database. run_M.
  rewrite <- !app_assoc. reflexivity.
Qed.

Lemma to_microseconds_split t :
  valid t = true ->
  exists tod, 0 <= tod < DAY_US /\ to_microseconds t = toordinal t * DAY_US + tod.
Proof.
  intros Hv. apply valid_iff in Hv. destruct Hv as (_ & Hh & Hm & Hs & Hu).
  exists (((hour t * 60 + minute t) * 60 + second t) * 1000000 + microsecond t).
  unfold to_microseconds, DAY_US. lia.
Qed.

Lemma toordinal_range t : valid t = true -> 1 <= toordinal t <= MAXORDINAL.
Proof.
  intros Hv. apply valid_iff in Hv. destruct Hv as (Hd & _). apply ymd2ord_range, Hd.
Qed.

(** Adding whole days: defined exactly while the ordinal stays in range, and
    then the result is that many days later to the microsecond. *)
Lemma add_days t n :
  valid t = true -> 1 <= toordinal t + n <= MAXORDINAL ->
  exists t', add t (timedelta_of n 0 0) = Some t' /\ valid t' = true
             /\ to_microseconds t' = to_microseconds t + n * DAY_US.
Proof.
  intros Hv Hr. destruct (to_microseconds_split t Hv) as (tod & Htod & Hsplit).
  assert (Hd : delta_microseconds (timedelta_of n 0 0) = n * DAY_US)
    by (rewrite timedelta_of_microseconds; unfold DAY_US; lia).
  destruct (add_defined t (timedelta_of n 0 0) Hv) as [t' Ht'].
  { rewrite Hd, Hsplit. unfold DAY_US, MAXORDINAL in *. lia. }
  exists t'. destruct (add_spec _ _ _ Hv Ht') as [Hv' Heq].
  rewrite Hd in Heq. auto.
Qed.

Lemma add_days_overflow t n :
  valid t = true -> ~ (1 <= toordinal t + n <= MAXORDINAL) ->
  add t (timedelta_of n 0 0) = None.
Proof.
  intros Hv Hr. apply add_overflow; [assumption|].
  destruct (to_microseconds_split t Hv) as (tod & Htod & Hsplit).
  rewrite timedelta_of_microseconds, Hsplit. unfold DAY_US, MAXORDINAL in *. lia.
Qed.

Lemma sub_days t n :
  valid t = true -> 1 <= toordinal t - n <= MAXORDINAL ->
  exists t', sub t (timedelta_of n 0 0) = Some t' /\ valid t' = true
             /\ to_microseconds t' = to_microseconds t - n * DAY_US.
Proof.
  intros Hv Hr. unfold sub.
  destruct (to_microseconds_split t Hv) as (tod & Htod & Hsplit).
  assert (Hd : delta_microseconds (delta_neg (timedelta_of n 0 0)) = - (n * DAY_US))
    by (rewrite delta_neg_microseconds, timedelta_of_microseconds; unfold DAY_US; lia).
  destruct (add_defined t (delta_neg (timedelta_of n 0 0)) Hv) as [t' Ht'].
  { rewrite Hd, Hsplit. unfold DAY_US, MAXORDINAL in *. lia. }
  exists t'. destruct (add_spec _ _ _ Hv Ht') as [Hv' Heq].
  rewrite Hd in Heq. split; [assumption|]. split; [assumption|]. lia.
Qed.

Lemma length_take n s : (String.length (PyStr.take n s) <= n)%nat.
Proof.
  revert s. induction n as [|n IH]; intros [|c s]; simpl; try lia.
  specialize (IH s). lia.
Qed.

Lemma take_drop n s : PyStr.take n s +:+ PyStr.drop n s = s.
Proof.
  revert s. induction n as [|n IH]; intros [|c s]; try reflexivity.
  cbn [PyStr.take PyStr.drop]. rewrite append_cons, IH. reflexivity.
Qed.

Lemma take_all n s : (String.length s <= n)%nat -> PyStr.take n s = s.
Proof.
  revert s. induction n as [|n IH]; intros [|c s]; simpl; intros H; try reflexivity;
    try lia.
  rewrite IH by lia. reflexivity.
Qed.

Lemma with_calls_nil w : with_calls [] w = w.
Proof. destruct w. unfold with_calls. cbn. rewrite app_nil_r. reflexivity. Qed.

Lemma verify_token_eq token w :
  verify_token token w =
  (verify_answer token (db w) (clock w), with_calls (verify_calls token) w).
Proof.
  destruct token as [t|]; [|cbn; rewrite with_calls_nil; reflexivity].
  unfold verify_answer, verify_calls.
  destruct (PyStr.truthy t) eqn:Ht.
  2:{ unfold verify_token. rewrite Ht. cbn. rewrite with_calls_nil. reflexivity. }
  destruct (PyStr.startswith "d2d_" t) eqn:Hp.
  2:{ unfold verify_token. rewrite Ht, Hp. cbn. rewrite with_calls_nil. reflexivity. }
  rewrite verify_token_run by assumption. cbv zeta. cbn [negb orb].
  destruct (tokens (db w) !! hash_token t) as [row|]; [|reflexivity].
  destruct (fromisoformat (expires_at row)); reflexivity.
Qed.

Lemma log_login_eq token ip ua w :
  log_login token ip ua w =
  (Return tt,
   with_calls [Connect;
               InsertLogin (hash_token token) ip
                 (Some (PyStr.take 200 (PyStr.or_empty ua))) (isoformat (clock w));
               Commit; Close]
     (with_db (login_db token ip ua (db w) (clock w)) w)).
Proof. rewrite log_login_run. reflexivity. Qed.

Ltac run_GET :=
  cbv beta iota zeta delta
    [mbind M_bind mret M_ret raise first_param urlopen_search log_login_opt negb
     with_calls with_db with_clock
     fst snd db clock calls upstream sent_upstream].

(** The tables [do_GET] leaves. *)
Lemma do_GET_db r w :
  db (snd (do_GET r w)) =
  if String.eqb (path r) "/search" && negb (String.eqb (path r) "/")
     && match params r !! "q" with Some [] => true | _ => false end
  then db w
  else persisted_by r (db w) (clock w).
Proof.
  unfold do_GET, persisted_by, request_token.
  destruct w as [d now cs up sent].
  destruct (params r !! "token") as [[|v vs]|] eqn:Htok.
  - run_GET. rewrite Htok. destruct (_ && _ && _); reflexivity.
  - run_GET. rewrite Htok.
    set (token := if PyStr.truthy_opt (Some v) then Some v else _).
    destruct (String.eqb (path r) "/") eqn:Hroot.
    + cbn [negb]. rewrite andb_false_r. cbn [andb].
      destruct (PyStr.truthy_opt token) eqn:Htruthy.
      * rewrite verify_token_eq. run_GET.
        destruct (verify_answer token d now) as [[|]|]; try reflexivity.
        destruct token as [t|]; [|discriminate].
        rewrite log_login_eq. run_GET. reflexivity.
      * reflexivity.
    + destruct (String.eqb (path r) "/search") eqn:Hsearch.
      * cbn [andb negb].
        destruct (params r !! "q") as [[|q qs]|] eqn:Hq; try reflexivity;
          rewrite verify_token_eq; run_GET;
          (destruct (verify_answer token d now) as [[|]|]; try reflexivity);
          (destruct token as [t|]; [rewrite log_login_eq; run_GET|reflexivity]).
        all: destruct (PyStr.truthy_opt _); try reflexivity.
        all: destruct (up _); reflexivity.
      * cbn [andb]. destruct (String.eqb (path r) "/health"); reflexivity.
  - run_GET. rewrite Htok.
    set (token := if PyStr.truthy_opt None then None else _).
    destruct (String.eqb (path r) "/") eqn:Hroot.
    + cbn [negb]. rewrite andb_false_r. cbn [andb].
      destruct (PyStr.truthy_opt token) eqn:Htruthy.
      * rewrite verify_token_eq. run_GET.
        destruct (verify_answer token d now) as [[|]|]; try reflexivity.
        destruct token as [t|]; [|discriminate].
        rewrite log_login_eq. run_GET. reflexivity.
      * reflexivity.
    + destruct (String.eqb (path r) "/search") eqn:Hsearch.
      * cbn [andb negb].
        destruct (params r !! "q") as [[|q qs]|] eqn:Hq; try reflexivity;
          rewrite verify_token_eq; run_GET;
          (destruct (verify_answer token d now) as [[|]|]; try reflexivity);
          (destruct token as [t|]; [rewrite log_login_eq; run_GET|reflexivity]).
        all: destruct (PyStr.truthy_opt _); try reflexivity.
        all: destruct (up _); reflexivity.
      * cbn [andb]. destruct (String.eqb (path r) "/health"); reflexivity.
Qed.

(** [verify_token] writes nothing. *)
Lemma verify_token_db token w : db (snd (verify_token token w)) = db w.
Proof. rewrite verify_token_eq. reflexivity. Qed.

Lemma persisted_by_tokens r d now : tokens (persisted_by r d now) = tokens d.
Proof.
  unfold persisted_by.
  destruct (request_token r) as [[t|]|]; try reflexivity;
    repeat match goal with
    | |- context [if ?b then _ else _] => destruct b
    | |- context [match verify_answer ?t ?d ?n with _ => _ end] =>
        destruct (verify_answer t d n) as [[|]|]
    end; reflexivity.
Qed.

(** No operation changes or removes a row of [tokens]. *)
Lemma step_keeps_token_rows op w h row :
  tokens (db w) !! h = Some row -> tokens (db (step op w)) !! h = Some row.
Proof.
  intros Hrow. destruct op; cbn [step].
  - rewrite init_database_run. exact Hrow.
  - rewrite generate_token_run. cbv zeta.
    destruct (add (clock w) (timedelta_of 28 0 0)) as [expires|]; [|exact Hrow].
    destruct (tokens (db w) !! hash_token ("d2d_" +:+ random_bytes)) eqn:Hfresh;
      [exact Hrow|].
    cbn [snd db tokens]. rewrite lookup_insert_ne; [exact Hrow|]. congruence.
  - rewrite verify_token_db. exact Hrow.
  - rewrite log_login_run. exact Hrow.
  - rewrite cleanup_old_logins_run.
    destruct (sub (clock w) (timedelta_of LOGIN_RETENTION_DAYS 0 0)); exact Hrow.
  - rewrite do_GET_db. destruct (_ && _ && _); [exact Hrow|].
    rewrite persisted_by_tokens. exact Hrow.
  - exact Hrow.
  - exact Hrow.
Qed.

Lemma run_keeps_token_rows ops w h row :
  tokens (db w) !! h = Some row -> tokens (db (run ops w)) !! h = Some row.
Proof.
  revert w. induction ops as [|op ops IH]; intros w Hrow; [exact Hrow|].
  apply IH, step_keeps_token_rows, Hrow.
Qed.

Lemma filter_filter_weaker {A} (f g : A -> bool) (l : list A) :
  (forall x, f x = true -> g x = true) ->
  List.filter g (List.filter f l) = List.filter f l.
Proof.
  intros Hfg. induction l as [|x l IH]; [reflexivity|].
  cbn [List.filter]. destruct (f x) eqn:Hf; [|exact IH].
  cbn [List.filter]. rewrite (Hfg x Hf), IH. reflexivity.
Qed.

(* ===================================================================== *)
(** * The properties of the specification *)
(* ===================================================================== *)

(** C1. What is persisted about a request.  [log_login] appends one row of
    exactly the hash, the address, the truncated user agent and the clock
    reading (with the rowid SQLite assigns); the [logins] table is created
    with those five columns; and the tables [do_GET] leaves are the same for
    two requests that differ only in their search query [q], whatever the
    search backend answers. *)
Theorem C1_no_query_is_persisted :
  (forall token ip ua w,
     db (snd (log_login token ip ua w))
     = mkDatabase
         (tokens (db w))
         (logins (db w)
          ++ [mkLogin (next_rowid (db w)) (Sha256.hexdigest (PyStr.encode token)) ip
                      (Some (PyStr.take 200 (PyStr.or_empty ua))) (isoformat (clock w))])%list
         (next_rowid (db w)))
  /\ map col_name logins_schema
     = ["id"; "token_hash"; "ip_address"; "user_agent"; "timestamp"]
  /\ (forall w,
        calls (snd (init_database w))
        = (calls w ++ [Connect; CreateTable "tokens" tokens_schema;
                       CreateTable "logins" logins_schema; Commit; Close])%list)
  /\ (forall r r' w w',
        path r = path r' -> headers r = headers r' ->
        client_address r = client_address r' ->
        (forall k, k <> "q" -> params r !! k = params r' !! k) ->
        params r !! "q" <> Some [] -> params r' !! "q" <> Some [] ->
        db w = db w' -> clock w = clock w' ->
        db (snd (do_GET r w)) = db (snd (do_GET r' w'))).
Proof.
  split; [intros; rewrite log_login_run; reflexivity|].
  split; [reflexivity|].
  split; [intros; rewrite init_database_run; reflexivity|].
  intros r r' w w' Hpath Hhead Hpeer Hparams Hq Hq' Hdb Hclock.
  rewrite !do_GET_db.
  replace (match params r !! "q" with Some [] => true | _ => false end) with false
    by (destruct (params r !! "q") as [[|]|]; congruence).
  replace (match params r' !! "q" with Some [] => true | _ => false end) with false
    by (destruct (params r' !! "q") as [[|]|]; congruence).
  rewrite !andb_false_r.
  unfold persisted_by, request_token, get_client_ip.
  rewrite <- Hpath, <- Hhead, <- Hpeer, <- Hdb, <- Hclock, <- (Hparams "token") by discriminate.
  reflexivity.
Qed.

Lemma C1_no_query_is_persisted_witness :
  db (snd (do_GET (search_request "cats") issued_world))
  = db (snd (do_GET (search_request "dogs") issued_world)).
Proof.
  apply (proj2 (proj2 (proj2 C1_no_query_is_persisted))); try reflexivity.
  - intros k Hk. unfold search_request. cbn [params].
    rewrite !(lookup_insert_ne _ "q") by congruence. reflexivity.
  - vm_compute. discriminate.
  - vm_compute. discriminate.
Defined.

(** C2. Issuance and immediate verification.  When [generate_token]
    returns, which it does when the token's hash is not yet a key of
    [tokens] and 28 days from the clock reading is still a date, it returns
    the pair of the token and its SHA-256, the lower-case hex digest
    [Sha256.hexdigest] of the UTF-8 bytes [PyStr.encode] of the token; the
    only row written is keyed by that digest and holds the two timestamps;
    none of the three stored texts is the token; and [verify_token] of the
    token answers true at every clock reading before the expiry, the reading
    of issuance included. *)
Theorem C2_issue_then_verify (random_bytes : string) (w : world) :
  valid (clock w) = true ->
  tokens (db w) !! Sha256.hexdigest (PyStr.encode ("d2d_" +:+ random_bytes)) = None ->
  toordinal (clock w) + 28 <= MAXORDINAL ->
  exists expires w1,
    let token := "d2d_" +:+ random_bytes in
    let h := Sha256.hexdigest (PyStr.encode token) in
    generate_token random_bytes w = (Return (token, h), w1)
    /\ add (clock w) (timedelta_of 28 0 0) = Some expires
    /\ db w1 = mkDatabase
                 (<[h := mkToken (isoformat (clock w)) (isoformat expires)]> (tokens (db w)))
                 (logins (db w)) (logins_seq (db w))
    /\ h <> token /\ isoformat (clock w) <> token /\ isoformat expires <> token
    /\ Datetime.lt (clock w) expires = true
    /\ fst (verify_token (Some token) w1) = Return true
    /\ forall w2, db w2 = db w1 -> valid (clock w2) = true ->
         Datetime.lt (clock w2) expires = true ->
         fst (verify_token (Some token) w2) = Return true.
Proof.
  change (Sha256.hexdigest (PyStr.encode ("d2d_" +:+ random_bytes)))
    with (hash_token ("d2d_" +:+ random_bytes)).
  intros Hv Hfresh Hrange.
  pose proof (toordinal_range _ Hv) as Hord.
  destruct (add_days (clock w) 28 Hv ltac:(lia)) as (expires & Hadd & Hve & Hus).
  rewrite generate_token_run. cbv zeta. rewrite Hadd, Hfresh.
  eexists expires, _. cbv zeta.
  split; [reflexivity|]. split; [reflexivity|]. split; [reflexivity|].
  split; [apply hash_token_not_prefixed|].
  split; [apply isoformat_not_prefixed|].
  split; [apply isoformat_not_prefixed|].
  assert (Hlt : Datetime.lt (clock w) expires = true).
  { rewrite lt_to_microseconds by assumption. apply Z.ltb_lt. unfold DAY_US in Hus. lia. }
  assert (Hverify : forall w2,
    tokens (db w2) !! hash_token ("d2d_" +:+ random_bytes)
      = Some (mkToken (isoformat (clock w)) (isoformat expires)) ->
    Datetime.lt (clock w2) expires = true ->
    fst (verify_token (Some ("d2d_" +:+ random_bytes)) w2) = Return true).
  { intros w2 Hrow Hnow. rewrite verify_token_run by reflexivity. cbv zeta.
    rewrite Hrow. cbn [expires_at]. rewrite fromisoformat_isoformat by assumption.
    cbn [fst]. rewrite Hnow. reflexivity. }
  split; [assumption|]. split.
  - apply Hverify; [|assumption]. cbn [db tokens]. apply lookup_insert_eq.
  - intros w2 Hdb Hv2 Hnow. apply Hverify; [|assumption].
    rewrite Hdb. cbn [db tokens]. apply lookup_insert_eq.
Qed.

Lemma C2_issue_then_verify_witness :
  valid (clock fresh_world) = true
  /\ tokens (db fresh_world) !! Sha256.hexdigest (PyStr.encode ("d2d_" +:+ "abc123")) = None
  /\ toordinal (clock fresh_world) + 28 <= MAXORDINAL
  /\ fst (generate_token "abc123" fresh_world)
     = Return ("d2d_abc123",
               "a0cdc18bd52cc8426836e7f2fe3b0f1c36afbce99791bee37803e932562d2fc0")
  /\ tokens (db (snd (generate_token "abc123" fresh_world)))
       !! "a0cdc18bd52cc8426836e7f2fe3b0f1c36afbce99791bee37803e932562d2fc0"
     = Some (mkToken "2026-11-04T12:00:00" "2026-12-02T12:00:00")
  /\ fst (verify_token (Some "d2d_abc123") (snd (generate_token "abc123" fresh_world)))
     = Return true.
Proof.
  assert (H1 : valid (clock fresh_world) = true) by reflexivity.
  assert (H2 : tokens (db fresh_world)
                 !! Sha256.hexdigest (PyStr.encode ("d2d_" +:+ "abc123")) = None)
    by reflexivity.
  assert (H3 : toordinal (clock fresh_world) + 28 <= MAXORDINAL)
    by (vm_compute; discriminate).
  destruct (C2_issue_then_verify "abc123" fresh_world H1 H2 H3)
    as (expires & w1 & Hgen & Hadd & Hdb & _ & _ & _ & _ & Hverify & _).
  cbv zeta in Hgen, Hdb, Hverify. rewrite Hgen. cbn [fst snd].
  split; [assumption|]. split; [assumption|]. split; [assumption|].
  split; [vm_compute; reflexivity|]. split; [|assumption].
  rewrite Hdb. cbn [tokens]. vm_compute in Hadd. injection Hadd as <-.
  vm_compute. reflexivity.
Defined.

(** C3. Verification of a well-formed candidate.  The row [verify_token]
    looks up is the one keyed by the SHA-256 of the candidate, the digest
    [Sha256.hexdigest] of its UTF-8 bytes.  With no such row the answer is
    false, and a true answer means there is such a row.  For a row holding
    an expiry as [generate_token] writes it, the [isoformat] text of a
    datetime, the answer is the strict comparison of the clock with that
    expiry: true exactly when the clock is before it, false at the expiry
    instant and after it, true one microsecond before it. *)
Theorem C3_verify_iff_row_and_unexpired (candidate : string) (w : world) :
  PyStr.truthy candidate = true ->
  PyStr.startswith "d2d_" candidate = true ->
  valid (clock w) = true ->
  let h := Sha256.hexdigest (PyStr.encode candidate) in
  let answer := fst (verify_token (Some candidate) w) in
  (tokens (db w) !! h = None -> answer = Return false)
  /\ (answer = Return true -> exists row, tokens (db w) !! h = Some row)
  /\ ((forall row, tokens (db w) !! h = Some row ->
         exists expires, valid expires = true /\ expires_at row = isoformat expires) ->
      (answer = Return true <->
         exists row expires,
           tokens (db w) !! h = Some row
           /\ expires_at row = isoformat expires /\ valid expires = true
           /\ Datetime.lt (clock w) expires = true))
  /\ (forall created expires,
        tokens (db w) !! h = Some (mkToken created (isoformat expires)) ->
        valid expires = true ->
        answer = Return (to_microseconds (clock w) <? to_microseconds expires)
        /\ (answer = Return true <-> Datetime.lt (clock w) expires = true)
        /\ (clock w = expires -> answer = Return false)
        /\ (Datetime.lt expires (clock w) = true -> answer = Return false)
        /\ (add (clock w) (timedelta_of 0 0 1) = Some expires -> answer = Return true)).
Proof.
  change (Sha256.hexdigest (PyStr.encode candidate)) with (hash_token candidate).
  intros Ht Hp Hvn h answer. subst h answer.
  rewrite verify_token_run by assumption. cbv zeta.
  assert (Hrow : forall row expires,
            tokens (db w) !! hash_token candidate = Some row ->
            expires_at row = isoformat expires -> valid expires = true ->
            fst match tokens (db w) !! hash_token candidate with
                | Some row0 =>
                    match fromisoformat (expires_at row0) with
                    | Some e =>
                        (Return (Datetime.lt (clock w) e),
                         with_calls [Connect; SelectExpiresAt (hash_token candidate); Close] w)
                    | None =>
                        (Raise ValueError,
                         with_calls [Connect; SelectExpiresAt (hash_token candidate); Close] w)
                    end
                | None =>
                    (Return false,
                     with_calls [Connect; SelectExpiresAt (hash_token candidate); Close] w)
                end
            = Return (Datetime.lt (clock w) expires)).
  { intros row expires -> -> Hve. rewrite fromisoformat_isoformat by assumption.
    reflexivity. }
  split; [|split; [|split]].
  - intros ->. reflexivity.
  - destruct (tokens (db w) !! hash_token candidate) as [row|]; [eauto|discriminate].
  - intros Hwritten. split.
    + intros Htrue.
      destruct (tokens (db w) !! hash_token candidate) as [row|] eqn:Hlook;
        [|discriminate].
      destruct (Hwritten row eq_refl) as (expires & Hve & Hexp).
      exists row, expires. rewrite (Hrow row expires eq_refl Hexp Hve) in Htrue.
      injection Htrue as Hlt. auto.
    + intros (row & expires & Hlook & Hexp & Hve & Hlt).
      rewrite (Hrow row expires Hlook Hexp Hve), Hlt. reflexivity.
  - intros created expires Hlook Hve.
    rewrite (Hrow _ expires Hlook eq_refl Hve).
    rewrite lt_to_microseconds by assumption.
    split; [reflexivity|]. split; [|split; [|split]].
    + split; [intros [= H]; exact H | intros ->; reflexivity].
    + intros ->. rewrite Z.ltb_irrefl. reflexivity.
    + rewrite lt_to_microseconds by assumption. intros Hlt. apply Z.ltb_lt in Hlt.
      f_equal. apply Z.ltb_ge. lia.
    + intros Hadd. destruct (add_spec _ _ _ Hvn Hadd) as [_ Heq].
      rewrite timedelta_of_microseconds in Heq. f_equal. apply Z.ltb_lt. lia.
Qed.

Lemma C3_verify_iff_row_and_unexpired_witness :
  PyStr.truthy "d2d_abc123" = true
  /\ PyStr.startswith "d2d_" "d2d_abc123" = true
  /\ valid (clock issued_world) = true
  /\ tokens (db issued_world)
       !! "a0cdc18bd52cc8426836e7f2fe3b0f1c36afbce99791bee37803e932562d2fc0"
     = Some (mkToken "2026-11-04T12:00:00" (isoformat (mkDatetime 2026 12 2 12 0 0 0)))
  /\ fst (verify_token (Some "d2d_abc123") issued_world) = Return true
  /\ fst (verify_token (Some "d2d_abc123")
            (with_clock (mkDatetime 2026 12 2 12 0 0 0) issued_world)) = Return false
  /\ fst (verify_token (Some "d2d_other") issued_world) = Return false.
Proof.
  assert (Hrow : tokens (db issued_world)
                   !! Sha256.hexdigest (PyStr.encode "d2d_abc123")
                 = Some (mkToken "2026-11-04T12:00:00"
                                 (isoformat (mkDatetime 2026 12 2 12 0 0 0))))
    by (vm_compute; reflexivity).
  split; [reflexivity|]. split; [reflexivity|]. split; [reflexivity|].
  split; [vm_compute; reflexivity|]. split; [|split].
  - pose proof (proj2 (proj2 (proj2 (C3_verify_iff_row_and_unexpired "d2d_abc123"
                  issued_world eq_refl eq_refl eq_refl)))
                  "2026-11-04T12:00:00" (mkDatetime 2026 12 2 12 0 0 0) Hrow eq_refl)
      as (_ & Hiff & _).
    apply Hiff. vm_compute. reflexivity.
  - pose proof (proj2 (proj2 (proj2 (C3_verify_iff_row_and_unexpired "d2d_abc123"
                  (with_clock (mkDatetime 2026 12 2 12 0 0 0) issued_world)
                  eq_refl eq_refl eq_refl)))
                  "2026-11-04T12:00:00" (mkDatetime 2026 12 2 12 0 0 0) Hrow eq_refl)
      as (_ & _ & Hat & _).
    apply Hat. reflexivity.
  - apply (proj1 (C3_verify_iff_row_and_unexpired "d2d_other" issued_world
                    eq_refl eq_refl eq_refl)).
    vm_compute. reflexivity.
Defined.

(** C4. A candidate that is absent, empty or without the prefix [d2d_] is
    refused with the world untouched: the answer is false and no call to
    [sqlite3] is made, so the answer cannot depend on what is stored. *)
Theorem C4_verify_rejects_malformed_without_storage (candidate : option string) (w : world) :
  PyStr.truthy_opt candidate = false
  \/ (exists s, candidate = Some s /\ PyStr.startswith "d2d_" s = false) ->
  verify_token candidate w = (Return false, w)
  /\ calls (snd (verify_token candidate w)) = calls w.
Proof.
  intros H. rewrite (verify_token_malformed candidate w H). split; reflexivity.
Qed.

Lemma C4_verify_rejects_malformed_without_storage_witness :
  verify_token (Some "wrong-prefix-xyz") issued_world = (Return false, issued_world)
  /\ verify_token (Some EmptyString) issued_world = (Return false, issued_world)
  /\ verify_token None issued_world = (Return false, issued_world).
Proof.
  split; [|split].
  - apply (C4_verify_rejects_malformed_without_storage (Some "wrong-prefix-xyz")).
    right. exists "wrong-prefix-xyz". split; reflexivity.
  - apply (C4_verify_rejects_malformed_without_storage (Some EmptyString)).
    left. reflexivity.
  - apply (C4_verify_rejects_malformed_without_storage None). left. reflexivity.
Defined.

(** C5. Verification changes neither table, whatever it answers and
    whatever exception it ends with. *)
Theorem C5_verify_leaves_store_unchanged (candidate : option string) (w : world) :
  db (snd (verify_token candidate w)) = db w.
Proof. apply verify_token_db. Qed.

(** C6. The expiry of an issued token is the issuance instant plus 28
    days, to the microsecond, and whatever runs afterwards (any sequence of
    store functions, requests, clock changes) the row stays as written. *)
Theorem C6_expiry_fixed_at_issuance (random_bytes token h : string) (w w1 : world) :
  valid (clock w) = true ->
  generate_token random_bytes w = (Return (token, h), w1) ->
  exists expires,
    add (clock w) (timedelta_of 28 0 0) = Some expires
    /\ valid expires = true
    /\ to_microseconds expires = to_microseconds (clock w) + 28 * DAY_US
    /\ forall later : list operation,
         tokens (db (run later w1)) !! h
         = Some (mkToken (isoformat (clock w)) (isoformat expires)).
Proof.
  intros Hv. rewrite generate_token_run. cbv zeta.
  destruct (add (clock w) (timedelta_of 28 0 0)) as [expires|] eqn:Hadd; [|discriminate].
  destruct (tokens (db w) !! hash_token ("d2d_" +:+ random_bytes)); [discriminate|].
  intros [= <- <- <-]. exists expires.
  destruct (add_spec _ _ _ Hv Hadd) as [Hve Hus].
  rewrite timedelta_of_microseconds in Hus.
  split; [reflexivity|]. split; [assumption|]. split; [unfold DAY_US; lia|].
  intros later. apply run_keeps_token_rows. cbn [db tokens]. apply lookup_insert_eq.
Qed.

Lemma C6_expiry_fixed_at_issuance_witness :
  exists expires,
    add (clock fresh_world) (timedelta_of 28 0 0) = Some expires
    /\ valid expires = true
    /\ to_microseconds expires = to_microseconds (clock fresh_world) + 28 * DAY_US
    /\ forall later : list operation,
         tokens (db (run later issued_world)) !! hash_token "d2d_abc123"
         = Some (mkToken (isoformat (clock fresh_world)) (isoformat expires)).
Proof.
  apply (C6_expiry_fixed_at_issuance "abc123" "d2d_abc123" (hash_token "d2d_abc123")
           fresh_world issued_world).
  - reflexivity.
  - vm_compute. reflexivity.
Defined.

(** C7. Pruning keeps, in order and as they are, the rows whose timestamp
    is not below the text of the cutoff, the clock reading minus 90 days,
    and leaves [tokens] alone; for a row stamped by [isoformat] that is:
    the row goes exactly when its instant is strictly earlier than the
    cutoff. *)
Theorem C7_prune_deletes_exactly_older_rows (w : world) :
  valid (clock w) = true ->
  90 < toordinal (clock w) ->
  exists cutoff w1,
    sub (clock w) (timedelta_of 90 0 0) = Some cutoff
    /\ valid cutoff = true
    /\ to_microseconds cutoff = to_microseconds (clock w) - 90 * DAY_US
    /\ cleanup_old_logins w = (Return tt, w1)
    /\ logins (db w1)
       = List.filter (fun r => negb (text_lt (timestamp r) (isoformat cutoff)))
                     (logins (db w))
    /\ tokens (db w1) = tokens (db w)
    /\ forall r t, In r (logins (db w)) -> timestamp r = isoformat t -> valid t = true ->
         (In r (logins (db w1)) <-> Datetime.lt t cutoff = false)
         /\ (Datetime.lt t cutoff = true
             <-> to_microseconds t < to_microseconds (clock w) - 90 * DAY_US).
Proof.
  intros Hv Hord. pose proof (toordinal_range _ Hv) as Hr.
  destruct (sub_days (clock w) 90 Hv ltac:(lia)) as (cutoff & Hsub & Hvc & Hus).
  rewrite cleanup_old_logins_run. unfold LOGIN_RETENTION_DAYS. rewrite Hsub.
  eexists cutoff, _.
  split; [reflexivity|]. split; [assumption|]. split; [assumption|].
  split; [reflexivity|]. split; [reflexivity|]. split; [reflexivity|].
  intros r t Hin Hts Hvt. cbn [db logins]. split.
  - rewrite filter_In, Hts, text_lt_isoformat, negb_true_iff by assumption. tauto.
  - rewrite lt_to_microseconds, Z.ltb_lt, Hus by assumption. tauto.
Qed.

Lemma C7_prune_deletes_exactly_older_rows_witness :
  valid (clock logged_world) = true
  /\ 90 < toordinal (clock logged_world)
  /\ logins (db (snd (cleanup_old_logins logged_world))) = [recent_login].
Proof.
  assert (H1 : valid (clock logged_world) = true) by reflexivity.
  assert (H2 : 90 < toordinal (clock logged_world)) by reflexivity.
  destruct (C7_prune_deletes_exactly_older_rows logged_world H1 H2)
    as (cutoff & w1 & Hsub & _ & _ & Hrun & Hlogins & _).
  split; [assumption|]. split; [assumption|].
  rewrite Hrun. cbn [snd]. rewrite Hlogins.
  vm_compute in Hsub. injection Hsub as <-. vm_compute. reflexivity.
Defined.

(** C8, as the code has it.  A second pruning run with no login recorded in
    between removes nothing when its clock reading is not later than the
    first run's. *)
Theorem C8_second_prune_noop_unless_clock_advanced (w w' : world) :
  valid (clock w) = true ->
  valid (clock w') = true ->
  90 < toordinal (clock w') ->
  Datetime.le (clock w') (clock w) = true ->
  db w' = db (snd (cleanup_old_logins w)) ->
  fst (cleanup_old_logins w) = Return tt
  /\ fst (cleanup_old_logins w') = Return tt
  /\ db (snd (cleanup_old_logins w')) = db w'.
Proof.
  intros Hv Hv' Hord' Hle Hdb.
  rewrite le_to_microseconds in Hle by assumption. apply Z.leb_le in Hle.
  destruct (to_microseconds_split _ Hv) as (tod & Htod & Hsplit).
  destruct (to_microseconds_split _ Hv') as (tod' & Htod' & Hsplit').
  assert (Hord : 90 < toordinal (clock w)) by (unfold DAY_US in *; nia).
  pose proof (toordinal_range _ Hv) as Hr. pose proof (toordinal_range _ Hv') as Hr'.
  destruct (sub_days (clock w) 90 Hv ltac:(lia)) as (c & Hsub & Hvc & Hus).
  destruct (sub_days (clock w') 90 Hv' ltac:(lia)) as (c' & Hsub' & Hvc' & Hus').
  revert Hdb. rewrite !cleanup_old_logins_run. unfold LOGIN_RETENTION_DAYS.
  rewrite Hsub, Hsub'. cbn [fst snd db]. intros Hdb.
  split; [reflexivity|]. split; [reflexivity|].
  rewrite Hdb. cbn [tokens logins logins_seq]. f_equal.
  apply filter_filter_weaker. intros r Hkeep.
  apply negb_true_iff in Hkeep. apply negb_true_iff.
  destruct (text_lt (timestamp r) (isoformat c')) eqn:Hlt; [|reflexivity].
  rewrite <- Hkeep. symmetry.
  apply (text_lt_le_trans _ c' c); try assumption.
  rewrite le_to_microseconds by assumption. apply Z.leb_le. lia.
Qed.

Lemma C8_second_prune_noop_unless_clock_advanced_witness :
  let w' := with_clock (mkDatetime 2026 4 1 0 0 0 0) (snd (cleanup_old_logins logged_world)) in
  Datetime.le (clock w') (clock logged_world) = true
  /\ db (snd (cleanup_old_logins w')) = db w'.
Proof.
  cbv zeta. split; [reflexivity|].
  refine (proj2 (proj2 (C8_second_prune_noop_unless_clock_advanced logged_world
            (with_clock (mkDatetime 2026 4 1 0 0 0 0) (snd (cleanup_old_logins logged_world)))
            _ _ _ _ _))); reflexivity.
Defined.

(** C8, as the specification words it, fails once the clock has moved on: a
    login stamped exactly 90 days before the first run survives it and is
    deleted by a second run one microsecond later. *)
Lemma C8_counterexample_clock_advanced :
  let row := mkLogin 1 "a0cdc18bd52cc8426836e7f2fe3b0f1c36afbce99791bee37803e932562d2fc0"
                     "1.2.3.4" (Some "curl/8.0") "2026-01-01T00:00:00" in
  let w := mkWorld (mkDatabase ∅ [row] 1) (mkDatetime 2026 4 1 0 0 0 0) []
                   (fun _ => None) [] in
  let w1 := snd (cleanup_old_logins w) in
  let w2 := snd (cleanup_old_logins (with_clock (mkDatetime 2026 4 1 0 0 0 1) w1)) in
  Datetime.le (clock w) (mkDatetime 2026 4 1 0 0 0 1) = true
  /\ logins (db w1) = [row]
  /\ logins (db w2) = []
  /\ db w2 <> db w1.
Proof.
  cbv zeta. split; [reflexivity|]. split; [vm_compute; reflexivity|].
  split; [vm_compute; reflexivity|].
  intros H. apply (f_equal logins) in H. vm_compute in H. discriminate H.
Qed.

(** C9. The row [log_login] appends: the hash is the SHA-256 of the token,
    the lower-case hex digest [Sha256.hexdigest] of its UTF-8 bytes
    [PyStr.encode], which is the value [verify_token] looks up for that
    token; the timestamp is the clock reading; the user agent is the first
    200 characters of the one given, all of it when it has no more than
    200. *)
Theorem C9_login_row_fields (token ip : string) (ua : option string) (w : world) :
  exists row,
    logins (db (snd (log_login token ip ua w))) = (logins (db w) ++ [row])%list
    /\ token_hash row = Sha256.hexdigest (PyStr.encode token)
    /\ timestamp row = isoformat (clock w)
    /\ ip_address row = ip
    /\ (exists stored rest,
          user_agent row = Some stored
          /\ stored = PyStr.take 200 (PyStr.or_empty ua)
          /\ (String.length stored <= 200)%nat
          /\ PyStr.or_empty ua = stored +:+ rest
          /\ ((String.length (PyStr.or_empty ua) <= 200)%nat -> stored = PyStr.or_empty ua))
    /\ (PyStr.truthy token = true -> PyStr.startswith "d2d_" token = true ->
        forall w', calls (snd (verify_token (Some token) w'))
                   = (calls w' ++ [Connect; SelectExpiresAt (token_hash row); Close])%list).
Proof.
  change (Sha256.hexdigest (PyStr.encode token)) with (hash_token token).
  rewrite log_login_run. cbv zeta. eexists. cbn [snd db logins].
  split; [reflexivity|]. cbn [token_hash timestamp ip_address user_agent].
  split; [reflexivity|]. split; [reflexivity|]. split; [reflexivity|]. split.
  - exists (PyStr.take 200 (PyStr.or_empty ua)), (PyStr.drop 200 (PyStr.or_empty ua)).
    split; [reflexivity|]. split; [reflexivity|]. split; [apply length_take|].
    split; [symmetry; apply take_drop|]. apply take_all.
  - intros Ht Hp w'. rewrite verify_token_run by assumption. cbv zeta.
    destruct (tokens (db w') !! hash_token token) as [r|]; [|reflexivity].
    destruct (fromisoformat (expires_at r)); reflexivity.
Qed.

Lemma C9_login_row_fields_witness :
  PyStr.truthy "d2d_abc123" = true
  /\ PyStr.startswith "d2d_" "d2d_abc123" = true
  /\ logins (db (snd (log_login "d2d_abc123" "1.2.3.4" (Some "curl/8.0") issued_world)))
     = [mkLogin 1 "a0cdc18bd52cc8426836e7f2fe3b0f1c36afbce99791bee37803e932562d2fc0"
                "1.2.3.4" (Some "curl/8.0") "2026-11-04T12:00:00"]
  /\ calls (snd (verify_token (Some "d2d_abc123") issued_world))
     = (calls issued_world
        ++ [Connect;
            SelectExpiresAt "a0cdc18bd52cc8426836e7f2fe3b0f1c36afbce99791bee37803e932562d2fc0";
            Close])%list.
Proof.
  split; [reflexivity|]. split; [reflexivity|].
  destruct (C9_login_row_fields "d2d_abc123" "1.2.3.4" (Some "curl/8.0") issued_world)
    as (row & _ & Hhash & _ & _ & _ & Hcalls).
  assert (Hdigest : Sha256.hexdigest (PyStr.encode "d2d_abc123")
                    = "a0cdc18bd52cc8426836e7f2fe3b0f1c36afbce99791bee37803e932562d2fc0")
    by (vm_compute; reflexivity).
  split.
  - vm_compute. reflexivity.
  - rewrite <- Hdigest, <- Hhash. apply Hcalls; reflexivity.
Defined.

(** C10. [log_login] checks nothing: for every token, issued or not,
    prefixed or not, it returns after one INSERT into [logins] and no other
    statement, the tables it finds in [tokens] play no part, and an absent
    user agent is stored as the empty text. *)
Theorem C10_login_is_unconditional (token ip : string) (ua : option string) (w : world) :
  let row := mkLogin (next_rowid (db w)) (Sha256.hexdigest (PyStr.encode token)) ip
                     (Some (PyStr.take 200 (PyStr.or_empty ua))) (isoformat (clock w)) in
  fst (log_login token ip ua w) = Return tt
  /\ logins (db (snd (log_login token ip ua w))) = (logins (db w) ++ [row])%list
  /\ tokens (db (snd (log_login token ip ua w))) = tokens (db w)
  /\ calls (snd (log_login token ip ua w))
     = (calls w ++ [Connect;
                    InsertLogin (Sha256.hexdigest (PyStr.encode token)) ip (user_agent row) (timestamp row);
                    Commit; Close])%list
  /\ (forall issued : gmap string token_row,
        logins (db (snd (log_login token ip ua
                           (with_db (mkDatabase issued (logins (db w)) (logins_seq (db w))) w))))
        = (logins (db w) ++ [row])%list)
  /\ (ua = None -> user_agent row = Some EmptyString).
Proof.
  change (Sha256.hexdigest (PyStr.encode token)) with (hash_token token).
  cbv zeta. rewrite !log_login_run. cbv zeta. cbn [fst snd db logins tokens calls].
  repeat split. intros ->. reflexivity.
Qed.

Lemma C10_login_is_unconditional_witness :
  user_agent (mkLogin (next_rowid (db fresh_world)) (hash_token "never-issued") "1.2.3.4"
                (Some (PyStr.take 200 (PyStr.or_empty None)))
                (isoformat (clock fresh_world)))
  = Some EmptyString
  /\ logins (db (snd (log_login "never-issued" "1.2.3.4" None fresh_world)))
     = [mkLogin 1 (hash_token "never-issued") "1.2.3.4" (Some EmptyString)
                "2026-11-04T12:00:00"].
Proof.
  pose proof (C10_login_is_unconditional "never-issued" "1.2.3.4" None fresh_world) as H.
  cbv zeta in H. destruct H as (_ & Hrow & _ & _ & _ & Hnone).
  split; [exact (Hnone eq_refl)|]. rewrite Hrow. reflexivity.
Defined.

(* ===================================================================== *)
(** * Further properties of the code                                     *)
(* ===================================================================== *)

(* ===================================================================== *)
(** * The request handler, route by route                                 *)
(* ===================================================================== *)

(** [do_GET] is the routing applied to the token of the request. *)
Lemma do_GET_route r w :
  do_GET r w =
  match request_token r with
  | None => (Raise IndexError, w)
  | Some token => route r token w
  end.
Proof.
  unfold do_GET, request_token, route.
  destruct w as [d now cs up sent].
  destruct (params r !! "token") as [[|v vs]|] eqn:Htok;
    run_GET; rewrite Htok; reflexivity.
Qed.

Lemma route_root r token w :
  path r = "/" ->
  route r token w =
  if PyStr.truthy_opt token then
    match verify_answer token (db w) (clock w) with
    | Return true =>
        (Return (send_html 200 (search_page (token_text token))),
         snd (log_login_opt token (get_client_ip r) (headers r !! "User-Agent")
                (with_calls (verify_calls token) w)))
    | Return false => (Return (send_html 200 landing_page), with_calls (verify_calls token) w)
    | Raise e => (Raise e, with_calls (verify_calls token) w)
    end
  else (Return (send_html 200 landing_page), w).
Proof.
  intros Hpath. unfold route. rewrite Hpath. cbn [String.eqb Ascii.eqb Bool.eqb].
  destruct w as [d now cs up sent].
  destruct (PyStr.truthy_opt token) eqn:Htruthy.
  - run_GET. rewrite verify_token_eq. run_GET.
    destruct (verify_answer token d now) as [[|]|]; try reflexivity.
    destruct token as [t|]; [|discriminate].
    rewrite log_login_eq. reflexivity.
  - reflexivity.
Qed.

Lemma route_search r token w :
  path r = "/search" ->
  route r token w =
  match params r !! "q" with
  | Some [] => (Raise IndexError, w)
  | found =>
      let query := match found with Some (q :: _) => q | _ => EmptyString end in
      match verify_answer token (db w) (clock w) with
      | Raise e => (Raise e, with_calls (verify_calls token) w)
      | Return false =>
          (Return (send_html 401 unauthorized_page), with_calls (verify_calls token) w)
      | Return true =>
          let w1 := snd (log_login_opt token (get_client_ip r) (headers r !! "User-Agent")
                           (with_calls (verify_calls token) w)) in
          if PyStr.truthy query then
            (Return (match upstream w query with
                     | Some res => send_html 200 (results_page (token_text token) query res)
                     | None => send_html 500 (plain "Search error")
                     end),
             mkWorld (db w1) (clock w1) (calls w1) (upstream w1)
                     (sent_upstream w1 ++ [query]))
          else (Return (send_html 200 (search_page (token_text token))), w1)
      end
  end.
Proof.
  intros Hpath. unfold route. rewrite Hpath.
  change (String.eqb "/search" "/") with false.
  change (String.eqb "/search" "/search") with true. cbv iota.
  destruct w as [d now cs up sent].
  destruct (params r !! "q") as [[|q qs]|] eqn:Hq; run_GET; rewrite Hq;
    try reflexivity;
    rewrite verify_token_eq; run_GET;
    (destruct (verify_answer token d now) as [[|]|] eqn:Hans; try reflexivity);
    (destruct token as [t|]; [|discriminate Hans]);
    rewrite log_login_eq; run_GET; cbn [PyStr.or_empty PyStr.truthy_opt].
  - destruct (PyStr.truthy q) eqn:Hq'; [|reflexivity].
    destruct (up q); reflexivity.
  - reflexivity.
Qed.


Lemma request_token_has_values r :
  has_values r "token" = true -> exists token, request_token r = Some token.
Proof.
  unfold has_values, request_token.
  destruct (params r !! "token") as [[|v vs]|]; [discriminate|eauto|eauto].
Qed.

Lemma verify_answer_fst token w : fst (verify_token token w) = verify_answer token (db w) (clock w).
Proof. rewrite verify_token_eq. reflexivity. Qed.

Lemma verify_answer_true_truthy token d now :
  verify_answer token d now = Return true -> exists t, token = Some t /\ PyStr.truthy t = true.
Proof.
  destruct token as [t|]; [|discriminate]. intros H. exists t. split; [reflexivity|].
  unfold verify_answer in H. destruct (PyStr.truthy t); [reflexivity|discriminate].
Qed.

(** X1. Paths other than [/] and [/search].  For a request whose [token]
    parameter, if any, has a value, [do_GET] answers [/health] with status
    200 and the JSON object [{status: ok}], and any other path that is
    neither [/] nor [/search] with status 404 and the text [Not found]; in
    both cases whatever the token, and with no call to [sqlite3], no query
    to the search backend and no change to the tables: the world is left as
    it was. *)
Theorem X1_do_GET_other_paths (r : request) (w : world) :
  path r <> "/" -> path r <> "/search" -> has_values r "token" = true ->
  do_GET r w
  = (Return (if String.eqb (path r) "/health"
             then send_json 200 [("status", "ok")]
             else send_html 404 (plain "Not found")),
     w).
Proof.
  intros Hroot Hsearch Hvalues.
  destruct (request_token_has_values r Hvalues) as [token Htoken].
  rewrite do_GET_route, Htoken. unfold route.
  apply String.eqb_neq in Hroot, Hsearch. rewrite Hroot, Hsearch.
  destruct (String.eqb (path r) "/health"); reflexivity.
Qed.

Lemma X1_do_GET_other_paths_witness :
  do_GET health_request issued_world
  = (Return (send_json 200 [("status", "ok")]), issued_world).
Proof.
  apply (X1_do_GET_other_paths health_request issued_world);
    [discriminate | discriminate | reflexivity].
Defined.

(** X2. [/search] without a token that verifies.  When [verify_token]
    answers false for the token of the request (no token at all included),
    [do_GET] answers 401 with the unauthorized page, writes no login, sends
    nothing to the search backend, and touches the database only through
    the lookup [verify_token] made; with no token it touches nothing. *)
Theorem X2_do_GET_search_unauthorized (r : request) (token : option string) (w : world) :
  path r = "/search" -> request_token r = Some token -> has_values r "q" = true ->
  fst (verify_token token w) = Return false ->
  do_GET r w = (Return (send_html 401 unauthorized_page), snd (verify_token token w))
  /\ db (snd (do_GET r w)) = db w
  /\ sent_upstream (snd (do_GET r w)) = sent_upstream w
  /\ (token = None -> snd (do_GET r w) = w).
Proof.
  intros Hpath Htoken Hq Hverify.
  rewrite do_GET_route, Htoken, (route_search r token w Hpath).
  rewrite verify_token_eq in *. cbn [fst snd] in *.
  unfold has_values in Hq. cbv zeta. rewrite Hverify.
  destruct (params r !! "q") as [[|q qs]|]; [discriminate| |];
    cbn [snd db sent_upstream with_calls]; repeat split;
    intros ->; cbn [verify_calls]; apply with_calls_nil.
Qed.

Lemma X2_do_GET_search_unauthorized_witness :
  do_GET anonymous_request issued_world
  = (Return (send_html 401 unauthorized_page), issued_world).
Proof.
  assert (Htoken : request_token anonymous_request = Some None)
    by (vm_compute; reflexivity).
  assert (Hq : has_values anonymous_request "q" = true) by (vm_compute; reflexivity).
  destruct (X2_do_GET_search_unauthorized anonymous_request None issued_world
              eq_refl Htoken Hq eq_refl) as (Hrun & _ & _ & Hworld).
  rewrite <- (Hworld eq_refl) at 2. rewrite Hrun. reflexivity.
Defined.


Lemma log_login_opt_some t ip ua w :
  snd (log_login_opt (Some t) ip ua w)
  = with_calls [Connect;
                InsertLogin (hash_token t) ip
                  (Some (PyStr.take 200 (PyStr.or_empty ua))) (isoformat (clock w));
                Commit; Close]
      (with_db (login_db t ip ua (db w) (clock w)) w).
Proof. cbn [log_login_opt]. rewrite log_login_eq. reflexivity. Qed.

(** X3. [/search] with a token that verifies and a non-empty query.
    [do_GET] appends exactly one row to [logins] (the hash of the token, the
    address [get_client_ip] reports, the first 200 characters of the
    [User-Agent] header, the clock reading), leaves [tokens] alone, sends
    the query once to the search backend, makes the calls of one
    verification followed by one login, and returns a response; the login
    is written even when the backend fails, and the status is then 500. *)
Theorem X3_do_GET_search_authorized (r : request) (t query : string) (qs : list string)
    (w : world) :
  path r = "/search" -> request_token r = Some (Some t) ->
  params r !! "q" = Some (query :: qs) -> PyStr.truthy query = true ->
  fst (verify_token (Some t) w) = Return true ->
  let w' := snd (do_GET r w) in
  logins (db w')
  = (logins (db w)
     ++ [mkLogin (next_rowid (db w)) (Sha256.hexdigest (PyStr.encode t)) (get_client_ip r)
                 (Some (PyStr.take 200 (PyStr.or_empty (headers r !! "User-Agent"))))
                 (isoformat (clock w))])%list
  /\ tokens (db w') = tokens (db w)
  /\ sent_upstream w' = (sent_upstream w ++ [query])%list
  /\ calls w'
     = (calls w
        ++ [Connect; SelectExpiresAt (Sha256.hexdigest (PyStr.encode t)); Close;
            Connect;
            InsertLogin (Sha256.hexdigest (PyStr.encode t)) (get_client_ip r)
              (Some (PyStr.take 200 (PyStr.or_empty (headers r !! "User-Agent"))))
              (isoformat (clock w));
            Commit; Close])%list
  /\ (exists resp, fst (do_GET r w) = Return resp
                   /\ (upstream w query = None -> status resp = 500)).
Proof.
  change (Sha256.hexdigest (PyStr.encode t)) with (hash_token t).
  intros Hpath Htoken Hq Hquery Hverify. cbv zeta.
  rewrite do_GET_route, Htoken, (route_search r _ w Hpath), Hq.
  rewrite verify_answer_fst in Hverify. cbv zeta. rewrite Hverify, Hquery.
  rewrite log_login_opt_some.
  assert (Hcalls : verify_calls (Some t) = [Connect; SelectExpiresAt (hash_token t); Close]).
  { unfold verify_answer in Hverify. unfold verify_calls.
    destruct (negb (PyStr.truthy t) || negb (PyStr.startswith "d2d_" t));
      [discriminate|reflexivity]. }
  rewrite Hcalls. destruct w as [d now cs up sent].
  cbn [fst snd db clock calls upstream sent_upstream with_calls with_db login_db
       login_row_of logins tokens].
  split; [reflexivity|]. split; [reflexivity|]. split; [reflexivity|].
  split; [rewrite <- app_assoc; reflexivity|].
  eexists. split; [reflexivity|]. intros ->. reflexivity.
Qed.

Lemma X3_do_GET_search_authorized_witness :
  let w' := snd (do_GET forwarded_request issued_world) in
  sent_upstream w' = ["cats"]
  /\ logins (db w')
     = [mkLogin 1 "a0cdc18bd52cc8426836e7f2fe3b0f1c36afbce99791bee37803e932562d2fc0"
                "203.0.113.7" (Some "curl/8.0") "2026-11-04T12:00:00"].
Proof.
  assert (Htoken : request_token forwarded_request = Some (Some "d2d_abc123"))
    by (vm_compute; reflexivity).
  assert (Hq : params forwarded_request !! "q" = Some ["cats"])
    by (vm_compute; reflexivity).
  assert (Hverify : fst (verify_token (Some "d2d_abc123") issued_world) = Return true)
    by (vm_compute; reflexivity).
  destruct (X3_do_GET_search_authorized forwarded_request "d2d_abc123" "cats" []
              issued_world eq_refl Htoken Hq eq_refl Hverify) as (Hlogins & _ & Hsent & _).
  cbv zeta. rewrite Hsent, Hlogins. split; vm_compute; reflexivity.
Defined.

(** X4. Nothing goes to the search backend without a verified token.  For
    every request and world, either [do_GET] sends nothing to the backend,
    or the path is [/search], the token of the request verifies, the query
    is not empty, that query alone is sent, and one login row is written. *)
Theorem X4_do_GET_forwards_only_verified (r : request) (w : world) :
  sent_upstream (snd (do_GET r w)) = sent_upstream w
  \/ exists t query qs,
       path r = "/search"
       /\ request_token r = Some (Some t)
       /\ fst (verify_token (Some t) w) = Return true
       /\ params r !! "q" = Some (query :: qs)
       /\ PyStr.truthy query = true
       /\ sent_upstream (snd (do_GET r w)) = (sent_upstream w ++ [query])%list
       /\ List.length (logins (db (snd (do_GET r w)))) = S (List.length (logins (db w))).
Proof.
  rewrite do_GET_route.
  destruct (request_token r) as [token|] eqn:Htoken; [|left; reflexivity].
  destruct (String.eqb (path r) "/search") eqn:Hsearch.
  - apply String.eqb_eq in Hsearch. rewrite (route_search r token w Hsearch).
    destruct (params r !! "q") as [[|q qs]|] eqn:Hq; [left; reflexivity| |]; cbv zeta.
    + destruct (verify_answer token (db w) (clock w)) as [[|]|] eqn:Hans;
        [|left; reflexivity|left; reflexivity].
      destruct (verify_answer_true_truthy _ _ _ Hans) as (t & -> & Ht).
      rewrite log_login_opt_some.
      destruct (PyStr.truthy q) eqn:Hquery; [|left; reflexivity].
      right. exists t, q, qs. rewrite verify_answer_fst.
      repeat split; try assumption.
      cbn [snd db with_calls with_db login_db logins]. rewrite length_app.
      cbn [List.length]. lia.
    + destruct (verify_answer token (db w) (clock w)) as [[|]|] eqn:Hans;
        [|left; reflexivity|left; reflexivity].
      destruct (verify_answer_true_truthy _ _ _ Hans) as (t & -> & Ht).
      rewrite log_login_opt_some. left. reflexivity.
  - left. unfold route. rewrite Hsearch.
    destruct (String.eqb (path r) "/") eqn:Hroot.
    + apply String.eqb_eq in Hroot. 
      pose proof (route_root r token w Hroot) as Hr. unfold route in Hr.
      rewrite Hsearch in Hr. rewrite Hroot in *. cbn [String.eqb Ascii.eqb Bool.eqb] in Hr.
      cbn [String.eqb Ascii.eqb Bool.eqb]. rewrite Hr.
      destruct (PyStr.truthy_opt token); [|reflexivity].
      destruct (verify_answer token (db w) (clock w)) as [[|]|] eqn:Hans; try reflexivity.
      destruct (verify_answer_true_truthy _ _ _ Hans) as (t & -> & Ht).
      rewrite log_login_opt_some. reflexivity.
    + destruct (String.eqb (path r) "/health"); reflexivity.
Qed.


(** X5. The home page [/].  Without a token [do_GET] answers the landing
    page and leaves the world as it was; with a token that does not verify
    it answers the landing page and leaves the tables as they were; with a
    token that verifies it answers the search page of that token, appends
    one login row and sends nothing to the search backend. *)
Theorem X5_do_GET_home (r : request) (token : option string) (w : world) :
  path r = "/" -> request_token r = Some token ->
  (PyStr.truthy_opt token = false ->
   do_GET r w = (Return (send_html 200 landing_page), w))
  /\ (fst (verify_token token w) = Return false ->
      fst (do_GET r w) = Return (send_html 200 landing_page)
      /\ db (snd (do_GET r w)) = db w)
  /\ (forall t, token = Some t -> fst (verify_token token w) = Return true ->
      fst (do_GET r w) = Return (send_html 200 (search_page t))
      /\ logins (db (snd (do_GET r w)))
         = (logins (db w)
            ++ [mkLogin (next_rowid (db w)) (Sha256.hexdigest (PyStr.encode t)) (get_client_ip r)
                        (Some (PyStr.take 200 (PyStr.or_empty (headers r !! "User-Agent"))))
                        (isoformat (clock w))])%list
      /\ sent_upstream (snd (do_GET r w)) = sent_upstream w).
Proof.
  intros Hpath Htoken. rewrite do_GET_route, Htoken, (route_root r token w Hpath).
  rewrite verify_answer_fst. split; [|split].
  - intros ->. reflexivity.
  - intros ->. destruct (PyStr.truthy_opt token); split; reflexivity.
  - intros t -> Hans. rewrite Hans.
    destruct (verify_answer_true_truthy _ _ _ Hans) as (t' & [= <-] & Ht).
    cbn [PyStr.truthy_opt]. rewrite Ht, log_login_opt_some.
    repeat split.
Qed.

Lemma X5_do_GET_home_witness :
  fst (do_GET bearer_request issued_world) = Return (send_html 200 (search_page "d2d_abc123"))
  /\ do_GET (mkRequest "/" ∅ ∅ "10.0.0.1") issued_world
     = (Return (send_html 200 landing_page), issued_world).
Proof.
  split.
  - assert (Hverify : fst (verify_token (Some "d2d_abc123") issued_world) = Return true)
      by (vm_compute; reflexivity).
    apply (proj2 (proj2 (X5_do_GET_home bearer_request (Some "d2d_abc123") issued_world
                           eq_refl eq_refl)) "d2d_abc123" eq_refl Hverify).
  - assert (Htoken : request_token (mkRequest "/" ∅ ∅ "10.0.0.1") = Some None)
      by (vm_compute; reflexivity).
    apply (proj1 (X5_do_GET_home (mkRequest "/" ∅ ∅ "10.0.0.1") None issued_world
                    eq_refl Htoken)).
    reflexivity.
Defined.

Lemma route_authorization auth r token w :
  route (with_authorization auth r) token w = route r token w.
Proof.
  assert (Hh : forall k, k <> "Authorization" ->
                         headers (with_authorization auth r) !! k = headers r !! k).
  { intros k Hk. unfold with_authorization. cbn [headers].
    destruct auth; [apply lookup_insert_ne | apply lookup_delete_ne]; congruence. }
  unfold route, get_client_ip, first_param.
  rewrite !Hh by discriminate. reflexivity.
Qed.

(** X6. A token in the query string wins.  When the [token] parameter has
    a non-empty first value, [do_GET] does the same, whatever the
    [Authorization] header says and whether there is one. *)
Theorem X6_do_GET_token_parameter_first (r : request) (v : string) (vs : list string)
    (auth : option string) (w : world) :
  params r !! "token" = Some (v :: vs) -> PyStr.truthy v = true ->
  do_GET (with_authorization auth r) w = do_GET r w.
Proof.
  intros Hparam Hv. rewrite !do_GET_route.
  assert (Ht : forall r', params r' !! "token" = Some (v :: vs) ->
                          request_token r' = Some (Some v)).
  { intros r' H. unfold request_token. rewrite H. cbn [PyStr.truthy_opt]. rewrite Hv.
    reflexivity. }
  rewrite (Ht r Hparam), (Ht (with_authorization auth r) Hparam).
  apply route_authorization.
Qed.

Lemma X6_do_GET_token_parameter_first_witness :
  do_GET (with_authorization (Some "Bearer d2d_other") (search_request "cats")) issued_world
  = do_GET (search_request "cats") issued_world.
Proof.
  apply (X6_do_GET_token_parameter_first (search_request "cats") "d2d_abc123" []);
    vm_compute; reflexivity.
Defined.

Lemma route_token_param t r token w :
  route (with_token_param t r) token w = route r token w.
Proof.
  unfold route, get_client_ip, first_param, with_token_param. cbn [path params headers client_address].
  rewrite lookup_insert_ne by discriminate. reflexivity.
Qed.

(** X7. Without a [token] parameter, the header [Authorization: Bearer t]
    with a non-empty [t] makes [t] the token of the request: [do_GET] does
    what it does for the same request with [?token=t]. *)
Theorem X7_do_GET_bearer_is_token_parameter (r : request) (t : string) (w : world) :
  params r !! "token" = None ->
  headers r !! "Authorization" = Some ("Bearer " +:+ t) ->
  PyStr.truthy t = true ->
  do_GET r w = do_GET (with_token_param t r) w
  /\ request_token r = Some (Some t).
Proof.
  intros Hparam Hauth Ht. rewrite !do_GET_route.
  assert (H1 : request_token r = Some (Some t)).
  { unfold request_token. rewrite Hparam, Hauth. reflexivity. }
  assert (H2 : request_token (with_token_param t r) = Some (Some t)).
  { unfold request_token, with_token_param. cbn [params headers].
    rewrite lookup_insert_eq. cbn [PyStr.truthy_opt]. rewrite Ht. reflexivity. }
  rewrite H1, H2, route_token_param. split; reflexivity.
Qed.

Lemma X7_do_GET_bearer_is_token_parameter_witness :
  do_GET bearer_request issued_world
  = do_GET (with_token_param "d2d_abc123" bearer_request) issued_world.
Proof.
  apply (X7_do_GET_bearer_is_token_parameter bearer_request "d2d_abc123" issued_world);
    reflexivity.
Defined.


(* ===================================================================== *)
(** * The client address                                                  *)
(* ===================================================================== *)

Lemma split_first_no_comma s : all_chars not_comma (PyStr.split_first "," s) = true.
Proof.
  induction s as [|c s IH]; [reflexivity|]. cbn [PyStr.split_first].
  destruct (Ascii.eqb c ",") eqn:Hc; [reflexivity|].
  cbn [all_chars]. unfold not_comma at 1. rewrite Hc, IH. reflexivity.
Qed.

Lemma split_first_all s : all_chars not_comma s = true -> PyStr.split_first "," s = s.
Proof.
  induction s as [|c s IH]; [reflexivity|]. cbn [all_chars PyStr.split_first].
  unfold not_comma at 1. intros H. apply andb_true_iff in H. destruct H as [Hc Hs].
  apply negb_true_iff in Hc. rewrite Hc, (IH Hs). reflexivity.
Qed.

Lemma split_first_field a rest :
  all_chars not_comma a = true -> PyStr.split_first "," (a +:+ String "," rest) = a.
Proof.
  induction a as [|c a IH]; [reflexivity|]. cbn [all_chars].
  unfold not_comma at 1. intros H. apply andb_true_iff in H. destruct H as [Hc Hs].
  apply negb_true_iff in Hc. rewrite append_cons. cbn [PyStr.split_first].
  rewrite Hc, (IH Hs). reflexivity.
Qed.

Lemma all_chars_rstrip p s : all_chars p s = true -> all_chars p (PyStr.rstrip s) = true.
Proof.
  induction s as [|c s IH]; [reflexivity|]. cbn [all_chars PyStr.rstrip].
  intros H. apply andb_true_iff in H. destruct H as [Hc Hs]. specialize (IH Hs).
  destruct (PyStr.rstrip s) as [|c' s'].
  - destruct (PyStr.isspace c); [reflexivity|]. cbn [all_chars]. rewrite Hc. reflexivity.
  - cbn [all_chars] in *. rewrite Hc, IH. reflexivity.
Qed.

Lemma all_chars_lstrip p s : all_chars p s = true -> all_chars p (PyStr.lstrip s) = true.
Proof.
  induction s as [|c s IH]; [reflexivity|]. cbn [all_chars PyStr.lstrip].
  intros H. destruct (PyStr.isspace c); [|exact H].
  apply andb_true_iff in H. apply IH, H.
Qed.

Lemma lstrip_first s a :
  first_char (PyStr.lstrip s) = Some a -> PyStr.isspace a = false.
Proof.
  induction s as [|c s IH]; [discriminate|]. cbn [PyStr.lstrip].
  destruct (PyStr.isspace c) eqn:Hc; [exact IH|]. intros [= <-]. exact Hc.
Qed.

Lemma rstrip_first s a :
  first_char (PyStr.rstrip s) = Some a -> first_char s = Some a.
Proof.
  destruct s as [|c s]; [discriminate|]. cbn [PyStr.rstrip].
  destruct (PyStr.rstrip s); [destruct (PyStr.isspace c); [discriminate|]|];
    intros H; exact H.
Qed.

Lemma rstrip_last s b :
  last_char (PyStr.rstrip s) = Some b -> PyStr.isspace b = false.
Proof.
  induction s as [|c s IH]; [discriminate|]. cbn [PyStr.rstrip].
  destruct (PyStr.rstrip s) as [|c' s'] eqn:Hr.
  - destruct (PyStr.isspace c) eqn:Hc; [discriminate|]. intros [= <-]. exact Hc.
  - exact IH.
Qed.

Lemma trimmed_strip s : trimmed (PyStr.strip s) = true.
Proof.
  unfold trimmed, PyStr.strip.
  destruct (first_char (PyStr.rstrip (PyStr.lstrip s))) as [a|] eqn:Ha; [|reflexivity].
  destruct (last_char (PyStr.rstrip (PyStr.lstrip s))) as [b|] eqn:Hb; [|reflexivity].
  rewrite (lstrip_first s a (rstrip_first _ _ Ha)), (rstrip_last _ _ Hb). reflexivity.
Qed.

Lemma rstrip_trimmed s :
  match last_char s with Some b => PyStr.isspace b = false | None => True end ->
  PyStr.rstrip s = s.
Proof.
  induction s as [|c s IH]; [reflexivity|]. cbn [PyStr.rstrip last_char].
  destruct s as [|c' s'].
  - intros ->. reflexivity.
  - intros H. rewrite (IH H). reflexivity.
Qed.

Lemma last_char_none s : last_char s = None -> s = EmptyString.
Proof.
  induction s as [|c s IH]; [reflexivity|]. cbn [last_char].
  destruct s as [|c' s']; [discriminate|]. intros H. discriminate (IH H).
Qed.

Lemma strip_trimmed s : trimmed s = true -> PyStr.strip s = s.
Proof.
  unfold trimmed, PyStr.strip. destruct s as [|c s]; [reflexivity|].
  cbn [first_char]. destruct (last_char (String c s)) as [b|] eqn:Hb.
  - intros H. apply andb_true_iff in H. destruct H as [Hc Hb'].
    apply negb_true_iff in Hc, Hb'. cbn [PyStr.lstrip]. rewrite Hc.
    apply rstrip_trimmed. rewrite Hb. exact Hb'.
  - discriminate (last_char_none _ Hb).
Qed.

Lemma strip_blank s : all_chars PyStr.isspace s = true -> PyStr.strip s = EmptyString.
Proof.
  unfold PyStr.strip. induction s as [|c s IH]; [reflexivity|]. cbn [all_chars PyStr.lstrip].
  intros H. apply andb_true_iff in H. destruct H as [-> Hs]. exact (IH Hs).
Qed.

(** X8. The address [get_client_ip] reports.  With no [X-Forwarded-For]
    header, or an empty one, it is the peer address.  With a non-empty
    header it is the text before the first comma, stripped of white space,
    whatever the peer address: it holds no comma and no white space at
    either end; a header without comma and without surrounding white space
    is reported as it is; and a blank first field gives the empty string,
    not the peer address. *)
Theorem X8_get_client_ip_spec (r : request) :
  (headers r !! "X-Forwarded-For" = None \/ headers r !! "X-Forwarded-For" = Some EmptyString ->
   get_client_ip r = client_address r)
  /\ (forall s, headers r !! "X-Forwarded-For" = Some s -> s <> EmptyString ->
        all_chars not_comma (get_client_ip r) = true
        /\ trimmed (get_client_ip r) = true
        /\ (forall a rest, s = a +:+ String "," rest -> all_chars not_comma a = true ->
              get_client_ip r = PyStr.strip a)
        /\ (all_chars not_comma s = true -> get_client_ip r = PyStr.strip s)
        /\ (all_chars not_comma s = true -> trimmed s = true -> get_client_ip r = s)
        /\ (all_chars PyStr.isspace (PyStr.split_first "," s) = true ->
              get_client_ip r = EmptyString)).
Proof.
  unfold get_client_ip. split.
  - intros [-> | ->]; reflexivity.
  - intros s -> Hs. destruct s as [|c s]; [contradiction|]. cbn [PyStr.truthy].
    split; [|split; [|split; [|split; [|split]]]].
    + unfold PyStr.strip. apply all_chars_rstrip, all_chars_lstrip, split_first_no_comma.
    + apply trimmed_strip.
    + intros a rest Heq Ha. rewrite Heq, split_first_field by exact Ha. reflexivity.
    + intros Ha. rewrite split_first_all by exact Ha. reflexivity.
    + intros Ha Ht. rewrite split_first_all by exact Ha. apply strip_trimmed, Ht.
    + apply strip_blank.
Qed.

Lemma X8_get_client_ip_spec_witness :
  get_client_ip forwarded_request = PyStr.strip " 203.0.113.7 "
  /\ get_client_ip (search_request "cats") = "10.0.0.1".
Proof.
  split.
  - assert (Hh : headers forwarded_request !! "X-Forwarded-For"
                 = Some " 203.0.113.7 , 10.0.0.2") by (vm_compute; reflexivity).
    assert (Hne : " 203.0.113.7 , 10.0.0.2" <> EmptyString) by discriminate.
    apply (proj1 (proj2 (proj2 (proj2 (X8_get_client_ip_spec forwarded_request)
                                  " 203.0.113.7 , 10.0.0.2" Hh Hne)))
             " 203.0.113.7 " " 10.0.0.2" eq_refl eq_refl).
  - apply (proj1 (X8_get_client_ip_spec (search_request "cats"))).
    left. vm_compute. reflexivity.
Defined.


(* ===================================================================== *)
(** * Hashes, failures and what they leave behind                         *)
(* ===================================================================== *)

Lemma length_hex n x : String.length (Sha256.hex n x) = n.
Proof.
  revert x. induction n as [|n IH]; intros x; [reflexivity|].
  cbn [Sha256.hex]. rewrite length_append, IH. cbn [String.length]. lia.
Qed.

Lemma length_compress h block :
  List.length h = 8%nat -> List.length (Sha256.compress h block) = 8%nat.
Proof.
  intros Hh. unfold Sha256.compress.
  rewrite length_map, length_combine, Hh. reflexivity.
Qed.

Lemma length_digest_words msg : List.length (Sha256.digest_words msg) = 8%nat.
Proof.
  unfold Sha256.digest_words.
  generalize (Sha256.words_of_bytes (Sha256.pad (map PyStr.Z_of_byte msg))). intros ws.
  generalize (Sha256.blocks (List.length ws) ws). intros bs.
  assert (H : List.length Sha256.initial_state = 8%nat) by reflexivity.
  revert H. generalize Sha256.initial_state.
  induction bs as [|b bs IH]; intros h Hh; [exact Hh|].
  cbn [fold_left]. apply IH, length_compress, Hh.
Qed.

Lemma length_hexdigest msg : String.length (Sha256.hexdigest msg) = 64%nat.
Proof.
  unfold Sha256.hexdigest.
  assert (H : forall ws, String.length
                (fold_right (fun w acc => Sha256.hex 8 w +:+ acc) EmptyString ws)
              = (8 * List.length ws)%nat).
  { induction ws as [|w ws IH]; [reflexivity|].
    cbn [fold_right List.length]. rewrite length_append, length_hex, IH. lia. }
  rewrite H, length_digest_words. reflexivity.
Qed.

(** X9. The shape of a hash.  For every token, [hash_token] is a text of
    exactly 64 characters, each of them one of [0-9a-f]. *)
Theorem X9_hash_token_shape (token : string) :
  String.length (hash_token token) = 64%nat
  /\ all_chars is_hex_char (hash_token token) = true.
Proof.
  split; [apply length_hexdigest | apply hexdigest_all_hex].
Qed.

Lemma startswith_prefix p s : PyStr.startswith p s = true -> exists rest, s = p +:+ rest.
Proof.
  revert s. induction p as [|a p IH]; intros s H; [exists s; reflexivity|].
  destruct s as [|b s]; [discriminate|]. cbn [PyStr.startswith] in H.
  destruct (Ascii.eqb a b) eqn:Hab; [|discriminate]. apply Ascii.eqb_eq in Hab. subst b.
  destruct (IH s H) as [rest ->]. exists rest. rewrite append_cons. reflexivity.
Qed.

(** X10. A stored hash is not a token.  No hash starts with [d2d_], so
    [verify_token] applied to a hash, as [tokens] holds it, answers false
    without looking anything up, whatever the tables hold. *)
Theorem X10_stored_hash_is_not_a_token (token : string) (w : world) :
  PyStr.startswith "d2d_" (hash_token token) = false
  /\ verify_token (Some (hash_token token)) w = (Return false, w).
Proof.
  assert (H : PyStr.startswith "d2d_" (hash_token token) = false).
  { destruct (PyStr.startswith "d2d_" (hash_token token)) eqn:H; [|reflexivity].
    destruct (startswith_prefix _ _ H) as [rest Hrest].
    destruct (hash_token_not_prefixed _ _ Hrest). }
  split; [exact H|].
  apply verify_token_malformed. right. exists (hash_token token). split; [reflexivity|exact H].
Qed.

(** X11. When [generate_token] fails.  At a valid clock reading it raises
    [OverflowError], before any INSERT, exactly when 28 days later is past
    9999-12-31, and otherwise [IntegrityError] exactly when the hash of the
    new token is already a key of [tokens]; the INSERT is then neither
    committed nor the connection closed.  Whenever it raises, the tables are
    as they were: the row that was there keeps its timestamps. *)
Theorem X11_generate_token_failures (random_bytes : string) (w : world) :
  valid (clock w) = true ->
  let h := Sha256.hexdigest (PyStr.encode ("d2d_" +:+ random_bytes)) in
  (MAXORDINAL < toordinal (clock w) + 28 ->
   generate_token random_bytes w = (Raise OverflowError, with_calls [Connect] w))
  /\ (toordinal (clock w) + 28 <= MAXORDINAL -> is_Some (tokens (db w) !! h) ->
      exists expires,
        add (clock w) (timedelta_of 28 0 0) = Some expires
        /\ generate_token random_bytes w
           = (Raise IntegrityError,
              with_calls [Connect; InsertToken h (isoformat (clock w)) (isoformat expires)] w))
  /\ (forall e, fst (generate_token random_bytes w) = Raise e ->
        db (snd (generate_token random_bytes w)) = db w
        /\ (e = OverflowError /\ MAXORDINAL < toordinal (clock w) + 28
            \/ e = IntegrityError /\ is_Some (tokens (db w) !! h))).
Proof.
  change (Sha256.hexdigest (PyStr.encode ("d2d_" +:+ random_bytes))) with (hash_token ("d2d_" +:+ random_bytes)).
  intros Hv. cbv zeta. pose proof (toordinal_range _ Hv) as Hr.
  rewrite generate_token_run. cbv zeta. split; [|split].
  - intros Hlate. rewrite add_days_overflow by (assumption || lia). reflexivity.
  - intros Hin [row Hrow].
    destruct (add_days (clock w) 28 Hv ltac:(lia)) as (expires & Hadd & _).
    exists expires. rewrite Hadd, Hrow. split; reflexivity.
  - intros e.
    destruct (Z_lt_le_dec MAXORDINAL (toordinal (clock w) + 28)) as [Hlate|Hin].
    + rewrite add_days_overflow by (assumption || lia). cbn [fst snd].
      intros [= <-]. split; [reflexivity|]. left. split; [reflexivity|assumption].
    + destruct (add_days (clock w) 28 Hv ltac:(lia)) as (expires & -> & _).
      destruct (tokens (db w) !! hash_token ("d2d_" +:+ random_bytes)) as [row|] eqn:Hrow;
        cbn [fst snd]; [|discriminate].
      intros [= <-]. split; [reflexivity|]. right. split; [reflexivity|eauto].
Qed.

Lemma X11_generate_token_failures_witness :
  generate_token "abc123" late_world = (Raise OverflowError, with_calls [Connect] late_world)
  /\ fst (generate_token "abc123" issued_world) = Raise IntegrityError
  /\ db (snd (generate_token "abc123" issued_world)) = db issued_world.
Proof.
  split; [|split].
  - apply (proj1 (X11_generate_token_failures "abc123" late_world eq_refl)). reflexivity.
  - destruct (proj1 (proj2 (X11_generate_token_failures "abc123" issued_world eq_refl)))
      as (expires & _ & ->); [vm_compute; discriminate | | reflexivity].
    vm_compute. eauto.
  - assert (H : fst (generate_token "abc123" issued_world) = Raise IntegrityError)
      by (vm_compute; reflexivity).
    apply (proj2 (proj2 (X11_generate_token_failures "abc123" issued_world eq_refl))
             IntegrityError H).
Defined.


Lemma fromisoformat_valid s t : fromisoformat s = Some t -> valid t = true.
Proof.
  unfold fromisoformat. intros H.
  repeat match type of H with
  | context [mbind _ ?m] => destruct m as [[? ?]|] eqn:?; cbn [mbind option_bind] in H;
                             [|discriminate H]
  | context [mbind _ ?m] => destruct m eqn:?; cbn [mbind option_bind] in H;
                             [|discriminate H]
  end.
  destruct (valid _) eqn:Hv; [|discriminate H]. injection H as <-. exact Hv.
Qed.

(** Every way through [do_GET]: the token, the route, the verification, the
    query and the answer of the search backend. *)
Ltac GET_cases r w :=
  rewrite ?(do_GET_route r w);
  let token := fresh "token" in
  let Htoken := fresh "Htoken" in
  let Hroot := fresh "Hroot" in
  let Hsearch := fresh "Hsearch" in
  let Hhealth := fresh "Hhealth" in
  let Htruthy := fresh "Htruthy" in
  let Hans := fresh "Hans" in
  let Hq := fresh "Hq" in
  let Hquery := fresh "Hquery" in
  let Hup := fresh "Hup" in
  let split_answer :=
    (destruct (verify_answer token (db w) (clock w)) as [[|]|?] eqn:Hans;
     [ let t := fresh "t" in
       let Ht := fresh "Ht" in
       destruct (verify_answer_true_truthy _ _ _ Hans) as (t & -> & Ht);
       rewrite ?log_login_opt_some
     | | ]) in
  destruct (request_token r) as [token|] eqn:Htoken;
  [ destruct (String.eqb (path r) "/") eqn:Hroot;
    [ apply String.eqb_eq in Hroot; rewrite ?(route_root r token w Hroot);
      destruct (PyStr.truthy_opt token) eqn:Htruthy; [split_answer|]
    | destruct (String.eqb (path r) "/search") eqn:Hsearch;
      [ apply String.eqb_eq in Hsearch; rewrite ?(route_search r token w Hsearch);
        destruct (params r !! "q") as [[|? ?]|] eqn:Hq; cbv zeta;
        [ | split_answer | split_answer ]
      | unfold route; rewrite ?Hroot, ?Hsearch;
        destruct (String.eqb (path r) "/health") eqn:Hhealth ] ]
  | ].

(** [do_GET] leaves the clock and the search backend alone, and only adds
    to the calls made and the queries sent. *)
Lemma do_GET_frame r w :
  clock (snd (do_GET r w)) = clock w
  /\ upstream (snd (do_GET r w)) = upstream w
  /\ (exists cs, calls (snd (do_GET r w)) = (calls w ++ cs)%list)
  /\ (exists qs, sent_upstream (snd (do_GET r w)) = (sent_upstream w ++ qs)%list).
Proof.
  destruct w as [d now cs up sent].
  GET_cases r (mkWorld d now cs up sent);
    try match goal with |- context [PyStr.truthy ?q] => destruct (PyStr.truthy q) end;
    cbn [snd db clock calls upstream sent_upstream with_calls with_db];
    (split; [reflexivity|]); (split; [reflexivity|]);
    (split; [first [ eexists; reflexivity
                   | exists []; rewrite app_nil_r; reflexivity
                   | rewrite <- app_assoc; eexists; reflexivity ] |]);
    first [ eexists; reflexivity | exists []; rewrite app_nil_r; reflexivity ].
Qed.


Lemma sub_days_overflow t n :
  valid t = true -> ~ (1 <= toordinal t - n <= MAXORDINAL) ->
  sub t (timedelta_of n 0 0) = None.
Proof.
  intros Hv Hr. unfold sub. apply add_overflow; [assumption|].
  destruct (to_microseconds_split t Hv) as (tod & Htod & Hsplit).
  rewrite delta_neg_microseconds, timedelta_of_microseconds, Hsplit.
  unfold DAY_US, MAXORDINAL in *. lia.
Qed.

(** X12. When [cleanup_old_logins] fails on the clock.  At a valid clock
    reading it raises [OverflowError] exactly when 90 days earlier is before
    0001-01-01; it has then only opened the connection: no DELETE is
    executed and the tables are as they were.  At any later reading it
    executes one DELETE with the cutoff [isoformat] of the reading less 90
    days, commits and closes. *)
Theorem X12_cleanup_old_logins_overflow (w : world) :
  valid (clock w) = true ->
  (toordinal (clock w) <= 90 ->
   cleanup_old_logins w = (Raise OverflowError, with_calls [Connect] w))
  /\ (90 < toordinal (clock w) ->
      exists cutoff,
        sub (clock w) (timedelta_of 90 0 0) = Some cutoff
        /\ fst (cleanup_old_logins w) = Return tt
        /\ calls (snd (cleanup_old_logins w))
           = (calls w ++ [Connect; DeleteLoginsBefore (isoformat cutoff); Commit; Close])%list)
  /\ (forall e, fst (cleanup_old_logins w) = Raise e ->
        e = OverflowError /\ toordinal (clock w) <= 90
        /\ db (snd (cleanup_old_logins w)) = db w).
Proof.
  intros Hv. pose proof (toordinal_range _ Hv) as Hr.
  rewrite cleanup_old_logins_run. unfold LOGIN_RETENTION_DAYS. split; [|split].
  - intros Hearly. rewrite sub_days_overflow by (assumption || lia). reflexivity.
  - intros Hlate. destruct (sub_days (clock w) 90 Hv ltac:(lia)) as (cutoff & Hsub & _).
    exists cutoff. rewrite Hsub. repeat split.
  - intros e. destruct (Z_le_gt_dec (toordinal (clock w)) 90) as [Hearly|Hlate].
    + rewrite sub_days_overflow by (assumption || lia). cbn [fst snd].
      intros [= <-]. repeat split. exact Hearly.
    + destruct (sub_days (clock w) 90 Hv ltac:(lia)) as (cutoff & -> & _). discriminate.
Qed.

Lemma X12_cleanup_old_logins_overflow_witness :
  cleanup_old_logins early_world = (Raise OverflowError, with_calls [Connect] early_world)
  /\ logins (db (snd (cleanup_old_logins early_world))) = [old_login].
Proof.
  assert (H : cleanup_old_logins early_world
              = (Raise OverflowError, with_calls [Connect] early_world)).
  { apply (proj1 (X12_cleanup_old_logins_overflow early_world eq_refl)).
    vm_compute. discriminate. }
  split; [exact H|]. rewrite H. reflexivity.
Defined.

(* ===================================================================== *)
(** * Invariants of the tables                                            *)
(* ===================================================================== *)

Lemma step_clock op w :
  clock (step op w) = match op with OpClock now => now | _ => clock w end.
Proof.
  destruct op; cbn [step].
  - rewrite init_database_run. reflexivity.
  - rewrite generate_token_run. cbv zeta.
    destruct (add (clock w) (timedelta_of 28 0 0)); [|reflexivity].
    destruct (tokens (db w) !! _); reflexivity.
  - rewrite verify_token_eq. reflexivity.
  - rewrite log_login_run. reflexivity.
  - rewrite cleanup_old_logins_run.
    destruct (sub (clock w) (timedelta_of LOGIN_RETENTION_DAYS 0 0)); reflexivity.
  - apply do_GET_frame.
  - reflexivity.
  - reflexivity.
Qed.

(** The [tokens] table after a step: what it was, with one more row when
    the step is an issuance that succeeds. *)
Lemma step_tokens op w :
  tokens (db (step op w)) = tokens (db w)
  \/ exists random_bytes expires,
       op = OpIssue random_bytes
       /\ add (clock w) (timedelta_of 28 0 0) = Some expires
       /\ tokens (db w) !! hash_token ("d2d_" +:+ random_bytes) = None
       /\ tokens (db (step op w))
          = <[hash_token ("d2d_" +:+ random_bytes)
              := mkToken (isoformat (clock w)) (isoformat expires)]> (tokens (db w)).
Proof.
  destruct op; cbn [step].
  - left. rewrite init_database_run. reflexivity.
  - rewrite generate_token_run. cbv zeta.
    destruct (add (clock w) (timedelta_of 28 0 0)) as [expires|] eqn:Hadd;
      [|left; reflexivity].
    destruct (tokens (db w) !! _) eqn:Hrow; [left; reflexivity|].
    right. exists random_bytes, expires. auto.
  - left. rewrite verify_token_db. reflexivity.
  - left. rewrite log_login_run. reflexivity.
  - left. rewrite cleanup_old_logins_run.
    destruct (sub (clock w) (timedelta_of LOGIN_RETENTION_DAYS 0 0)); reflexivity.
  - left. rewrite do_GET_db. destruct (_ && _ && _); [reflexivity|].
    apply persisted_by_tokens.
  - left. reflexivity.
  - left. reflexivity.
Qed.

Lemma written_spec row :
  written row ->
  exists created expires,
    row = mkToken (isoformat created) (isoformat expires)
    /\ valid created = true /\ valid expires = true
    /\ to_microseconds expires = to_microseconds created + 28 * DAY_US
    /\ fromisoformat (expires_at row) = Some expires.
Proof.
  intros (created & expires & Hv & Hadd & ->). exists created, expires.
  destruct (add_spec _ _ _ Hv Hadd) as [Hve Hus].
  rewrite timedelta_of_microseconds in Hus.
  split; [reflexivity|]. split; [assumption|]. split; [assumption|].
  split; [unfold DAY_US; lia|]. cbn [expires_at]. apply fromisoformat_isoformat, Hve.
Qed.

Lemma step_written op w :
  valid_operation op = true ->
  tokens_written (db w) /\ valid (clock w) = true ->
  tokens_written (db (step op w)) /\ valid (clock (step op w)) = true.
Proof.
  intros Hop [Hp Hv]. split.
  - intros h row.
    destruct (step_tokens op w) as [Heq | (rb & expires & -> & Hadd & Hfresh & Heq)];
      rewrite Heq; [apply Hp|].
    intros Hrow. destruct (decide (h = hash_token ("d2d_" +:+ rb))) as [->|Hne].
    + rewrite lookup_insert_eq in Hrow. injection Hrow as <-.
      exists (clock w), expires. auto.
    + rewrite lookup_insert_ne in Hrow by congruence. exact (Hp h row Hrow).
  - rewrite step_clock. destruct op; try exact Hv. exact Hop.
Qed.

Lemma run_written ops w :
  forallb valid_operation ops = true ->
  tokens_written (db w) /\ valid (clock w) = true ->
  tokens_written (db (run ops w)) /\ valid (clock (run ops w)) = true.
Proof.
  revert w. induction ops as [|op ops IH]; intros w Hops Hw; [exact Hw|].
  cbn [forallb] in Hops. apply andb_true_iff in Hops. destruct Hops as [Hop Hops].
  apply (IH (step op w) Hops), step_written; assumption.
Qed.

(** X13. Every token lives 28 days.  If every row of [tokens] is as
    [generate_token] writes it, the [isoformat] texts of a valid datetime
    and of the datetime 28 days later, this remains so after any sequence of
    operations that keep the clock valid: every [expires_at] stored reads
    back as the [created_at] of its row plus 28 days, to the microsecond,
    and for a well-formed token that has a row [verify_token] answers
    whether the clock is before that instant. *)
Theorem X13_token_rows_as_written (ops : list operation) (w : world) :
  tokens_written (db w) -> valid (clock w) = true ->
  forallb valid_operation ops = true ->
  let w' := run ops w in
  tokens_written (db w')
  /\ (forall h row, tokens (db w') !! h = Some row ->
        exists created expires,
          row = mkToken (isoformat created) (isoformat expires)
          /\ valid created = true /\ valid expires = true
          /\ to_microseconds expires = to_microseconds created + 28 * DAY_US
          /\ fromisoformat (expires_at row) = Some expires)
  /\ (forall t row,
        PyStr.truthy t = true -> PyStr.startswith "d2d_" t = true ->
        tokens (db w') !! Sha256.hexdigest (PyStr.encode t) = Some row ->
        exists created,
          created_at row = isoformat created /\ valid created = true
          /\ fst (verify_token (Some t) w')
             = Return (to_microseconds (clock w')
                       <? to_microseconds created + 28 * DAY_US)).
Proof.
  intros Hp Hv Hops. cbv zeta.
  destruct (run_written ops w Hops (conj Hp Hv)) as [Hp' Hv'].
  set (w' := run ops w) in *. clearbody w'. split; [exact Hp'|]. split.
  - intros h row Hrow. apply written_spec, (Hp' h row Hrow).
  - intros t row Ht Hprefix Hrow.
    change (Sha256.hexdigest (PyStr.encode t)) with (hash_token t) in Hrow.
    destruct (written_spec row (Hp' _ row Hrow))
      as (created & expires & -> & Hvc & Hve & Hus & Hparse).
    exists created. split; [reflexivity|]. split; [assumption|].
    rewrite verify_token_run by assumption. cbv zeta. rewrite Hrow, Hparse.
    cbn [fst]. rewrite lt_to_microseconds, Hus by assumption. reflexivity.
Qed.

Lemma X13_token_rows_as_written_witness :
  fst (verify_token (Some "d2d_abc123")
         (run [OpIssue "abc123"; OpPrune; OpClock (mkDatetime 2026 12 2 11 59 59 999999)]
              fresh_world))
  = Return true
  /\ fst (verify_token (Some "d2d_abc123")
            (run [OpIssue "abc123"; OpPrune; OpClock (mkDatetime 2026 12 2 12 0 0 0)]
                 fresh_world))
     = Return false.
Proof.
  assert (Hp : tokens_written (db fresh_world)).
  { intros h row Hrow. vm_compute in Hrow. discriminate Hrow. }
  split.
  - destruct (proj2 (proj2 (X13_token_rows_as_written
                [OpIssue "abc123"; OpPrune; OpClock (mkDatetime 2026 12 2 11 59 59 999999)]
                fresh_world Hp eq_refl eq_refl))
                "d2d_abc123" (mkToken "2026-11-04T12:00:00" "2026-12-02T12:00:00")
                eq_refl eq_refl)
      as (created & Hcreated & Hvc & ->); [vm_compute; reflexivity|].
    cbn [created_at] in Hcreated.
    rewrite <- (isoformat_inj (mkDatetime 2026 11 4 12 0 0 0) created eq_refl Hvc Hcreated).
    vm_compute. reflexivity.
  - destruct (proj2 (proj2 (X13_token_rows_as_written
                [OpIssue "abc123"; OpPrune; OpClock (mkDatetime 2026 12 2 12 0 0 0)]
                fresh_world Hp eq_refl eq_refl))
                "d2d_abc123" (mkToken "2026-11-04T12:00:00" "2026-12-02T12:00:00")
                eq_refl eq_refl)
      as (created & Hcreated & Hvc & ->); [vm_compute; reflexivity|].
    cbn [created_at] in Hcreated.
    rewrite <- (isoformat_inj (mkDatetime 2026 11 4 12 0 0 0) created eq_refl Hvc Hcreated).
    vm_compute. reflexivity.
Defined.


(** X14. An expired token stays expired.  If [verify_token] answers false
    for a token that has a row in [tokens], it answers false again after any
    sequence of operations, provided the clock reading then is valid and not
    earlier than it was. *)
Theorem X14_expired_token_stays_expired (token : string) (row : token_row)
    (ops : list operation) (w : world) :
  tokens (db w) !! Sha256.hexdigest (PyStr.encode token) = Some row ->
  valid (clock w) = true -> valid (clock (run ops w)) = true ->
  Datetime.le (clock w) (clock (run ops w)) = true ->
  fst (verify_token (Some token) w) = Return false ->
  fst (verify_token (Some token) (run ops w)) = Return false.
Proof.
  change (Sha256.hexdigest (PyStr.encode token)) with (hash_token token).
  intros Hrow Hv Hv' Hle. rewrite !verify_answer_fst. unfold verify_answer.
  rewrite (run_keeps_token_rows ops w _ _ Hrow), Hrow.
  destruct (negb (PyStr.truthy token) || negb (PyStr.startswith "d2d_" token));
    [reflexivity|].
  destruct (fromisoformat (expires_at row)) as [expires|] eqn:Hparse; [|discriminate].
  pose proof (fromisoformat_valid _ _ Hparse) as Hve.
  rewrite le_to_microseconds in Hle by assumption.
  rewrite !lt_to_microseconds by assumption.
  intros [= Hlt]. f_equal. apply Z.leb_le in Hle. apply Z.ltb_ge in Hlt.
  apply Z.ltb_ge. lia.
Qed.

Lemma X14_expired_token_stays_expired_witness :
  let w := with_clock (mkDatetime 2026 12 2 12 0 0 0) issued_world in
  fst (verify_token (Some "d2d_abc123")
         (run [OpPrune; OpClock (mkDatetime 2027 6 1 0 0 0 0); OpIssue "zzz"] w))
  = Return false.
Proof.
  cbv zeta.
  apply (X14_expired_token_stays_expired "d2d_abc123"
           (mkToken "2026-11-04T12:00:00" "2026-12-02T12:00:00")
           [OpPrune; OpClock (mkDatetime 2027 6 1 0 0 0 0); OpIssue "zzz"]
           (with_clock (mkDatetime 2026 12 2 12 0 0 0) issued_world));
    vm_compute; reflexivity.
Defined.

(** The [logins] table and its counter after a step: as they were, or with
    the row of a login appended, or with some rows deleted. *)
Lemma persisted_by_cases r d now :
  persisted_by r d now = d
  \/ exists t, persisted_by r d now
               = login_db t (get_client_ip r) (headers r !! "User-Agent") d now.
Proof.
  unfold persisted_by. destruct (request_token r) as [[t|]|]; [| |left; reflexivity].
  - repeat match goal with
    | |- context [if ?b then _ else _] => destruct b
    | |- context [match verify_answer ?t ?d ?n with _ => _ end] =>
        destruct (verify_answer t d n) as [[|]|]
    end; first [left; reflexivity | right; eexists; reflexivity].
  - repeat match goal with
    | |- context [if ?b then _ else _] => destruct b
    | |- context [match verify_answer ?t ?d ?n with _ => _ end] =>
        destruct (verify_answer t d n) as [[|]|]
    end; left; reflexivity.
Qed.

Lemma step_logins op w :
  (logins (db (step op w)) = logins (db w)
   /\ logins_seq (db (step op w)) = logins_seq (db w))
  \/ (exists token ip ua,
        logins (db (step op w))
        = (logins (db w) ++ [login_row_of token ip ua (db w) (clock w)])%list
        /\ logins_seq (db (step op w)) = next_rowid (db w))
  \/ (exists f,
        logins (db (step op w)) = List.filter f (logins (db w))
        /\ logins_seq (db (step op w)) = logins_seq (db w)).
Proof.
  destruct op as [|rb|token|token ip ua| |r|now|answers]; cbn [step].
  - left. rewrite init_database_run. split; reflexivity.
  - left. rewrite generate_token_run. cbv zeta.
    destruct (add (clock w) (timedelta_of 28 0 0)); [|split; reflexivity].
    destruct (tokens (db w) !! _); split; reflexivity.
  - left. rewrite verify_token_db. split; reflexivity.
  - right. left. exists token, ip, ua. rewrite log_login_run. split; reflexivity.
  - rewrite cleanup_old_logins_run.
    destruct (sub (clock w) (timedelta_of LOGIN_RETENTION_DAYS 0 0)) as [cutoff|];
      [|left; split; reflexivity].
    right. right. eexists. split; reflexivity.
  - rewrite do_GET_db. destruct (_ && _ && _); [left; split; reflexivity|].
    destruct (persisted_by_cases r (db w) (clock w)) as [-> | [t ->]];
      [left; split; reflexivity|].
    right. left. exists t, (get_client_ip r), (headers r !! "User-Agent").
    split; reflexivity.
  - left. split; reflexivity.
  - left. split; reflexivity.
Qed.

Lemma ids_increasing_weaken a b rows :
  a <= b -> ids_increasing b rows = true -> ids_increasing a rows = true.
Proof.
  destruct rows as [|r rows]; [reflexivity|]. cbn [ids_increasing].
  rewrite !andb_true_iff, !Z.ltb_lt. intros Hab [Hb Hrows]. split; [lia|exact Hrows].
Qed.

Lemma ids_increasing_filter f a rows :
  ids_increasing a rows = true -> ids_increasing a (List.filter f rows) = true.
Proof.
  revert a. induction rows as [|r rows IH]; intros a; [reflexivity|].
  cbn [ids_increasing List.filter]. rewrite andb_true_iff, Z.ltb_lt. intros [Ha Hrows].
  destruct (f r).
  - cbn [ids_increasing]. rewrite andb_true_iff, Z.ltb_lt. auto.
  - apply (ids_increasing_weaken a (id r)); [lia|]. apply IH, Hrows.
Qed.

Lemma max_rowid_nonneg rows : 0 <= max_rowid rows.
Proof.
  induction rows as [|r rows IH]; unfold max_rowid in *; cbn [fold_right]; lia.
Qed.

Lemma max_rowid_filter f rows : max_rowid (List.filter f rows) <= max_rowid rows.
Proof.
  induction rows as [|r rows IH]; [reflexivity|]. cbn [List.filter].
  destruct (f r); unfold max_rowid in *; cbn [fold_right]; lia.
Qed.

Lemma max_rowid_app rows r :
  max_rowid (rows ++ [r]) = Z.max (max_rowid rows) (Z.max (id r) 0).
Proof.
  induction rows as [|r' rows IH]; unfold max_rowid in *; cbn [app fold_right];
    [lia|]. rewrite IH. lia.
Qed.

Lemma ids_increasing_app a rows r :
  ids_increasing a rows = true -> Z.max a (max_rowid rows) < id r ->
  ids_increasing a (rows ++ [r]) = true.
Proof.
  revert a. induction rows as [|r' rows IH]; intros a.
  - cbn [app ids_increasing max_rowid fold_right]. intros _ H.
    rewrite andb_true_iff, Z.ltb_lt. split; [lia|reflexivity].
  - cbn [app ids_increasing]. rewrite !andb_true_iff, !Z.ltb_lt. intros [Ha Hrows] H.
    split; [exact Ha|]. apply IH; [exact Hrows|].
    unfold max_rowid in *. cbn [fold_right] in H. lia.
Qed.

Lemma ids_increasing_above a rows :
  ids_increasing a rows = true -> Forall (fun r => a < id r <= max_rowid rows) rows.
Proof.
  revert a. induction rows as [|r rows IH]; intros a; [constructor|].
  cbn [ids_increasing]. rewrite andb_true_iff, Z.ltb_lt. intros [Ha Hrows].
  pose proof (max_rowid_nonneg rows) as Hn.
  constructor; [unfold max_rowid in *; cbn [fold_right]; lia|].
  eapply List.Forall_impl; [|apply (IH _ Hrows)].
  intros r' H. cbn beta in H. unfold max_rowid in *. cbn [fold_right]. lia.
Qed.

Lemma ids_increasing_NoDup a rows :
  ids_increasing a rows = true -> NoDup (map id rows).
Proof.
  revert a. induction rows as [|r rows IH]; intros a; [constructor|].
  cbn [ids_increasing map]. rewrite andb_true_iff. intros [_ Hrows].
  constructor; [|apply (IH _ Hrows)].
  intros Hin. apply list_elem_of_In, in_map_iff in Hin. destruct Hin as (r' & Heq & Hin).
  pose proof (ids_increasing_above _ _ Hrows) as Hall.
  rewrite List.Forall_forall in Hall. specialize (Hall r' Hin). lia.
Qed.

Lemma step_rowids op w :
  rowids_ok (db w) = true ->
  rowids_ok (db (step op w)) = true
  /\ logins_seq (db w) <= logins_seq (db (step op w)).
Proof.
  unfold rowids_ok. rewrite !andb_true_iff, !Z.leb_le. intros [Hinc Hmax].
  pose proof (max_rowid_nonneg (logins (db w))) as Hn.
  destruct (step_logins op w)
    as [[-> ->] | [(token & ip & ua & -> & ->) | (f & -> & ->)]].
  - split; [split; assumption | lia].
  - unfold next_rowid. rewrite max_rowid_app. cbn [login_row_of id].
    unfold next_rowid. split; [split|]; try lia.
    apply ids_increasing_app; [exact Hinc|].
    unfold login_row_of, next_rowid. cbn [id]. lia.
  - split; [split|]; try lia.
    + apply ids_increasing_filter, Hinc.
    + pose proof (max_rowid_filter f (logins (db w))). lia.
Qed.

Lemma run_rowids ops w :
  rowids_ok (db w) = true ->
  rowids_ok (db (run ops w)) = true
  /\ logins_seq (db w) <= logins_seq (db (run ops w)).
Proof.
  revert w. induction ops as [|op ops IH]; intros w Hw; [split; [exact Hw|apply Z.le_refl]|].
  destruct (step_rowids op w Hw) as [Hok Hseq].
  destruct (IH (step op w) Hok) as [Hok' Hseq']. cbn [run fold_left].
  split; [exact Hok'|]. unfold run in Hseq'. lia.
Qed.

(** X15. Rowids of [logins] are never used twice.  If the rowids of
    [logins] are positive, increase down the table and do not exceed the
    AUTOINCREMENT counter, this remains so after any sequence of operations
    that leaves the counter below the largest rowid, 2^63 - 1 (the counter
    never decreases, so it was below it all along); no two rows share a
    rowid, and the next [log_login] gives its row the counter plus one, the
    rows deleted by [cleanup_old_logins] included in the count. *)
Theorem X15_login_rowids_never_reused (ops : list operation) (w : world) :
  rowids_ok (db w) = true ->
  logins_seq (db (run ops w)) < MAX_ROWID ->
  let w' := run ops w in
  rowids_ok (db w') = true
  /\ logins_seq (db w) <= logins_seq (db w')
  /\ NoDup (map id (logins (db w')))
  /\ Forall (fun r => 0 < id r <= logins_seq (db w')) (logins (db w'))
  /\ forall token ip ua,
       exists row,
         logins (db (snd (log_login token ip ua w'))) = (logins (db w') ++ [row])%list
         /\ id row = logins_seq (db w') + 1
         /\ id row <= MAX_ROWID.
Proof.
  intros Hw Hbound. cbv zeta. destruct (run_rowids ops w Hw) as [Hok Hseq].
  set (w' := run ops w) in *. clearbody w'.
  split; [exact Hok|]. split; [exact Hseq|].
  unfold rowids_ok in Hok. apply andb_true_iff in Hok. destruct Hok as [Hinc Hmax].
  apply Z.leb_le in Hmax.
  split; [apply (ids_increasing_NoDup 0), Hinc|]. split.
  - eapply List.Forall_impl; [|apply (ids_increasing_above _ _ Hinc)].
    intros r H. cbn beta in H. lia.
  - intros token ip ua. rewrite log_login_run. cbv zeta. cbn [snd db logins].
    eexists. split; [reflexivity|]. cbn [id]. unfold next_rowid. lia.
Qed.

Lemma X15_login_rowids_never_reused_witness :
  NoDup (map id (logins (db (run [OpLogin "d2d_abc123" "1.2.3.4" None; OpPrune;
                                  OpLogin "d2d_abc123" "1.2.3.4" None] logged_world)))).
Proof.
  apply (X15_login_rowids_never_reused
           [OpLogin "d2d_abc123" "1.2.3.4" None; OpPrune;
            OpLogin "d2d_abc123" "1.2.3.4" None] logged_world).
  - reflexivity.
  - vm_compute. reflexivity.
Defined.


Lemma login_row_of_ok token ip ua d now :
  login_row_ok (login_row_of token ip ua d now) = true.
Proof.
  unfold login_row_ok, login_row_of. cbn [token_hash user_agent].
  unfold hash_token. rewrite length_hexdigest. cbn [Nat.eqb andb].
  apply Nat.leb_le, length_take.
Qed.

Lemma forallb_filter {A} (p f : A -> bool) (l : list A) :
  forallb p l = true -> forallb p (List.filter f l) = true.
Proof.
  induction l as [|x l IH]; [reflexivity|]. cbn [forallb List.filter].
  intros H. apply andb_true_iff in H. destruct H as [Hx Hl].
  destruct (f x); [cbn [forallb]; rewrite Hx|]; auto.
Qed.

Lemma step_login_rows op w :
  forallb login_row_ok (logins (db w)) = true ->
  forallb login_row_ok (logins (db (step op w))) = true.
Proof.
  intros Hw.
  destruct (step_logins op w)
    as [[-> _] | [(token & ip & ua & -> & _) | (f & -> & _)]].
  - exact Hw.
  - rewrite forallb_app, Hw. cbn [forallb]. rewrite login_row_of_ok. reflexivity.
  - apply forallb_filter, Hw.
Qed.

(** X16. The rows of [logins].  If every row of [logins] has a hash of 64
    characters and a user agent that is a text of at most 200 characters,
    this remains so after any sequence of operations: although the column
    may be NULL, no operation stores a NULL user agent. *)
Theorem X16_login_rows_well_formed (ops : list operation) (w : world) :
  forallb login_row_ok (logins (db w)) = true ->
  forallb login_row_ok (logins (db (run ops w))) = true
  /\ forall r, In r (logins (db (run ops w))) ->
       String.length (token_hash r) = 64%nat
       /\ exists ua, user_agent r = Some ua /\ (String.length ua <= 200)%nat.
Proof.
  intros Hw.
  assert (H : forallb login_row_ok (logins (db (run ops w))) = true).
  { revert w Hw. induction ops as [|op ops IH]; intros w Hw; [exact Hw|].
    apply (IH (step op w)), step_login_rows, Hw. }
  split; [exact H|]. intros r Hr.
  rewrite forallb_forall in H. specialize (H r Hr). unfold login_row_ok in H.
  apply andb_true_iff in H. destruct H as [Hh Hua]. apply Nat.eqb_eq in Hh.
  split; [exact Hh|]. destruct (user_agent r) as [ua|]; [|discriminate].
  exists ua. split; [reflexivity|]. apply Nat.leb_le, Hua.
Qed.

Lemma X16_login_rows_well_formed_witness :
  forallb login_row_ok
    (logins (db (run [OpGet forwarded_request; OpLogin "anything" "1.2.3.4" None]
                     issued_world))) = true.
Proof.
  apply (X16_login_rows_well_formed [OpGet forwarded_request; OpLogin "anything" "1.2.3.4" None]
           issued_world).
  reflexivity.
Defined.

(** X17. A login is kept for 90 days.  The row [log_login] writes at a
    valid clock reading is in [logins]; it survives a [cleanup_old_logins]
    run at a later valid reading if and only if that reading is at most 90
    days, to the microsecond, after the login. *)
Theorem X17_login_kept_for_90_days (token ip : string) (ua : option string) (w : world)
    (later : datetime) :
  valid (clock w) = true -> valid later = true -> 90 < toordinal later ->
  let row := mkLogin (next_rowid (db w)) (Sha256.hexdigest (PyStr.encode token)) ip
                     (Some (PyStr.take 200 (PyStr.or_empty ua))) (isoformat (clock w)) in
  let w1 := snd (log_login token ip ua w) in
  let w2 := snd (cleanup_old_logins (with_clock later w1)) in
  In row (logins (db w1))
  /\ (In row (logins (db w2))
      <-> to_microseconds later - to_microseconds (clock w) <= 90 * DAY_US).
Proof.
  change (Sha256.hexdigest (PyStr.encode token)) with (hash_token token).
  intros Hv Hv' Hord. cbv zeta. rewrite log_login_run. cbv zeta. cbn [snd].
  pose proof (toordinal_range _ Hv') as Hr.
  destruct (sub_days later 90 Hv' ltac:(lia)) as (cutoff & Hsub & Hvc & Hus).
  rewrite cleanup_old_logins_run. unfold LOGIN_RETENTION_DAYS.
  cbn [with_clock clock db]. rewrite Hsub. cbn [snd db logins].
  split; [apply in_or_app; right; left; reflexivity|].
  rewrite filter_In. cbn [timestamp].
  rewrite text_lt_isoformat, lt_to_microseconds by assumption.
  rewrite negb_true_iff, Z.ltb_ge. split.
  - intros [_ H]. lia.
  - intros H. split; [apply in_or_app; right; left; reflexivity|lia].
Qed.

Lemma X17_login_kept_for_90_days_witness :
  In (mkLogin 1 (hash_token "d2d_abc123") "1.2.3.4" (Some EmptyString) "2026-11-04T12:00:00")
     (logins (db (snd (cleanup_old_logins
                         (with_clock (mkDatetime 2027 2 2 12 0 0 0)
                            (snd (log_login "d2d_abc123" "1.2.3.4" None fresh_world))))))).
Proof.
  apply (proj2 (X17_login_kept_for_90_days "d2d_abc123" "1.2.3.4" None fresh_world
                  (mkDatetime 2027 2 2 12 0 0 0) eq_refl eq_refl eq_refl)).
  vm_compute. discriminate.
Defined.


(* ===================================================================== *)
(** * The listing of recent logins                                        *)
(* ===================================================================== *)

Lemma insert_by_id_desc_last r rows :
  Forall (fun r' => id r < id r') rows -> insert_by_id_desc r rows = (rows ++ [r])%list.
Proof.
  induction rows as [|r' rows IH]; [reflexivity|]. intros H.
  apply Forall_cons in H. destruct H as [Hr' Hrows]. cbn [insert_by_id_desc app].
  destruct (Z.ltb_spec (id r') (id r)); [lia|]. rewrite (IH Hrows). reflexivity.
Qed.

Lemma order_by_id_desc_increasing a rows :
  ids_increasing a rows = true -> order_by_id_desc rows = rev rows.
Proof.
  revert a. induction rows as [|r rows IH]; intros a; [reflexivity|].
  cbn [ids_increasing]. rewrite andb_true_iff. intros [_ Hrows].
  unfold order_by_id_desc in *. cbn [fold_right rev]. rewrite (IH _ Hrows).
  apply insert_by_id_desc_last. apply Forall_rev.
  eapply List.Forall_impl; [|apply (ids_increasing_above _ _ Hrows)].
  intros r' H. cbn beta in H. lia.
Qed.

Lemma show_logins_ok rows :
  forallb login_row_ok rows = true ->
  exists lines, show_logins rows = Some lines /\ List.length lines = List.length rows.
Proof.
  induction rows as [|r rows IH]; [exists []; split; reflexivity|].
  cbn [forallb show_logins]. intros H. apply andb_true_iff in H. destruct H as [Hr Hrows].
  destruct (IH Hrows) as (lines & -> & Hlen).
  unfold login_row_ok in Hr. apply andb_true_iff in Hr. destruct Hr as [_ Hua].
  unfold show_login. destruct (user_agent r) as [ua|]; [|discriminate].
  eexists. split; [reflexivity|]. cbn [List.length]. rewrite Hlen. reflexivity.
Qed.

Lemma forallb_firstn {A} (p : A -> bool) n (l : list A) :
  forallb p l = true -> forallb p (firstn n l) = true.
Proof.
  revert l. induction n as [|n IH]; intros l; [reflexivity|].
  destruct l as [|x l]; [reflexivity|]. cbn [firstn forallb].
  intros H. apply andb_true_iff in H. destruct H as [-> Hl]. apply IH, Hl.
Qed.

Lemma forallb_rev {A} (p : A -> bool) (l : list A) :
  forallb p l = true -> forallb p (rev l) = true.
Proof.
  rewrite !forallb_forall. intros H x Hx. apply H, in_rev, Hx.
Qed.

(** X18. [--show-logins].  When the rowids of [logins] increase down the
    table and every row has a user agent of at most 200 characters, the
    query of [--show-logins] returns the rows from the last inserted
    backwards, 50 at most, and a line is printed for each of them: slicing
    the user agent never raises. *)
Theorem X18_show_logins_recent_first (d : database) :
  rowids_ok d = true -> forallb login_row_ok (logins d) = true ->
  recent_logins d = firstn 50 (rev (logins d))
  /\ exists lines,
       show_logins (recent_logins d) = Some lines
       /\ List.length lines = Nat.min 50 (List.length (logins d)).
Proof.
  intros Hids Hrows. unfold rowids_ok in Hids. apply andb_true_iff in Hids.
  destruct Hids as [Hinc _]. unfold recent_logins.
  rewrite (order_by_id_desc_increasing _ _ Hinc). split; [reflexivity|].
  destruct (show_logins_ok (firstn 50 (rev (logins d)))) as (lines & Hlines & Hlen).
  { apply forallb_firstn, forallb_rev, Hrows. }
  exists lines. split; [exact Hlines|].
  rewrite Hlen, length_firstn, length_rev. reflexivity.
Qed.

Lemma X18_show_logins_recent_first_witness :
  recent_logins (db logged_world) = [recent_login; old_login]
  /\ show_logins (recent_logins (db logged_world))
     = Some ["  2026-03-15T08:30:00.250000 | 1.2.3.4 | a0cdc18bd52cc842... | curl/8.0";
             "  2026-01-01T00:00:00 | 1.2.3.4 | a0cdc18bd52cc842... | curl/8.0"].
Proof.
  destruct (X18_show_logins_recent_first (db logged_world) eq_refl eq_refl)
    as (Hrows & lines & Hlines & _).
  split; [exact Hrows|]. vm_compute. reflexivity.
Defined.

(* ===================================================================== *)
(** * The embedding on known values                                       *)
(* ===================================================================== *)

(** FIPS 180-4 test vectors and the digests [hashlib] gives. *)
Example hash_token_empty :
  hash_token "" = "e3b0c44298fc1c149afbf4c8996fb92427ae41e4649b934ca495991b7852b855".
Proof. vm_compute. reflexivity. Qed.

Example hash_token_abc :
  hash_token "abc" = "ba7816bf8f01cfea414140de5dae2223b00361a396177a9cb410ff61f20015ad".
Proof. vm_compute. reflexivity. Qed.

Example hash_token_d2d :
  hash_token "d2d_abc123"
  = "a0cdc18bd52cc8426836e7f2fe3b0f1c36afbce99791bee37803e932562d2fc0".
Proof. vm_compute. reflexivity. Qed.

(** A code point above U+007F is hashed through its two UTF-8 bytes. *)
Example hash_token_latin1 :
  hash_token ("d2d_" +:+ String (ascii_of_nat 233) "")
  = "3955809cca1aace6ee996bc91ebfe7de3cce8e42477a9e906fa6ab006f754abf".
Proof. vm_compute. reflexivity. Qed.

(** Messages of 56 and 119 bytes: the padding spills into one more block. *)
Example hash_token_56 :
  hash_token "aaaaaaaaaaaaaaaaaaaaaaaaaaaaaaaaaaaaaaaaaaaaaaaaaaaaaaaa"
  = "b35439a4ac6f0948b6d6f9e3c6af0f5f590ce20f1bde7090ef7970686ec6738a".
Proof. vm_compute. reflexivity. Qed.

Example isoformat_whole_second :
  isoformat (mkDatetime 2026 1 2 3 4 5 0) = "2026-01-02T03:04:05".
Proof. vm_compute. reflexivity. Qed.

Example isoformat_microseconds :
  isoformat (mkDatetime 26 11 22 13 14 15 67) = "0026-11-22T13:14:15.000067".
Proof. vm_compute. reflexivity. Qed.

Example add_28_days_over_leap_day :
  add (mkDatetime 2024 2 10 13 14 15 67) (timedelta_of 28 0 0)
  = Some (mkDatetime 2024 3 9 13 14 15 67).
Proof. vm_compute. reflexivity. Qed.

Example sub_90_days :
  sub (mkDatetime 2026 11 4 13 14 15 67) (timedelta_of 90 0 0)
  = Some (mkDatetime 2026 8 6 13 14 15 67).
Proof. vm_compute. reflexivity. Qed.

Example sub_one_microsecond_borrows :
  sub (mkDatetime 2026 1 1 0 0 0 0) (timedelta_of 0 0 1)
  = Some (mkDatetime 2025 12 31 23 59 59 999999).
Proof. vm_compute. reflexivity. Qed.

Example last_day : ord2ymd 3652059 = (9999, 12, 31).
Proof. vm_compute. reflexivity. Qed.

(** The scenario of the specification: issue, verify, log a login, read the
    logins, verify again 29 days later. *)
Example scenario :
  let w1 := issued_world in
  let w2 := snd (verify_token (Some "d2d_abc123") w1) in
  let w3 := snd (log_login "d2d_abc123" "1.2.3.4" (Some "curl/8.0") w2) in
  let w4 := with_clock (mkDatetime 2026 12 3 12 0 0 0) w3 in
  fst (verify_token (Some "d2d_abc123") w1) = Return true
  /\ logins (db w3)
     = [mkLogin 1 "a0cdc18bd52cc8426836e7f2fe3b0f1c36afbce99791bee37803e932562d2fc0"
                "1.2.3.4" (Some "curl/8.0") "2026-11-04T12:00:00"]
  /\ fst (verify_token (Some "d2d_abc123") w4) = Return false.
Proof. vm_compute. repeat split; reflexivity. Qed.
